(** * OpenSystem VTL immutability: tape classification and transition engine

    A shallow embedding of the three Python modules of the repository

    - [utils.py]                     (module [Utils])
    - [open_system_vtl_immutable.py] (module [Immutable], class [OpenSystem])
    - [open_system_vtl_reset.py]     (module [Reset], class [OpenSystemVTLReset])

    together with the fragments of the Python runtime they rely on
    (module [Py]: [str] methods, [float()], [int()], [datetime]).

    Conventions of the embedding.
    - A Python [str] is a [string] of 8-bit characters; the whitespace
      class is the ASCII part of the one used by [str.strip]/[str.split].
    - A Python [float] is a binary64 value, [spec_float] at precision 53
      and maximal exponent 1024, with the rounding of the standard library.
    - An exception is a value of [exn]; a call either returns ([Ok]) or
      raises ([Raise]); [try/except] is written out as a match.
    - The remote appliance, the catalog tools, the log and the blocking
      waits are an explicit [world]: the replies the environment is going
      to give, and the record of what the program did. *)

From Stdlib Require Import ZArith List String Ascii Bool Lia Permutation.
From Stdlib Require Import Floats.SpecFloat.
From Stdlib Require DecimalString.
Import ListNotations.

Open Scope string_scope.
Open Scope Z_scope.

(* ===================================================================== *)
(** * Python runtime fragments *)
(* ===================================================================== *)

Module Py.

(** ** Exceptions and results *)

Inductive exn : Type :=
  | ValueError (msg : string)
  | IndexError (msg : string)
  | TypeError (msg : string)
  | AttributeError (msg : string)
  | OverflowError (msg : string)
  | OSError (msg : string)
  | BrokenPipeError (msg : string)
  | CalledProcessError (returncode : Z)
  | SystemExit (status : Z).
(* [SystemExit] is raised by [validate_input_parameters] alone, which no
   [try] encloses; every other exception is an [Exception].  The message
   of a [ValueError] of [float], of [strptime] and of an unpacking is
   shortened; no statement below depends on its text. *)

(** [str(e)] *)
Definition str_of_exn (e : exn) : string :=
  match e with
  | ValueError m | IndexError m | TypeError m | AttributeError m
  | OverflowError m | OSError m | BrokenPipeError m => m
  | CalledProcessError _ => "Command returned non-zero exit status"
  | SystemExit _ => "SystemExit"
  end.

Inductive result (A : Type) : Type :=
  | Ok (a : A)
  | Raise (e : exn).
Arguments Ok {A} a.
Arguments Raise {A} e.

Definition is_ok {A} (r : result A) : bool :=
  match r with Ok _ => true | Raise _ => false end.

(** ** Characters *)

Definition code (c : ascii) : Z := Z.of_nat (nat_of_ascii c).

(** [str.isspace] on one character: TAB, LF, VT, FF, CR, FS, GS, RS, US
    and the blank. *)
Definition is_space (c : ascii) : bool :=
  let n := code c in
  ((9 <=? n) && (n <=? 13)) || ((28 <=? n) && (n <=? 32)).

Definition is_digit (c : ascii) : bool :=
  let n := code c in (48 <=? n) && (n <=? 57).

Definition digit_val (c : ascii) : Z := code c - 48.

Definition upper_char (c : ascii) : ascii :=
  let n := code c in
  if (97 <=? n) && (n <=? 122) then ascii_of_nat (Z.to_nat (n - 32)) else c.

Definition lower_char (c : ascii) : ascii :=
  let n := code c in
  if (65 <=? n) && (n <=? 90) then ascii_of_nat (Z.to_nat (n + 32)) else c.

(** ** [str] methods *)

Fixpoint forall_chars (p : ascii -> bool) (s : string) : bool :=
  match s with
  | EmptyString => true
  | String c s' => p c && forall_chars p s'
  end.

(** [s.upper()] and [s.lower()] *)
Fixpoint upper (s : string) : string :=
  match s with
  | EmptyString => EmptyString
  | String c s' => String (upper_char c) (upper s')
  end.

Fixpoint lower (s : string) : string :=
  match s with
  | EmptyString => EmptyString
  | String c s' => String (lower_char c) (lower s')
  end.

Fixpoint lstrip (s : string) : string :=
  match s with
  | EmptyString => EmptyString
  | String c s' => if is_space c then lstrip s' else s
  end.

Fixpoint rstrip (s : string) : string :=
  match s with
  | EmptyString => EmptyString
  | String c s' =>
      match rstrip s' with
      | EmptyString => if is_space c then EmptyString else String c EmptyString
      | r => String c r
      end
  end.

(** [s.strip()] *)
Definition strip (s : string) : string := rstrip (lstrip s).

Definition is_empty (s : string) : bool :=
  match s with EmptyString => true | _ => false end.

(** [s.startswith(p)] *)
Fixpoint startswith (p s : string) : bool :=
  match p, s with
  | EmptyString, _ => true
  | String a p', String b s' => Ascii.eqb a b && startswith p' s'
  | String _ _, EmptyString => false
  end.

(** [sub in s] *)
Fixpoint contains (sub s : string) : bool :=
  startswith sub s ||
  match s with
  | EmptyString => false
  | String _ s' => contains sub s'
  end.

(** [x in l] for a list of strings *)
Definition mem (x : string) (l : list string) : bool :=
  existsb (String.eqb x) l.

Definition snoc (s : string) (c : ascii) : string :=
  s ++ String c EmptyString.

(** [s.split(sep)] for a non-empty separator: scanning from the left,
    every occurrence of [sep] closes the current piece; [skip] counts the
    characters of a separator still to be passed over. *)
Fixpoint split_aux (sep s : string) (skip : nat) (cur : string) : list string :=
  match s with
  | EmptyString => [cur]
  | String c s' =>
      match skip with
      | S k => split_aux sep s' k cur
      | O =>
          if startswith sep s
          then cur :: split_aux sep s' (String.length sep - 1) EmptyString
          else split_aux sep s' O (snoc cur c)
      end
  end.

Definition split (sep s : string) : list string := split_aux sep s O EmptyString.

(** [s.split()]: the maximal runs of non-whitespace characters. *)
Fixpoint split_ws_aux (s : string) (cur : string) : list string :=
  match s with
  | EmptyString => if is_empty cur then [] else [cur]
  | String c s' =>
      if is_space c
      then (if is_empty cur then split_ws_aux s' EmptyString
            else cur :: split_ws_aux s' EmptyString)
      else split_ws_aux s' (snoc cur c)
  end.

Definition split_ws (s : string) : list string := split_ws_aux s EmptyString.

(** [sep.join(l)] *)
Fixpoint join (sep : string) (l : list string) : string :=
  match l with
  | [] => EmptyString
  | [x] => x
  | x :: rest => x ++ sep ++ join sep rest
  end.

(** [s.count(c, 0, 2)] for a one-character needle: the occurrences of [c]
    among the first two characters. *)
Definition count_char_0_2 (c : ascii) (s : string) : Z :=
  match s with
  | EmptyString => 0
  | String a EmptyString => if Ascii.eqb a c then 1 else 0
  | String a (String b _) =>
      (if Ascii.eqb a c then 1 else 0) + (if Ascii.eqb b c then 1 else 0)
  end.

(** [str(n)] for an [int] *)
Definition str_of_int (n : Z) : string :=
  DecimalString.NilZero.string_of_int (Z.to_int n).

(** [l[i]] on a list: [IndexError] out of range. *)
Definition index {A} (l : list A) (i : nat) : result A :=
  match nth_error l i with
  | Some x => Ok x
  | None => Raise (IndexError "list index out of range")
  end.

(** The trailing run of decimal digits of [s], most significant first. *)
Fixpoint trailing_digits (s : string) : string :=
  match s with
  | EmptyString => EmptyString
  | String c s' =>
      if is_digit c && forall_chars is_digit s' then s else trailing_digits s'
  end.

Definition newline : string := String (ascii_of_nat 10) EmptyString.

Fixpoint drop_final_newline (s : string) : string :=
  match s with
  | EmptyString => EmptyString
  | String c EmptyString => if Ascii.eqb c (ascii_of_nat 10) then EmptyString else s
  | String c s' => String c (drop_final_newline s')
  end.

(** [re.search(r'(\d+)$', s)]: [None] when there is no match, otherwise
    group 1.  [$] matches at the end of the string and just before a
    final line feed. *)
Definition re_search_trailing_digits (s : string) : option string :=
  match trailing_digits s with
  | String c r => Some (String c r)
  | EmptyString =>
      match trailing_digits (drop_final_newline s) with
      | String c r => Some (String c r)
      | EmptyString => None
      end
  end.

(** ** [int] and [float] *)

(** One [digitpart] of the Python number grammar, read from the left:
    digits, single underscores allowed between two digits.  Returns the
    value read on top of [acc], the number of digits read on top of [n],
    and the unread rest. *)
Fixpoint scan_digits (s : string) (acc n : Z) : Z * Z * string :=
  match s with
  | EmptyString => (acc, n, s)
  | String c s' =>
      if is_digit c then scan_digits s' (acc * 10 + digit_val c) (n + 1)
      else if Ascii.eqb c "_"%char && (0 <? n) then
        match s' with
        | String d _ => if is_digit d then scan_digits s' acc n else (acc, n, s)
        | EmptyString => (acc, n, s)
        end
      else (acc, n, s)
  end.

(** An optional sign: [(negative, rest)]. *)
Definition scan_sign (s : string) : bool * string :=
  match s with
  | String c s' =>
      if Ascii.eqb c "-"%char then (true, s')
      else if Ascii.eqb c "+"%char then (false, s')
      else (false, s)
  | EmptyString => (false, s)
  end.

(** [int(s)] in base 10: [None] stands for [ValueError]. *)
Definition parse_int (s : string) : option Z :=
  let '(neg, r) := scan_sign (strip s) in
  let '(v, n, rest) := scan_digits r 0 0 in
  if (0 <? n) && is_empty rest then Some (if neg then - v else v) else None.

Definition int_of_str (s : string) : result Z :=
  match parse_int s with
  | Some v => Ok v
  | None => Raise (ValueError ("invalid literal for int() with base 10: '" ++ s ++ "'"))
  end.

(** Python's [float] is IEEE 754 binary64. *)
Definition prec : Z := 53.
Definition emax : Z := 1024.

Definition float : Type := spec_float.

Definition fmul : float -> float -> float := SFmul prec emax.
Definition flt : float -> float -> bool := SFltb.
Definition feqb : float -> float -> bool := SFeqb.

(** [a > b] *)
Definition fgt (a b : float) : bool := flt b a.

(** The float nearest to the integer [n] (ties to even): what the
    conversion of an [int] operand gives. *)
Definition float_of_Z (n : Z) : float := binary_normalize prec emax n 0 false.

(** The float nearest to [(-1)^neg * m * 10^e], for [0 <= m]. *)
Definition float_of_decimal (neg : bool) (m e : Z) : float :=
  match m with
  | Zpos p =>
      if 0 <=? e then binary_round prec emax neg (Pos.mul p (Z.to_pos (10 ^ e))) 0
      else
        let '(q, e', l) := SFdiv_core_binary prec emax (Zpos p) 0 (10 ^ (- e)) 0 in
        binary_round_aux prec emax neg q e' l
  | _ => S754_zero neg
  end.

(** The real number a float stands for, scaled by [2^-e]: a finite float
    is [m * 2^e]. [exact_Z x = Some n] when [x] is the integer [n]. *)
Definition exact_Z (x : float) : option Z :=
  match x with
  | S754_zero _ => Some 0
  | S754_finite s m e =>
      if 0 <=? e then Some ((if s then -1 else 1) * Zpos m * 2 ^ e)
      else if (Zpos m) mod (2 ^ (- e)) =? 0
           then Some ((if s then -1 else 1) * (Zpos m / 2 ^ (- e)))
           else None
  | _ => None
  end.

(** [float(s)]: [None] stands for [ValueError].  The grammar is
    [sign? (inf | infinity | nan | digits? (. digits?)? (e sign? digits)?)]
    with at least one digit in the mantissa, letters in either case. *)
Definition parse_float (s : string) : option float :=
  let '(neg, r) := scan_sign (strip s) in
  let lr := lower r in
  if String.eqb lr "inf" || String.eqb lr "infinity" then Some (S754_infinity neg)
  else if String.eqb lr "nan" then Some S754_nan
  else
    let '(ip, ni, r1) := scan_digits r 0 0 in
    let '(mant, nf, r2) :=
      match r1 with
      | String c r1' =>
          if Ascii.eqb c "."%char then scan_digits r1' ip 0 else (ip, 0, r1)
      | EmptyString => (ip, 0, r1)
      end in
    if 0 <? ni + nf then
      match r2 with
      | EmptyString => Some (float_of_decimal neg mant (- nf))
      | String c r2' =>
          if Ascii.eqb (lower_char c) "e"%char then
            let '(eneg, r3) := scan_sign r2' in
            let '(ev, ne, r4) := scan_digits r3 0 0 in
            if (0 <? ne) && is_empty r4
            then Some (float_of_decimal neg mant ((if eneg then - ev else ev) - nf))
            else None
          else None
      end
    else None.

(** ** Values read from the YAML document *)

Inductive pyval : Type :=
  | PNone
  | PBool (b : bool)
  | PInt (n : Z)
  | PFloat (x : float)
  | PStr (s : string).

(** [v is not None and isinstance(v, int) and v > 0]; [bool] is a
    subclass of [int]. *)
Definition is_positive_int (v : pyval) : bool :=
  match v with
  | PInt n => 0 <? n
  | PBool b => b
  | _ => false
  end.

(** [str(v)] *)
Definition str_of_val (v : pyval) : string :=
  match v with
  | PNone => "None"
  | PBool true => "True"
  | PBool false => "False"
  | PInt n => str_of_int n
  | PFloat _ => "<float>"
  | PStr s => s
  end.

(** [v == n] for an [int] literal [n] *)
Definition eq_int (v : pyval) (n : Z) : bool :=
  match v with
  | PInt m => m =? n
  | PBool b => (if b then 1 else 0) =? n
  | PFloat x => feqb x (float_of_Z n)
  | _ => false
  end.

(** [v == None] *)
Definition is_none (v : pyval) : bool :=
  match v with PNone => true | _ => false end.

(** A value inside an f-string. *)
Definition fmt (v : option string) : string :=
  match v with Some s => s | None => "None" end.

Definition float_of_str (s : string) : result float :=
  match parse_float s with
  | Some x => Ok x
  | None => Raise (ValueError ("could not convert string to float: " ++ s))
  end.

(** ** [datetime] *)

(** A naive [datetime.datetime]. *)
Record datetime : Type := mkdatetime {
  year : Z; month : Z; day : Z;
  hour : Z; minute : Z; second : Z; microsecond : Z
}.

Definition is_leap (y : Z) : bool :=
  (y mod 4 =? 0) && (negb (y mod 100 =? 0) || (y mod 400 =? 0)).

Definition days_in_month (y m : Z) : Z :=
  if m =? 2 then (if is_leap y then 29 else 28)
  else if (m =? 4) || (m =? 6) || (m =? 9) || (m =? 11) then 30
  else 31.

(** Days before January 1st of year [y]. *)
Definition days_before_year (y : Z) : Z :=
  let y1 := y - 1 in y1 * 365 + y1 / 4 - y1 / 100 + y1 / 400.

(** Days of year [y] before the first day of month [m]. *)
Definition days_before_month (y m : Z) : Z :=
  (if m =? 1 then 0 else if m =? 2 then 31 else if m =? 3 then 59
   else if m =? 4 then 90 else if m =? 5 then 120 else if m =? 6 then 151
   else if m =? 7 then 181 else if m =? 8 then 212 else if m =? 9 then 243
   else if m =? 10 then 273 else if m =? 11 then 304 else 334)
  + (if (2 <? m) && is_leap y then 1 else 0).

(** [d.toordinal()]: 0001-01-01 is day 1. *)
Definition toordinal (d : datetime) : Z :=
  days_before_year (year d) + days_before_month (year d) (month d) + day d.

(** The dates the [datetime] constructor accepts. *)
Definition valid_date (d : datetime) : bool :=
  (1 <=? year d) && (year d <=? 9999) &&
  (1 <=? month d) && (month d <=? 12) &&
  (1 <=? day d) && (day d <=? days_in_month (year d) (month d)).

Definition valid_time (d : datetime) : bool :=
  (0 <=? hour d) && (hour d <=? 23) &&
  (0 <=? minute d) && (minute d <=? 59) &&
  (0 <=? second d) && (second d <=? 59) &&
  (0 <=? microsecond d) && (microsecond d <=? 999999).

Definition valid_datetime (d : datetime) : bool := valid_date d && valid_time d.

(** Calendar date of a [datetime]. *)
Definition date_of (d : datetime) : Z * Z * Z := (year d, month d, day d).

(** [d.replace(hour=0, minute=0, second=0, microsecond=0)] *)
Definition replace_midnight (d : datetime) : datetime :=
  mkdatetime (year d) (month d) (day d) 0 0 0 0.

(** [d - timedelta(1)]: the same time of day on the previous calendar
    day; below 0001-01-01 the subtraction overflows. *)
Definition minus_one_day (d : datetime) : result datetime :=
  let mk y m dd := mkdatetime y m dd (hour d) (minute d) (second d) (microsecond d) in
  if 1 <? day d then Ok (mk (year d) (month d) (day d - 1))
  else if 1 <? month d
       then Ok (mk (year d) (month d - 1) (days_in_month (year d) (month d - 1)))
       else if 1 <? year d then Ok (mk (year d - 1) 12 31)
            else Raise (OverflowError "date value out of range").

(** The host's local time is taken at a fixed offset [tz] (seconds east
    of UTC) from UTC.  [timestamp_us tz d] is [d.timestamp()] for a naive
    [d], counted in microseconds so that it stays exact. *)
Definition epoch_ordinal : Z := 719163.

Definition timestamp_s (tz : Z) (d : datetime) : Z :=
  (toordinal d - epoch_ordinal) * 86400
  + hour d * 3600 + minute d * 60 + second d - tz.

Definition timestamp_us (tz : Z) (d : datetime) : Z :=
  timestamp_s tz d * 1000000 + microsecond d.

(** [int(d.timestamp())] for a [d] without microseconds. *)
Definition int_timestamp (tz : Z) (d : datetime) : Z := timestamp_s tz d.

(** Maximal run of decimal digits at the head of [s]:
    [(value, number of digits, rest)]. *)
Fixpoint scan_num (s : string) (acc n : Z) : Z * Z * string :=
  match s with
  | EmptyString => (acc, n, s)
  | String c s' =>
      if is_digit c then scan_num s' (acc * 10 + digit_val c) (n + 1)
      else (acc, n, s)
  end.

Definition expect_char (c : ascii) (s : string) : option string :=
  match s with
  | String a s' => if Ascii.eqb a c then Some s' else None
  | EmptyString => None
  end.

(** [\s+] *)
Definition expect_ws (s : string) : option string :=
  match s with
  | String a s' => if is_space a then Some (lstrip s') else None
  | EmptyString => None
  end.

(** A numeric directive of one or two digits whose value lies in
    [lo .. hi]. *)
Definition field_1_2 (lo hi : Z) (s : string) : option (Z * string) :=
  let '(v, n, r) := scan_num s 0 0 in
  if ((n =? 1) || (n =? 2)) && (lo <=? v) && (v <=? hi) then Some (v, r) else None.

(** [%d]: two digits, one digit, or a blank and one digit. *)
Definition field_day (s : string) : option (Z * string) :=
  match s with
  | String c s' => if Ascii.eqb c " "%char then
                     let '(v, n, r) := scan_num s' 0 0 in
                     if (n =? 1) && (1 <=? v) then Some (v, r) else None
                   else field_1_2 1 31 s
  | EmptyString => None
  end.

(** [%Y]: exactly four digits. *)
Definition field_year (s : string) : option (Z * string) :=
  let '(v, n, r) := scan_num s 0 0 in
  if n =? 4 then Some (v, r) else None.

Definition bind_opt {A B} (o : option A) (f : A -> option B) : option B :=
  match o with Some a => f a | None => None end.

(** [%H:%M:%S] *)
Definition field_hms (s : string) : option (Z * Z * Z * string) :=
  bind_opt (field_1_2 0 23 s) (fun '(h, r) =>
  bind_opt (expect_char ":"%char r) (fun r =>
  bind_opt (field_1_2 0 59 r) (fun '(mi, r) =>
  bind_opt (expect_char ":"%char r) (fun r =>
  bind_opt (field_1_2 0 61 r) (fun '(sec, r) =>
  Some (h, mi, sec, r)))))).

Definition build_datetime (y m d h mi sec : Z) : option datetime :=
  let dt := mkdatetime y m d h mi sec 0 in
  if valid_datetime dt then Some dt else None.

(** [datetime.strptime(s, '%Y/%m/%d %H:%M:%S')]; [None] stands for
    [ValueError]. *)
Definition parse_ymd_hms (s : string) : option datetime :=
  bind_opt (field_year s) (fun '(y, r) =>
  bind_opt (expect_char "/"%char r) (fun r =>
  bind_opt (field_1_2 1 12 r) (fun '(m, r) =>
  bind_opt (expect_char "/"%char r) (fun r =>
  bind_opt (field_day r) (fun '(d, r) =>
  bind_opt (expect_ws r) (fun r =>
  bind_opt (field_hms r) (fun '(h, mi, sec, r) =>
  if is_empty r then build_datetime y m d h mi sec else None))))))).

Definition weekday_names : list string :=
  ["mon"; "tue"; "wed"; "thu"; "fri"; "sat"; "sun"].

Definition month_names : list string :=
  ["jan"; "feb"; "mar"; "apr"; "may"; "jun";
   "jul"; "aug"; "sep"; "oct"; "nov"; "dec"].

Fixpoint index_of (x : string) (l : list string) (i : Z) : option Z :=
  match l with
  | [] => None
  | y :: l' => if String.eqb x y then Some i else index_of x l' (i + 1)
  end.

Definition whole_field (f : string -> option (Z * string)) (s : string) : option Z :=
  bind_opt (f s) (fun '(v, r) => if is_empty r then Some v else None).

(** [datetime.strptime(s, '%a %b %d %H:%M:%S %Y')] in the C locale. *)
Definition parse_ctime (s : string) : option datetime :=
  if negb (String.eqb s (strip s)) then None else
  match split_ws s with
  | [a; b; d; hms; y] =>
      if mem (lower a) weekday_names then
        bind_opt (index_of (lower b) month_names 1) (fun m =>
        bind_opt (whole_field (field_1_2 1 31) d) (fun d =>
        bind_opt (field_hms hms) (fun '(h, mi, sec, r) =>
        bind_opt (whole_field field_year y) (fun y =>
        if is_empty r then build_datetime y m d h mi sec else None))))
      else None
  | _ => None
  end.

Definition strptime (parse : string -> option datetime) (s : string) : result datetime :=
  match parse s with
  | Some d => Ok d
  | None => Raise (ValueError ("time data does not match format: " ++ s))
  end.

End Py.

(* ===================================================================== *)
(** * The environment: remote channel, catalog tools, log, waits *)
(* ===================================================================== *)

Module Env.
Import Py.

(** What the remote session does with one command: it runs and both
    streams are read, or connecting or running raises. *)
Inductive ssh_reply : Type :=
  | SshRan (stdout stderr : string)
  | SshRaised (msg : string).

(** What a local catalog tool ([nsrmm], [nsrjb]) does once asked to run:
    it starts, is still there to be written to when the program writes
    to its standard input, and then runs to completion
    ([ProcCompleted]); or it starts and has already run to completion,
    with its end of the pipes closed, before anything is written to it
    ([ProcExited]); or starting it raises; or talking to it raises. *)
Inductive proc_reply : Type :=
  | ProcCompleted (stdout stderr : string) (returncode : Z)
  | ProcExited (stdout stderr : string) (returncode : Z)
  | ProcSpawnRaised (e : exn)
  | ProcIORaised (e : exn).

(** What the program did to the outside, in order. *)
Inductive event : Type :=
  | EvSsh (instance command : string)
  | EvProc (argv : list string)
  | EvStdin (data : string)
  | EvSleep (seconds : Z)
  | EvReport (folder pool : string) (body : list (list (string * string))).

(** A JSON array of objects with string members, as given to
    [json.dumps]. *)
Definition json : Type := list (list (string * string)).

(** One call of [log_message]; the time prefix is left out. *)
Inductive log_entry : Type :=
  | LogMsg (text : string)
  | LogJson (value : json)
  | LogNames (value : list string)
  | LogExn (e : exn)
  | Printed (text : string).

Record world : Type := mkworld {
  ssh_replies : list ssh_reply;
  proc_replies : list proc_reply;
  events : list event;
  logs : list log_entry
}.

(** A computation in the environment: it returns or raises, and leaves a
    world behind in both cases. *)
Definition M (A : Type) : Type := world -> result A * world.

Definition ret {A} (a : A) : M A := fun w => (Ok a, w).

Definition raise {A} (e : exn) : M A := fun w => (Raise e, w).

Definition bind {A B} (m : M A) (k : A -> M B) : M B :=
  fun w => match m w with
           | (Ok a, w') => k a w'
           | (Raise e, w') => (Raise e, w')
           end.

Definition lift {A} (r : result A) : M A := fun w => (r, w).

Definition emit (e : event) : M unit :=
  fun w => (Ok tt, mkworld (ssh_replies w) (proc_replies w) (events w ++ [e]) (logs w)).

Definition sleep (seconds : Z) : M unit := emit (EvSleep seconds).

(** The next reply of the remote session; a session that has nothing
    more to say fails to connect. *)
Definition next_ssh : M ssh_reply :=
  fun w => match ssh_replies w with
           | r :: rest => (Ok r, mkworld rest (proc_replies w) (events w) (logs w))
           | [] => (Ok (SshRaised "no reply"), w)
           end.

(** The next reply of a catalog tool; when none is left the tool cannot
    be started. *)
Definition next_proc : M proc_reply :=
  fun w => match proc_replies w with
           | r :: rest => (Ok r, mkworld (ssh_replies w) rest (events w) (logs w))
           | [] => (Ok (ProcSpawnRaised (OSError "no such file")), w)
           end.

Definition returns {A} (m : M A) (w : world) (a : A) : Prop := fst (m w) = Ok a.

Definition raises {A} (m : M A) (w : world) (e : exn) : Prop := fst (m w) = Raise e.

End Env.

Declare Scope monad_scope.
Notation "x <- m ;; k" := (Env.bind m (fun x => k))
  (at level 61, m at next level, right associativity) : monad_scope.
Notation "m ;; k" := (Env.bind m (fun _ => k))
  (at level 61, right associativity) : monad_scope.
Open Scope monad_scope.

(* ===================================================================== *)
(** * utils.py *)
(* ===================================================================== *)

Module Utils.
Import Py Env.

Definition heading : list string :=
  ["Processing tapes...."; "Barcode"; "Pool"; "Location"; "State"; "Size";
   "Used (%)"; "Comp"; "Modification Time";
   "Total size of tapes:"; "Total pools:"; "Total number of tapes:";
   "Average Compression:" ++ "--------";
   " --------------------"; " -----------------------"; " -----";
   " --------"; " ----------------"; " ----"; " -------------------"].

Definition RETENTION_LOCK_REPORT_FOLDER : string := "/reports_retention_lock/".
Definition EXPIRED_RL_REPORT_FOLDER : string := "/reports_expired_RL/".

Definition log_message (message : log_entry) : M unit :=
  fun w => (Ok tt, mkworld (ssh_replies w) (proc_replies w) (events w) (logs w ++ [message])).

Definition generate_report_expired (pool : string) (tapes : json) : M unit :=
  log_message (LogMsg ("Report generated on " ++ EXPIRED_RL_REPORT_FOLDER ++ pool)) ;;
  emit (EvReport EXPIRED_RL_REPORT_FOLDER pool tapes).

Definition generate_report_rl (pool : string) (tapes : json) : M unit :=
  log_message (LogMsg ("Report generated on " ++ RETENTION_LOCK_REPORT_FOLDER ++ pool)) ;;
  emit (EvReport RETENTION_LOCK_REPORT_FOLDER pool tapes).

(** [execute_ssh_command]: the stripped standard output, or [False]
    (here [None]) when the command wrote to standard error or anything
    raised. *)
Definition execute_ssh_command (command instance user password : string)
  : M (option string) :=
  emit (EvSsh instance command) ;;
  reply <- next_ssh ;;
  match reply with
  | SshRan stdout stderr =>
      let output := strip stdout in
      let error := strip stderr in
      if negb (is_empty error) then
        log_message (LogMsg ("Error executing '" ++ command ++ "': " ++ error)) ;;
        ret None
      else ret (Some output)
  | SshRaised msg =>
      log_message (LogMsg ("SSH Connection error: " ++ msg)) ;;
      ret None
  end.

(** [size_to_bytes] *)
Definition size_to_bytes (size_str : string) : result float :=
  let size_str := strip size_str in
  match split_ws size_str with
  | [size_value; size_unit] =>
      match float_of_str size_value with
      | Raise e => Raise e
      | Ok size_value =>
          let size_unit := upper size_unit in
          let k := float_of_Z 1024 in
          if String.eqb size_unit "B" then Ok size_value
          else if String.eqb size_unit "KB" then Ok (fmul size_value k)
          else if String.eqb size_unit "MB" || String.eqb size_unit "MIB"
          then Ok (fmul (fmul size_value k) k)
          else if String.eqb size_unit "GB" || String.eqb size_unit "GIB"
          then Ok (fmul (fmul (fmul size_value k) k) k)
          else if String.eqb size_unit "TB" || String.eqb size_unit "TIB"
          then Ok (fmul (fmul (fmul (fmul size_value k) k) k) k)
          else Raise (ValueError ("Unsupported unit: " ++ size_unit))
      end
  | _ => Raise (ValueError "wrong number of values to unpack")
  end.

(** [' '.join(command)]: every item has to be a [str]; [i] is the
    position of the first item of [command]. *)
Fixpoint str_items_from (i : Z) (command : list (option string))
  : result (list string) :=
  match command with
  | [] => Ok []
  | Some s :: rest =>
      match str_items_from (i + 1) rest with
      | Ok l => Ok (s :: l)
      | Raise e => Raise e
      end
  | None :: _ =>
      Raise (TypeError ("sequence item " ++ str_of_int i
                        ++ ": expected str instance, NoneType found"))
  end.

Definition str_items (command : list (option string)) : result (list string) :=
  str_items_from 0 command.

(** [run_nsrjb_command]: [subprocess.run(..., check=True)], then a wait of
    60; only [CalledProcessError] is handled. *)
Definition run_nsrjb_command (command : list (option string)) : M bool :=
  argv <- lift (str_items command) ;;
  log_message (LogMsg ("Executing labeling command : " ++ join " " argv)) ;;
  emit (EvProc argv) ;;
  reply <- next_proc ;;
  let failed (e : exn) : M bool :=
    log_message (LogMsg ("Error occurred: " ++ str_of_exn e)) ;; ret false in
  match reply with
  | ProcCompleted stdout stderr returncode | ProcExited stdout stderr returncode =>
      if returncode =? 0 then
        sleep 60 ;;
        log_message (LogMsg ("Command output:" ++ newline ++ " " ++ stdout)) ;;
        ret true
      else failed (CalledProcessError returncode)
  | ProcSpawnRaised (CalledProcessError rc) | ProcIORaised (CalledProcessError rc) =>
      failed (CalledProcessError rc)
  | ProcSpawnRaised e | ProcIORaised e => raise e
  end.

(** [run_nsrmm_command]: [subprocess.Popen], a wait of 50, the answer
    [y] written to standard input and flushed, [communicate()]; only
    [CalledProcessError] is handled.  Flushing to a tool that has
    already exited raises [BrokenPipeError]. *)
Definition run_nsrmm_command (command : list (option string)) : M bool :=
  argv <- lift (str_items command) ;;
  log_message (LogMsg ("Networker: Executing delete command : " ++ join " " argv)) ;;
  log_message (LogMsg "Deleting inprogress") ;;
  emit (EvProc argv) ;;
  reply <- next_proc ;;
  let failed (e : exn) : M bool :=
    log_message (LogMsg ("Error occurred while deleting volume: " ++ str_of_exn e)) ;;
    ret false in
  match reply with
  | ProcSpawnRaised (CalledProcessError rc) => failed (CalledProcessError rc)
  | ProcSpawnRaised e => raise e
  | ProcIORaised e =>
      sleep 50 ;;
      match e with
      | CalledProcessError rc => failed e
      | _ => raise e
      end
  | ProcExited stdout stderr returncode =>
      sleep 50 ;;
      raise (BrokenPipeError "[Errno 32] Broken pipe")
  | ProcCompleted stdout stderr returncode =>
      sleep 50 ;;
      emit (EvStdin ("y" ++ newline)) ;;
      log_message (LogMsg ("Command output:" ++ newline ++ stdout)) ;;
      (if negb (is_empty stderr)
       then log_message (LogMsg ("Error occurred while deleting volume:" ++ newline ++ stderr))
       else ret tt) ;;
      ret true
  end.



End Utils.

(* ===================================================================== *)
(** * open_system_vtl_immutable.py: class OpenSystem *)
(* ===================================================================== *)

Module Immutable.
Import Py Env Utils.

(** The [tape_info] dictionary built by [get_tapes]. *)
Record tape_info : Type := mktape {
  barcode : string;
  pool_name : string;
  location : string;
  state : string;
  size : string;
  used : string;
  modification_time : string
}.

Definition tape_json (t : tape_info) : list (string * string) :=
  [("barcode", barcode t); ("pool_name", pool_name t); ("location", location t);
   ("state", state t); ("size", size t); ("used", used t);
   ("modification_time", modification_time t)].

(** The dictionaries built by [format_tape_data]: no location. *)
Module Row.
Record t : Type := mk {
  barcode : string; pool_name : string; state : string;
  size : string; used : string; modification_time : string
}.
Definition to_json (r : t) : list (string * string) :=
  [("barcode", barcode r); ("pool_name", pool_name r); ("state", state r);
   ("size", size r); ("used", used r); ("modification_time", modification_time r)].
End Row.

(** The dictionaries built by [generate_filesys_report]. *)
Module Placement.
Record t : Type := mk {
  file_name : string; size : string; placement_time : string
}.
Definition to_json (r : t) : list (string * string) :=
  [("file_name", file_name r); ("size", size r); ("placement_time", placement_time r)].
End Placement.

(** The attributes of an [OpenSystem] object. *)
Record OpenSystem : Type := mkOpenSystem {
  input_parameters_file : option string;
  instance : option string;
  cred_file : option string;
  user : string;
  password : string;
  pool : option string;
  mechanism : pyval;
  VTL_STATUS : bool;
  pool_retention_lock_enabled : bool;
  tape_list : list tape_info;
  report : list Placement.t;
  retention_lock_period_for_tapes_in_days : pyval;
  retention_lock_period_for_tapes_for_monthly_in_years : pyval;
  minimum_retention_lock_period_daily_backup_in_days : pyval;
  maximum_retention_lock_period_daily_backup_in_days : pyval;
  minimum_retention_lock_period_monthly_backup_in_days : pyval;
  maximum_retention_lock_period_monthly_backup_in_years : pyval;
  minimum_tape_usage : pyval
}.

Definition set_tape_list (self : OpenSystem) (l : list tape_info) : OpenSystem :=
  mkOpenSystem (input_parameters_file self) (instance self) (cred_file self)
    (user self) (password self) (pool self) (mechanism self) (VTL_STATUS self)
    (pool_retention_lock_enabled self) l (report self)
    (retention_lock_period_for_tapes_in_days self)
    (retention_lock_period_for_tapes_for_monthly_in_years self)
    (minimum_retention_lock_period_daily_backup_in_days self)
    (maximum_retention_lock_period_daily_backup_in_days self)
    (minimum_retention_lock_period_monthly_backup_in_days self)
    (maximum_retention_lock_period_monthly_backup_in_years self)
    (minimum_tape_usage self).

Definition set_report (self : OpenSystem) (l : list Placement.t) : OpenSystem :=
  mkOpenSystem (input_parameters_file self) (instance self) (cred_file self)
    (user self) (password self) (pool self) (mechanism self) (VTL_STATUS self)
    (pool_retention_lock_enabled self) (tape_list self) l
    (retention_lock_period_for_tapes_in_days self)
    (retention_lock_period_for_tapes_for_monthly_in_years self)
    (minimum_retention_lock_period_daily_backup_in_days self)
    (maximum_retention_lock_period_daily_backup_in_days self)
    (minimum_retention_lock_period_monthly_backup_in_days self)
    (maximum_retention_lock_period_monthly_backup_in_years self)
    (minimum_tape_usage self).

(** [self.execute_ssh_command(command, self.instance, self.user,
    self.password)] *)
Definition ssh (self : OpenSystem) (command : string) : M (option string) :=
  execute_ssh_command command (fmt (instance self)) (user self) (password self).

(** [validate_input_parameters]: a missing required key ends the process
    with status 1. *)
Definition validate_input_parameters (self : OpenSystem) : M unit :=
  let file := fmt (input_parameters_file self) in
  let missing (text : string) : M unit :=
    log_message (LogMsg (text ++ file ++ " file")) ;; raise (SystemExit 1) in
  (match instance self with
   | None => missing "'open_system_instance' parameter is missing on "
   | Some _ => ret tt end) ;;
  (match pool self with
   | None => missing "'pool_name' parameter is missing on "
   | Some _ => ret tt end) ;;
  (match cred_file self with
   | None => missing "'open_system_credential_file_path' parameter missing on "
   | Some _ => ret tt end) ;;
  (if is_none (minimum_tape_usage self)
   then missing "'minimum_tape_usage' parameter missing on " else ret tt) ;;
  (if is_none (mechanism self)
   then missing "'execution_logic_mechanism' parameter missing on " else ret tt) ;;
  log_message (LogMsg "input parameters from YAML file has been loaded").

(** The stripped, non-empty pieces of a line already cut at [sep]. *)
Definition fields (line : list string) : list string :=
  filter (fun x => negb (is_empty x)) (map strip line).

(** [line[0]]: [str.split] never returns an empty list. *)
Definition first_piece (line : list string) : string := hd EmptyString line.

(** [set(line) & set(heading)] is not empty *)
Definition remove_heading (line : list string) : bool :=
  existsb (fun x => mem x heading) line.

(** ** Classifier *)

(** [check_state]: [True] when the tape is not retention-locked. *)
Definition check_state (tape_info : tape_info) : bool :=
  let state := strip (state tape_info) in
  if contains "RL" state then false else true.

Section Clock.

(** The host's UTC offset and the reading of [datetime.now()] used while
    one report is classified. *)
Variable tz : Z.
Variable now : datetime.

(** [check_modification_date] *)
Definition check_modification_date (tape_info : tape_info) (mechanism : pyval)
  : result bool :=
  match strptime parse_ymd_hms (modification_time tape_info) with
  | Raise e => Raise e
  | Ok modified_date =>
      let t_stamp := replace_midnight modified_date in
      let modified_date_timestamp := int_timestamp tz t_stamp in
      let current_date := now in
      let midnight_dt_object := replace_midnight current_date in
      let current_date_epoch_timestamp := int_timestamp tz midnight_dt_object in
      (* the text of [yesterday] is read back with the format it was
         written with: the same wall-clock second *)
      match minus_one_day now with
      | Raise e => Raise e
      | Ok dt_object =>
          let midnight_dt_object := replace_midnight dt_object in
          let yesterday_epoch_timestamp := int_timestamp tz midnight_dt_object in
          if (current_date_epoch_timestamp =? modified_date_timestamp)
             && eq_int mechanism 1 then Ok true
          else if (yesterday_epoch_timestamp =? modified_date_timestamp)
                  && eq_int mechanism 2 then Ok true
          else Ok false
      end
  end.

(** The part of [check_usage_in_report] that runs once a placement record
    has been found for the tape, up to the handler. *)
Definition usage_against (self : OpenSystem) (tape_info : tape_info)
    (tape_report_data : Placement.t) : result bool :=
  let reference_size_gb := minimum_tape_usage self in
  match (match reference_size_gb with
         | PStr s => size_to_bytes s
         | _ => Raise (AttributeError "object has no attribute 'strip'")
         end) with
  | Raise e => Raise e
  | Ok reference_size_in_bytes =>
      match size_to_bytes (Placement.size tape_report_data) with
      | Raise e => Raise e
      | Ok file_size_in_bytes =>
          if fgt file_size_in_bytes reference_size_in_bytes then
            match strptime parse_ymd_hms (modification_time tape_info) with
            | Raise e => Raise e
            | Ok modified_date =>
                let t_stamp := replace_midnight modified_date in
                let modified_date_timestamp := int_timestamp tz t_stamp in
                match strptime parse_ctime (Placement.placement_time tape_report_data) with
                | Raise e => Raise e
                | Ok report_placement_time =>
                    let formatted_placement_time := replace_midnight report_placement_time in
                    let midnight_dt_object := int_timestamp tz formatted_placement_time in
                    if modified_date_timestamp =? midnight_dt_object
                    then Ok true
                    else Ok true
                end
            end
          else Ok false
      end
  end.

(** [check_usage_in_report]: [True], [False], or [None] when the handler
    ran. *)
Definition check_usage_in_report (self : OpenSystem) (tape_info : tape_info)
  : M (option bool) :=
  let tape_report_data :=
    find (fun tape => contains (barcode tape_info) (Placement.file_name tape))
         (report self) in
  match tape_report_data with
  | Some tape =>
      log_message (LogMsg ("Checking minimum usage for Barcode: " ++ barcode tape_info)) ;;
      match usage_against self tape_info tape with
      | Ok b => ret (Some b)
      | Raise e => log_message (LogExn e) ;; ret None
      end
  | None => ret (Some false)
  end.

(** [check_used] *)
Definition check_used (self : OpenSystem) (tape_info : tape_info) : M bool :=
  let used := split_ws (used tape_info) in
  used0 <- lift (index used 0) ;;
  used <- lift (float_of_str used0) ;;
  check_usage_in_report <- check_usage_in_report self tape_info ;;
  if fgt used (float_of_Z 0)
     || match check_usage_in_report with Some true => true | _ => false end
  then ret true
  else ret false.

(** The decision [get_tapes] takes on one [tape_info]. *)
Definition eligible (self : OpenSystem) (tape_info : tape_info) : M bool :=
  used <- check_used self tape_info ;;
  let state := check_state tape_info in
  last_modified <- lift (check_modification_date tape_info (mechanism self)) ;;
  ret (contains "slot" (location tape_info) && used && state && last_modified).

(** ** Report parser of the lock workflow *)

(** What the [for] loop of [get_tapes] makes of one line before it
    classifies it: [None] on each of the three [continue] and when the
    line does not have 8 columns. *)
Definition tape_record (line : string) : option tape_info :=
  let line := split "  " line in
  if is_empty (strip (first_piece line)) then None
  else if remove_heading line then None
  else if (Z.of_nat (List.length line) <? 2) then None
  else
    let tapes := fields line in
    match tapes with
    | [t0; t1; t2; t3; t4; t5; t6; t7] => Some (mktape t0 t1 t2 t3 t4 t5 t7)
    | _ => None
    end.

(** The [for] loop of [get_tapes], with the [try] around it: an
    exception raised for one line leaves the loop, the handler logs it,
    and the list built so far is what remains. *)
Fixpoint get_tapes_loop (self : OpenSystem) (lines : list string)
    (tape_list : list tape_info) : M (list tape_info) :=
  match lines with
  | [] => ret tape_list
  | line :: rest =>
      match tape_record line with
      | None => get_tapes_loop self rest tape_list
      | Some tape_info =>
          fun w =>
            match eligible self tape_info w with
            | (Ok true, w') => get_tapes_loop self rest (tape_list ++ [tape_info]) w'
            | (Ok false, w') => get_tapes_loop self rest tape_list w'
            | (Raise e, w') =>
                (log_message (LogMsg (str_of_exn e)) ;; ret tape_list) w'
            end
      end
  end.

Definition rule : string :=
  "========================================================================================================================".

(** [get_tapes]: the object, and the value returned: [[]] ([Some []])
    when the report cannot be retrieved, otherwise nothing ([None]). *)
Definition get_tapes (self : OpenSystem)
  : M (OpenSystem * option (list tape_info)) :=
  let vtl_pool_name := fmt (pool self) in
  log_message (LogMsg ("Fetching Pool: " ++ vtl_pool_name ++ " Tape list...")) ;;
  let command := "vtl tape show pool " ++ vtl_pool_name ++ " sort-by modtime descending" in
  log_message (LogMsg ("[Executing Command]: " ++ command)) ;;
  pool_data <- ssh self command ;;
  match pool_data with
  | None | Some EmptyString =>
      log_message (LogMsg ("Failed to retrieve Pool: " ++ vtl_pool_name ++ " details.")) ;;
      ret (self, Some [])
  | Some pool_data =>
      tape_list <- get_tapes_loop self (split newline pool_data) [] ;;
      log_message (LogMsg "=======================================Begins RL for Below Barcodes===========================================") ;;
      log_message (LogJson (map tape_json tape_list)) ;;
      log_message (Printed ("length:: " ++ str_of_int (Z.of_nat (List.length tape_list)))) ;;
      log_message (LogMsg rule) ;;
      ret (set_tape_list self tape_list, None)
  end.

End Clock.

(** ** Re-query of one tape *)

(** The [for] loop of [format_tape_data] with its [try]: the rows built,
    and the exception that ended the loop, if one did. *)
Fixpoint format_tape_data_loop (lines : list string) (i : Z)
    (tape_list : list Row.t) : list Row.t * option exn :=
  match lines with
  | [] => (tape_list, None)
  | line :: rest =>
      let line := split "  " line in
      let i := i + 1 in
      let hyphen := count_char_0_2 "-"%char (first_piece line) in
      if (3 <? i) && (1 <? hyphen) then (tape_list, None)
      else if i <=? 3 then format_tape_data_loop rest i tape_list
      else
        let tapes := fields line in
        match index tapes 0, index tapes 1, index tapes 3,
              index tapes 4, index tapes 5, index tapes 7 with
        | Ok t0, Ok t1, Ok t3, Ok t4, Ok t5, Ok t7 =>
            format_tape_data_loop rest i (tape_list ++ [Row.mk t0 t1 t3 t4 t5 t7])
        | _, _, _, _, _, _ =>
            (tape_list, Some (IndexError "list index out of range"))
        end
  end.

(** [format_tape_data]; [pool_data] is [False] ([None]) when the command
    failed, and then [pool_data.split] raises inside the [try]. *)
Definition format_tape_data (pool_data : option string) : M (list Row.t) :=
  match pool_data with
  | None =>
      log_message (LogExn (AttributeError "'bool' object has no attribute 'split'")) ;;
      ret []
  | Some pool_data =>
      let '(tape_list, e) := format_tape_data_loop (split newline pool_data) 0 [] in
      (match e with
       | Some e => log_message (LogExn e)
       | None => ret tt
       end) ;;
      ret tape_list
  end.

(** ** Governance bounds *)

(** [set_min_retention_lock_period_pool] *)
Definition set_min_retention_lock_period_pool (self : OpenSystem) : M unit :=
  if (0 <? Z.of_nat (List.length (tape_list self))) && pool_retention_lock_enabled self then
    let pool := fmt (pool self) in
    let retention_lock : option string := None in
    let retention_lock :=
      if is_positive_int (minimum_retention_lock_period_daily_backup_in_days self)
      then Some (str_of_val (minimum_retention_lock_period_daily_backup_in_days self) ++ "day")
      else retention_lock in
    let retention_lock :=
      if is_positive_int (minimum_retention_lock_period_monthly_backup_in_days self)
      then Some (str_of_val (minimum_retention_lock_period_monthly_backup_in_days self) ++ "day")
      else retention_lock in
    match retention_lock with
    | Some retention_lock =>
        let command := "mtree retention-lock set min-retention-period " ++ retention_lock
                       ++ " mtree  /data/col1/" ++ pool in
        log_message (LogMsg ("[Executing Command]: " ++ command)) ;;
        result <- ssh self command ;;
        log_message (LogMsg (match result with Some r => r | None => "False" end))
    | None =>
        log_message (LogMsg ("unable to set minimun retention lock None mtree  /data/col1/" ++ pool))
    end
  else ret tt.

(** [set_max_retention_lock_period_pool] *)
Definition set_max_retention_lock_period_pool (self : OpenSystem) : M unit :=
  if (0 <? Z.of_nat (List.length (tape_list self))) && pool_retention_lock_enabled self then
    let pool := fmt (pool self) in
    let retention_lock : option string := None in
    let retention_lock :=
      if is_positive_int (maximum_retention_lock_period_daily_backup_in_days self)
      then Some (str_of_val (maximum_retention_lock_period_daily_backup_in_days self) ++ "day")
      else retention_lock in
    let retention_lock :=
      if is_positive_int (maximum_retention_lock_period_monthly_backup_in_years self)
      then Some (str_of_val (maximum_retention_lock_period_monthly_backup_in_years self) ++ "year")
      else retention_lock in
    match retention_lock with
    | Some retention_lock =>
        let command := "mtree retention-lock set max-retention-period " ++ retention_lock
                       ++ " mtree /data/col1/" ++ pool in
        log_message (LogMsg ("[Executing Command]: " ++ command)) ;;
        result <- ssh self command ;;
        log_message (LogMsg (match result with Some r => r | None => "False" end))
    | None =>
        log_message (LogMsg ("unable to set maximum retention lock None mtree  /data/col1/" ++ pool))
    end
  else ret tt.

(** ** Lock-apply transition *)

(** The duration [set_retention_lock] asks for. *)
Definition retention_lock_period (self : OpenSystem) : option string :=
  let retention_lock_period : option string := None in
  let retention_lock_period :=
    if is_positive_int (retention_lock_period_for_tapes_in_days self)
    then Some (str_of_val (retention_lock_period_for_tapes_in_days self) ++ "day")
    else retention_lock_period in
  let retention_lock_period :=
    if is_positive_int (retention_lock_period_for_tapes_for_monthly_in_years self)
    then Some (str_of_val (retention_lock_period_for_tapes_for_monthly_in_years self) ++ "year")
    else retention_lock_period in
  retention_lock_period.

(** [set_retention_lock] *)
Definition set_retention_lock (self : OpenSystem) (tape_info : tape_info) : M bool :=
  match retention_lock_period self with
  | Some retention_lock_period =>
      log_message (LogMsg ("Setting Retention Lock on Barcode: " ++ barcode tape_info
                           ++ " in Pool: " ++ pool_name tape_info ++ " to "
                           ++ retention_lock_period ++ ".")) ;;
      let command := "vtl tape modify " ++ barcode tape_info ++ " pool "
                     ++ pool_name tape_info ++ " retention-lock " ++ retention_lock_period in
      log_message (LogMsg ("[Executing Command]: " ++ command)) ;;
      retention_set_result <- ssh self command ;;
      log_message (LogMsg ("Check Retention Lock Status: Pool Info " ++ pool_name tape_info
                           ++ " barcode " ++ barcode tape_info ++ " ")) ;;
      let command := "vtl tape show pool " ++ pool_name tape_info
                     ++ " barcode " ++ barcode tape_info in
      log_message (LogMsg ("[Executing Command]: " ++ command)) ;;
      data <- ssh self command ;;
      updated_info <- format_tape_data data ;;
      log_message (LogJson (map Row.to_json updated_info)) ;;
      first <- lift (index updated_info 0) ;;
      if String.eqb (Row.state first) "RO/RL*" then ret true else ret false
  | None => ret false
  end.

(** ** Result report *)

Fixpoint get_result_loop (tape_list_result : list string) (lines : list string)
    (tape_list : list tape_info) : list tape_info :=
  match lines with
  | [] => tape_list
  | line :: rest =>
      match tape_record line with
      | Some tape_info =>
          if mem (strip (barcode tape_info)) tape_list_result
          then get_result_loop tape_list_result rest (tape_list ++ [tape_info])
          else get_result_loop tape_list_result rest tape_list
      | None => get_result_loop tape_list_result rest tape_list
      end
  end.

(** [get_result] *)
Definition get_result (self : OpenSystem) (tape_list_result : list string)
  : M (list tape_info) :=
  let vtl_pool_name := fmt (pool self) in
  log_message (LogMsg ("Fetching Pool: " ++ vtl_pool_name ++ " Tape list result ...")) ;;
  let command := "vtl tape show pool " ++ vtl_pool_name ++ " sort-by modtime descending" in
  pool_data <- ssh self command ;;
  match pool_data with
  | None | Some EmptyString =>
      log_message (LogMsg ("Failed to retrieve Pool: " ++ vtl_pool_name ++ " details.")) ;;
      ret []
  | Some pool_data =>
      let tape_list := get_result_loop tape_list_result (split newline pool_data) [] in
      log_message (LogMsg "Generating report") ;;
      generate_report_rl vtl_pool_name (map tape_json tape_list) ;;
      log_message (LogMsg "report generated successfully") ;;
      ret tape_list
  end.

Definition bar : string :=
  "=======================================================================================".

(** The [for] loop of [apply_retention_lock_to_tapes]: nothing in it
    handles an exception. *)
Fixpoint apply_loop (self : OpenSystem) (tapes : list tape_info)
    (tape_list_result : list string) : M (list string) :=
  match tapes with
  | [] => ret tape_list_result
  | tape :: rest =>
      log_message (LogMsg bar) ;;
      log_message (LogMsg ("Initiating Retention Lock: Barcode: " ++ barcode tape
                           ++ "  used: " ++ used tape ++ " state: " ++ state tape ++ " ")) ;;
      result <- set_retention_lock self tape ;;
      tape_list_result <-
        (if result then
           log_message (LogMsg ("retention-lock successfully set for " ++ barcode tape
                                ++ " in Pool: " ++ pool_name tape)) ;;
           ret (tape_list_result ++ [barcode tape])%list
         else
           log_message (LogMsg ("retention-lock failed to set for " ++ barcode tape)) ;;
           ret tape_list_result) ;;
      log_message (LogMsg bar) ;;
      apply_loop self rest tape_list_result
  end.

(** [apply_retention_lock_to_tapes] *)
Definition apply_retention_lock_to_tapes (self : OpenSystem) : M unit :=
  if (0 <? Z.of_nat (List.length (tape_list self))) && pool_retention_lock_enabled self then
    tape_list_result <- apply_loop self (tape_list self) [] ;;
    log_message (LogMsg "=======================================RL Result for Barcodes===========================================") ;;
    result <- get_result self tape_list_result ;;
    log_message (LogJson (map tape_json result)) ;;
    log_message (LogMsg rule)
  else
    log_message (LogMsg ("Failed to enable Retention-Lock Governance Mode for pool "
                         ++ fmt (pool self))).

(** [generate_filesys_report]: the placement records of the pool. *)
Fixpoint filesys_report_loop (lines : list string) (i : Z)
    (tape_list : list Placement.t) : list Placement.t * option exn :=
  match lines with
  | [] => (tape_list, None)
  | line :: rest =>
      let line := split (String (ascii_of_nat 9) EmptyString) line in
      let i := i + 1 in
      let hyphen := count_char_0_2 "-"%char (first_piece line) in
      if (3 <? i) && (1 <? hyphen) then (tape_list, None)
      else if i <=? 3 then filesys_report_loop rest i tape_list
      else
        let tape := fields line in
        match index tape 0, index tape 2, index tape 3 with
        | Ok t0, Ok t2, Ok t3 =>
            filesys_report_loop rest i (tape_list ++ [Placement.mk t0 t2 t3])
        | _, _, _ => (tape_list, Some (IndexError "list index out of range"))
        end
  end.

Definition generate_filesys_report (self : OpenSystem) : M OpenSystem :=
  let vtl_pool_name := fmt (pool self) in
  log_message (LogMsg ("Generate filesys report for Pool: /data/col1/" ++ vtl_pool_name)) ;;
  let command := "filesys report generate file-location path /data/col1/" ++ vtl_pool_name in
  log_message (LogMsg ("[Executing Command]: " ++ command)) ;;
  report <- ssh self command ;;
  tape_list <-
    match report with
    | None =>
        log_message (LogExn (AttributeError "'bool' object has no attribute 'split'")) ;;
        ret []
    | Some report =>
        let '(tape_list, e) := filesys_report_loop (split newline report) 0 [] in
        (match e with Some e => log_message (LogExn e) | None => ret tt end) ;;
        ret tape_list
    end ;;
  log_message (LogMsg ("=======================================Genearated Report MTREE /data/col1/"
                       ++ vtl_pool_name ++ "===========================================")) ;;
  log_message (LogJson (map Placement.to_json tape_list)) ;;
  log_message (LogMsg rule) ;;
  ret (set_report self tape_list).

(** ** State of the library and of the pool *)

Definition set_VTL_STATUS (self : OpenSystem) (b : bool) : OpenSystem :=
  mkOpenSystem (input_parameters_file self) (instance self) (cred_file self)
    (user self) (password self) (pool self) (mechanism self) b
    (pool_retention_lock_enabled self) (tape_list self) (report self)
    (retention_lock_period_for_tapes_in_days self)
    (retention_lock_period_for_tapes_for_monthly_in_years self)
    (minimum_retention_lock_period_daily_backup_in_days self)
    (maximum_retention_lock_period_daily_backup_in_days self)
    (minimum_retention_lock_period_monthly_backup_in_days self)
    (maximum_retention_lock_period_monthly_backup_in_years self)
    (minimum_tape_usage self).

Definition set_pool_retention_lock_enabled (self : OpenSystem) (b : bool) : OpenSystem :=
  mkOpenSystem (input_parameters_file self) (instance self) (cred_file self)
    (user self) (password self) (pool self) (mechanism self) (VTL_STATUS self)
    b (tape_list self) (report self)
    (retention_lock_period_for_tapes_in_days self)
    (retention_lock_period_for_tapes_for_monthly_in_years self)
    (minimum_retention_lock_period_daily_backup_in_days self)
    (maximum_retention_lock_period_daily_backup_in_days self)
    (minimum_retention_lock_period_monthly_backup_in_days self)
    (maximum_retention_lock_period_monthly_backup_in_years self)
    (minimum_tape_usage self).

(** [check_vtl_state]: the attribute is set to [True] or left alone. *)
Definition check_vtl_state (self : OpenSystem) : M OpenSystem :=
  log_message (LogMsg ("OpenSystem: " ++ fmt (instance self) ++ " Checking VTL state...")) ;;
  let command := "vtl status" in
  log_message (LogMsg ("[Executing Command]: " ++ command)) ;;
  vtl_status <- ssh self command ;;
  match vtl_status with
  | Some vtl_status =>
      if negb (is_empty vtl_status) && contains "enabled" vtl_status
         && contains "running" vtl_status && contains "licensed" vtl_status
      then
        log_message (LogMsg "VTL is enabled, running, and licensed.") ;;
        ret (set_VTL_STATUS self true)
      else ret self
  | None => ret self
  end.

(** The [for] loop of [check_pool_retention_lock_governance_mode] with
    its [try]: the two flags, and the exception that ended the loop, if
    one did. *)
Fixpoint governance_loop (lines : list string) (i : Z) (retention_lock : bool)
    (retention_lock_mode : option string) : bool * option string * option exn :=
  match lines with
  | [] => (retention_lock, retention_lock_mode, None)
  | line :: rest =>
      let line := split "  " line in
      let i := i + 1 in
      let hyphen := count_char_0_2 "-"%char (first_piece line) in
      if (2 <? i) && (1 <? hyphen) then (retention_lock, retention_lock_mode, None)
      else if i <=? 2 then governance_loop rest i retention_lock retention_lock_mode
      else
        let arr := filter (fun mtree_data => negb (is_empty (strip mtree_data))) line in
        match index arr 0, index arr 1 with
        | Ok a0, Ok a1 =>
            let option := strip a0 in
            let value := strip a1 in
            if String.eqb option "Retention-lock" && String.eqb value "enabled"
            then governance_loop rest i true retention_lock_mode
            else if String.eqb option "Retention-lock mode" && String.eqb value "governance"
            then governance_loop rest i retention_lock (Some value)
            else governance_loop rest i retention_lock retention_lock_mode
        | _, _ =>
            (retention_lock, retention_lock_mode,
             Some (IndexError "list index out of range"))
        end
  end.

(** [check_pool_retention_lock_governance_mode]: the object, and the
    value returned ([False], or [None] on the enabled path). *)
Definition check_pool_retention_lock_governance_mode (self : OpenSystem)
  : M (OpenSystem * option bool) :=
  let pool := fmt (pool self) in
  log_message (LogMsg ("Checking Retention Lock Governance Mode for MTREE /data/col1/"
                       ++ pool)) ;;
  let command := "mtree retention-lock status mtree /data/col1/" ++ pool in
  log_message (LogMsg ("[Executing Command]: " ++ command)) ;;
  data <- ssh self command ;;
  flags <-
    match data with
    | None =>
        log_message (LogExn (AttributeError "'bool' object has no attribute 'split'")) ;;
        ret (false, None)
    | Some data =>
        let '(retention_lock, retention_lock_mode, e) :=
          governance_loop (split newline data) 0 false None in
        (match e with Some e => log_message (LogExn e) | None => ret tt end) ;;
        ret (retention_lock, retention_lock_mode)
    end ;;
  let '(retention_lock, retention_lock_mode) := flags in
  if retention_lock
     && match retention_lock_mode with
        | Some m => String.eqb m "governance"
        | None => false
        end
  then
    log_message (LogMsg ("Retention-lock feature is already enabled for MTREE /data/col1/"
                         ++ pool)) ;;
    ret (set_pool_retention_lock_enabled self true, None)
  else
    log_message (LogMsg ("Retention-lock feature is not enabled for MTREE /data/col1/"
                         ++ pool)) ;;
    ret (set_pool_retention_lock_enabled self false, Some false).

(** [enable_retention_lock_pool] *)
Definition enable_retention_lock_pool (self : OpenSystem) : M OpenSystem :=
  if (0 <? Z.of_nat (List.length (tape_list self)))
     && negb (pool_retention_lock_enabled self) then
    let pool := fmt (pool self) in
    log_message (LogMsg ("Enabling Retention Lock Governance Mode on MTREE /data/col1/"
                         ++ pool)) ;;
    let command := "mtree retention-lock enable mode governance mtree /data/col1/" ++ pool in
    log_message (LogMsg ("[Executing Command]: " ++ command)) ;;
    data <- ssh self command ;;
    log_message (LogMsg (match data with Some d => d | None => "False" end)) ;;
    match data with
    | None =>
        log_message (LogMsg ("Failed to enable Retention-Lock Governance Mode for pool "
                             ++ pool)) ;;
        ret (set_pool_retention_lock_enabled self false)
    | Some data =>
        if contains "Retention-lock feature is enabled" (strip data)
        then ret (set_pool_retention_lock_enabled self true)
        else
          log_message (LogMsg ("Failed to enable Retention-Lock Governance Mode for pool "
                               ++ pool)) ;;
          ret (set_pool_retention_lock_enabled self false)
    end
  else ret self.

Definition dashes : string :=
  "----------------------------------------------------------------------------------------------------------------------------".

(** [get_pool_info] *)
Definition get_pool_info (self : OpenSystem) : M OpenSystem :=
  if VTL_STATUS self then
    log_message (LogMsg dashes) ;;
    log_message (LogMsg dashes) ;;
    log_message (LogMsg ("[INFO] Pool:" ++ fmt (pool self))) ;;
    r <- check_pool_retention_lock_governance_mode self ;;
    ret (fst r)
  else ret self.

(** The block of the script that follows [get_tapes]:
    [if len(open_system_obj.tape_list) > 0: ... else: ...]. *)
Definition lock_phase (self : OpenSystem) : M OpenSystem :=
  if 0 <? Z.of_nat (List.length (tape_list self)) then
    self <- enable_retention_lock_pool self ;;
    set_min_retention_lock_period_pool self ;;
    set_max_retention_lock_period_pool self ;;
    apply_retention_lock_to_tapes self ;;
    ret self
  else
    log_message (LogMsg "No Tapes are available") ;;
    ret self.

End Immutable.

(* ===================================================================== *)
(** * open_system_vtl_reset.py: class OpenSystemVTLReset *)
(* ===================================================================== *)

Module Reset.
Import Py Env Utils.

(** The [tape_info] dictionary built by [get_tapes_by_pool]. *)
Record tape_info : Type := mktape {
  barcode : string;
  pool_name : string;
  location : string;
  state : string;
  size : string;
  retention_time : string
}.

Definition tape_json (t : tape_info) : list (string * string) :=
  [("barcode", barcode t); ("pool_name", pool_name t); ("location", location t);
   ("state", state t); ("size", size t); ("retention_time", retention_time t)].

(** The attributes of an [OpenSystemVTLReset] object. *)
Record OpenSystemVTLReset : Type := mkReset {
  input_parameters_file : option string;
  instances : option string;
  pools : option string;
  cred_file : option string;
  instance : string;
  user : string;
  password : string;
  pool : string;
  created_tapes : list string;
  VTL_STATUS : bool;
  retention_locked_tape_list : list tape_info;
  jukebox_name : option string
}.

Definition set_retention_locked_tape_list (self : OpenSystemVTLReset)
    (l : list tape_info) : OpenSystemVTLReset :=
  mkReset (input_parameters_file self) (instances self) (pools self) (cred_file self)
    (instance self) (user self) (password self) (pool self) (created_tapes self)
    (VTL_STATUS self) l (jukebox_name self).

Definition set_created_tapes (self : OpenSystemVTLReset)
    (l : list string) : OpenSystemVTLReset :=
  mkReset (input_parameters_file self) (instances self) (pools self) (cred_file self)
    (instance self) (user self) (password self) (pool self) l
    (VTL_STATUS self) (retention_locked_tape_list self) (jukebox_name self).

Definition ssh (self : OpenSystemVTLReset) (command : string) : M (option string) :=
  execute_ssh_command command (instance self) (user self) (password self).

(** [validate_input_parameters] *)
Definition validate_input_parameters (self : OpenSystemVTLReset) : M unit :=
  let file := fmt (input_parameters_file self) in
  let missing (text : string) : M unit :=
    log_message (LogMsg (text ++ file ++ " file")) ;; raise (SystemExit 1) in
  (match instances self with
   | None => missing "'open_system_instance' parameter is missing on "
   | Some _ => ret tt end) ;;
  (match pools self with
   | None => missing "'pool_name' parameter is missing on "
   | Some _ => ret tt end) ;;
  (match cred_file self with
   | None => missing "'open_system_credential_file_path' parameter missing on "
   | Some _ => ret tt end) ;;
  log_message (LogMsg "input parameters from YAML file has been loaded").

Definition fields (line : list string) : list string :=
  filter (fun x => negb (is_empty x)) (map strip line).

Definition first_piece (line : list string) : string := hd EmptyString line.

(** ** Classifier *)

(** [check_state]: [True] when the tape is retention-locked. *)
Definition check_state (tape_info : tape_info) : bool :=
  let state := strip (state tape_info) in
  if contains "RL" state then true else false.

Section Clock.

Variable tz : Z.
Variable now : datetime.

(** [check_retention_date]; the reading of the clock keeps its
    microseconds, the retention time is a whole second. *)
Definition check_retention_date (tape_info : tape_info) : result bool :=
  if negb (String.eqb (retention_time tape_info) "n/a") then
    match strptime parse_ymd_hms (retention_time tape_info) with
    | Raise e => Raise e
    | Ok modified_date =>
        let modified_date_timestamp := int_timestamp tz modified_date in
        let current_time_stamp := timestamp_us tz now in
        if modified_date_timestamp * 1000000 <? current_time_stamp
        then Ok true
        else Ok false
    end
  else Ok false.

(** ** Report parser of the reclaim workflow *)

(** The [for] loop of [get_tapes_by_pool] with its [try]: the records
    selected, and the exception that ended the loop, if one did. *)
Fixpoint get_tapes_by_pool_loop (lines : list string) (i : Z)
    (tape_list : list tape_info) : list tape_info * option exn :=
  match lines with
  | [] => (tape_list, None)
  | line :: rest =>
      let line := split "  " line in
      let i := i + 1 in
      let hyphen := count_char_0_2 "-"%char (first_piece line) in
      if (3 <? i) && (1 <? hyphen) then (tape_list, None)
      else if i <=? 3 then get_tapes_by_pool_loop rest i tape_list
      else
        let tapes := fields line in
        match index tapes 0, index tapes 1, index tapes 2,
              index tapes 3, index tapes 4, index tapes 7 with
        | Ok t0, Ok t1, Ok t2, Ok t3, Ok t4, Ok t7 =>
            let tape_info := mktape t0 t1 t2 t3 t4 t7 in
            let tape_list :=
              if String.eqb (barcode tape_info) "TEST01L5"
              then (tape_list ++ [tape_info])%list else tape_list in
            let state := check_state tape_info in
            match check_retention_date tape_info with
            | Raise e => (tape_list, Some e)
            | Ok check_retention_date_tape =>
                if state && check_retention_date_tape
                then get_tapes_by_pool_loop rest i (tape_list ++ [tape_info])
                else get_tapes_by_pool_loop rest i tape_list
            end
        | _, _, _, _, _, _ =>
            (tape_list, Some (IndexError "list index out of range"))
        end
  end.

(** [get_tapes_by_pool] *)
Definition get_tapes_by_pool (self : OpenSystemVTLReset) : M OpenSystemVTLReset :=
  let vtl_pool_name := pool self in
  log_message (LogMsg ("Fetching Pool: " ++ vtl_pool_name ++ " Tape list...")) ;;
  let command := "vtl tape show pool " ++ vtl_pool_name
                 ++ " time-display retention sort-by state ascending" in
  log_message (LogMsg ("[Executing Command]: " ++ command)) ;;
  pool_data <- ssh self command ;;
  match pool_data with
  | None | Some EmptyString =>
      log_message (LogMsg ("Failed to retrieve Pool: " ++ vtl_pool_name ++ " details.")) ;;
      ret (set_retention_locked_tape_list self [])
  | Some pool_data =>
      let '(tape_list, e) := get_tapes_by_pool_loop (split newline pool_data) 0 [] in
      (match e with Some e => log_message (LogExn e) | None => ret tt end) ;;
      log_message (LogMsg "Listing Retention Lock expired tapes") ;;
      log_message (LogJson (map tape_json tape_list)) ;;
      ret (set_retention_locked_tape_list self tape_list)
  end.

End Clock.

(** ** Stages of the reclaim pipeline *)

(** [export_tape_from_library]: [True], [False], or [None] when the
    function falls off its end. *)
Definition export_tape_from_library (self : OpenSystemVTLReset) (tape : tape_info)
  : M (option bool) :=
  let location := location tape in
  let slot_number := re_search_trailing_digits location in
  let barcode := barcode tape in
  let library := split " " location in
  let library_name := first_piece library in
  let vtl_pool_name := pool_name tape in
  match slot_number with
  | Some slot =>
      if negb (String.eqb library_name "vault") then
        log_message (LogMsg ("Exporting Barcode: " ++ barcode ++ " from Library: "
                             ++ library_name ++ " and Pool: " ++ vtl_pool_name ++ ".")) ;;
        let command := "vtl export " ++ library_name ++ " slot " ++ slot in
        log_message (LogMsg ("[Executing Command]: " ++ command)) ;;
        execute_result <- ssh self command ;;
        match execute_result with
        | None =>
            log_message (LogMsg ("Error while exporitng Barcode: " ++ barcode
                                 ++ " from Pool: " ++ vtl_pool_name)) ;;
            ret (Some false)
        | Some _ =>
            log_message (LogMsg ("Barcode: " ++ barcode ++ " from Pool: " ++ vtl_pool_name
                                 ++ " successfully exported")) ;;
            ret (Some true)
        end
      else ret None
  | None => ret None
  end.

(** [import_tape_from_library] *)
Definition import_tape_from_library (self : OpenSystemVTLReset) (tape : tape_info)
  : M bool :=
  let vtl_pool_name := pool self in
  let barcode := barcode tape in
  let location := location tape in
  let library := split " " location in
  let library_name := first_piece library in
  if negb (String.eqb library_name "vault") then
    log_message (LogMsg ("Importing Barcode: " ++ barcode ++ " into Pool: "
                         ++ vtl_pool_name ++ ".")) ;;
    let command := "vtl import " ++ library_name ++ " barcode " ++ barcode
                   ++ " count 1 pool " ++ vtl_pool_name ++ " element slot" in
    log_message (LogMsg ("[Executing Command]: " ++ command)) ;;
    execute_result <- ssh self command ;;
    match execute_result with
    | None =>
        log_message (LogMsg ("Error while importing Barcode: " ++ barcode
                             ++ " to Pool: " ++ vtl_pool_name)) ;;
        ret false
    | Some _ =>
        log_message (LogMsg ("Barcode: " ++ barcode ++ " on Pool: " ++ vtl_pool_name
                             ++ " successfully imported")) ;;
        ret true
    end
  else ret false.

(** [execute_tape_remove_commmand] *)
Definition execute_tape_remove_commmand (self : OpenSystemVTLReset)
    (tape_info : tape_info) : M bool :=
  let vtl_pool_name := pool self in
  let barcode := barcode tape_info in
  log_message (LogMsg ("Removing Tape with Barcode: " ++ barcode ++ " from Pool: "
                       ++ vtl_pool_name ++ " on OpenSystem: " ++ instance self ++ ".")) ;;
  let command := "vtl tape del " ++ barcode ++ " pool " ++ vtl_pool_name in
  log_message (LogMsg ("[Executing Command]: " ++ command)) ;;
  execute_result <- ssh self command ;;
  match execute_result with
  | None =>
      log_message (LogMsg ("Error while removing Barcode: " ++ barcode
                           ++ " on Pool: " ++ vtl_pool_name)) ;;
      ret false
  | Some _ =>
      log_message (LogMsg ("Barcode: " ++ barcode ++ " on Pool: " ++ vtl_pool_name
                           ++ " removed successfully")) ;;
      ret true
  end.

(** [create_tape]: the capacity is the size with its unit dropped, read
    as an [int]. *)
Definition create_tape (self : OpenSystemVTLReset) (rl_tape : tape_info) : M bool :=
  let vtl_pool_name := pool self in
  let barcode := barcode rl_tape in
  let size_str := strip (size rl_tape) in
  match split_ws size_str with
  | [size_value; size_unit] =>
      size_value <- lift (int_of_str size_value) ;;
      log_message (LogMsg ("Creating Tape with Barcode: " ++ barcode ++ " on Pool: "
                           ++ vtl_pool_name ++ " on OpenSystem: " ++ instance self ++ ".")) ;;
      let command := "vtl tape add " ++ barcode ++ " capacity " ++ str_of_int size_value
                     ++ " pool " ++ vtl_pool_name in
      log_message (LogMsg ("[Executing Command]: " ++ command)) ;;
      execute_result <- ssh self command ;;
      match execute_result with
      | None =>
          log_message (LogMsg ("Error while creating Barcode: " ++ barcode
                               ++ " on Pool: " ++ vtl_pool_name)) ;;
          ret false
      | Some _ =>
          log_message (LogMsg ("Barcode: " ++ barcode ++ " on Pool: " ++ vtl_pool_name
                               ++ " created successfully")) ;;
          ret true
      end
  | _ => raise (ValueError "wrong number of values to unpack")
  end.

(** ** Reclaim pipeline *)

(** The lists [remove_retention_locked_tapes] fills. *)
Record buckets : Type := mkbuckets {
  created : list string;
  failed_tape_while_export : list tape_info;
  failed_tape_while_remove : list tape_info;
  failed_tape_while_create : list tape_info;
  failed_tape_while_import : list tape_info;
  failed_tape_while_delete_on_networker : list tape_info
}.

Definition no_buckets : buckets := mkbuckets [] [] [] [] [] [].

Definition bar : string := "===========================================================================================================".

(** The body of the [for] loop of [remove_retention_locked_tapes]. *)
Definition reclaim_tape (self : OpenSystemVTLReset) (rl_tape : tape_info)
    (b : buckets) : M buckets :=
  log_message (LogMsg bar) ;;
  let command := [Some "nsrmm"; Some "-d"; Some (barcode rl_tape)] in
  delete_result <- run_nsrmm_command command ;;
  sleep 60 ;;
  b <-
    (if delete_result then
       log_message (LogMsg ("barcode " ++ barcode rl_tape
                            ++ " has been deleted from the networker")) ;;
       export_result <- export_tape_from_library self rl_tape ;;
       match export_result with
       | Some true =>
           remove_result <- execute_tape_remove_commmand self rl_tape ;;
           if remove_result then
             created_result <- create_tape self rl_tape ;;
             if created_result then
               import_result <- import_tape_from_library self rl_tape ;;
               if import_result then
                 sleep 60 ;;
                 let command :=
                   [Some "nsrjb"; Some "-L"; Some "-j"; jukebox_name self;
                    Some ("-b" ++ pool self); Some "-T"; Some (barcode rl_tape);
                    Some "-Y"] in
                 log_message (LogMsg ("Labeling barcode " ++ barcode rl_tape
                                      ++ " on networker")) ;;
                 labeling <- run_nsrjb_command command ;;
                 (if labeling then
                    log_message (LogMsg ("Labeling barcode " ++ barcode rl_tape
                                         ++ " on networker is completed"))
                  else ret tt) ;;
                 ret (mkbuckets (created b ++ [barcode rl_tape])
                        (failed_tape_while_export b) (failed_tape_while_remove b)
                        (failed_tape_while_create b) (failed_tape_while_import b)
                        (failed_tape_while_delete_on_networker b))
               else
                 ret (mkbuckets (created b)
                        (failed_tape_while_export b) (failed_tape_while_remove b)
                        (failed_tape_while_create b)
                        (failed_tape_while_import b ++ [rl_tape])
                        (failed_tape_while_delete_on_networker b))
             else
               ret (mkbuckets (created b)
                      (failed_tape_while_export b) (failed_tape_while_remove b)
                      (failed_tape_while_create b ++ [rl_tape])
                      (failed_tape_while_import b)
                      (failed_tape_while_delete_on_networker b))
           else
             ret (mkbuckets (created b)
                    (failed_tape_while_export b)
                    (failed_tape_while_remove b ++ [rl_tape])
                    (failed_tape_while_create b) (failed_tape_while_import b)
                    (failed_tape_while_delete_on_networker b))
       | _ =>
           ret (mkbuckets (created b)
                  (failed_tape_while_export b ++ [rl_tape])
                  (failed_tape_while_remove b)
                  (failed_tape_while_create b) (failed_tape_while_import b)
                  (failed_tape_while_delete_on_networker b))
       end
     else
       ret (mkbuckets (created b)
              (failed_tape_while_export b) (failed_tape_while_remove b)
              (failed_tape_while_create b) (failed_tape_while_import b)
              (failed_tape_while_delete_on_networker b ++ [rl_tape]))) ;;
  log_message (LogMsg bar) ;;
  ret b.

(** The [for] loop of [remove_retention_locked_tapes]: nothing in it
    handles an exception. *)
Fixpoint reclaim_loop (self : OpenSystemVTLReset) (tapes : list tape_info)
    (b : buckets) : M buckets :=
  match tapes with
  | [] => ret b
  | rl_tape :: rest =>
      b <- reclaim_tape self rl_tape b ;;
      reclaim_loop self rest b
  end.

Definition log_failed (first last : string) (l : list tape_info) : M unit :=
  if 0 <? Z.of_nat (List.length l) then
    log_message (LogMsg first) ;;
    log_message (LogJson (map tape_json l)) ;;
    log_message (LogMsg last)
  else ret tt.

(** [remove_retention_locked_tapes] *)
Definition remove_retention_locked_tapes (self : OpenSystemVTLReset)
  : M OpenSystemVTLReset :=
  if 0 <? Z.of_nat (List.length (retention_locked_tape_list self)) then
    b <- reclaim_loop self (retention_locked_tape_list self) no_buckets ;;
    log_failed "[START][FAILED] List of tapes failed while export from library"
               "[END][FAILED] Listing tapes failed while export from library"
               (failed_tape_while_export b) ;;
    log_failed "[START][FAILED] Listing tapes failed while remove from pool"
               "[END][FAILED] Listing tapes failed while remove from pool"
               (failed_tape_while_remove b) ;;
    log_failed "[START][FAILED] List of tapes failed while create on pool"
               "[END][FAILED] Listing tapes failed while create on pool"
               (failed_tape_while_create b) ;;
    log_failed "[START][FAILED] List of tapes failed while import into pool"
               "[END][FAILED] List of tapes failed while import into pool"
               (failed_tape_while_import b) ;;
    ret (set_created_tapes self (created b))
  else
    log_message (LogMsg "No RL tapes found") ;;
    ret self.

(** ** Instances, pools and the result report *)

(** [set_pool], [set_instance] *)
Definition set_pool (self : OpenSystemVTLReset) (pool : string) : OpenSystemVTLReset :=
  mkReset (input_parameters_file self) (instances self) (pools self) (cred_file self)
    (instance self) (user self) (password self) pool (created_tapes self)
    (VTL_STATUS self) (retention_locked_tape_list self) (jukebox_name self).

Definition set_instance (self : OpenSystemVTLReset) (instance : string)
  : OpenSystemVTLReset :=
  mkReset (input_parameters_file self) (instances self) (pools self) (cred_file self)
    instance (user self) (password self) (pool self) (created_tapes self)
    (VTL_STATUS self) (retention_locked_tape_list self) (jukebox_name self).

Definition set_VTL_STATUS (self : OpenSystemVTLReset) (b : bool) : OpenSystemVTLReset :=
  mkReset (input_parameters_file self) (instances self) (pools self) (cred_file self)
    (instance self) (user self) (password self) (pool self) (created_tapes self)
    b (retention_locked_tape_list self) (jukebox_name self).

(** [check_vtl_state] *)
Definition check_vtl_state (self : OpenSystemVTLReset) : M OpenSystemVTLReset :=
  log_message (LogMsg ("OpenSystem: " ++ instance self ++ " Checking VTL state...")) ;;
  vtl_status <- ssh self "vtl status" ;;
  match vtl_status with
  | Some vtl_status =>
      if negb (is_empty vtl_status) && contains "enabled" vtl_status
         && contains "running" vtl_status && contains "licensed" vtl_status
      then
        log_message (LogMsg "VTL is enabled, running, and licensed.") ;;
        ret (set_VTL_STATUS self true)
      else ret self
  | None => ret self
  end.

(** The [for] loop of [get_result] with its [try]; the dictionaries it
    builds have the keys of the lock workflow's [tape_info]. *)
Fixpoint get_result_loop (tape_list_result : list string) (lines : list string)
    (tape_list : list Immutable.tape_info) : list Immutable.tape_info * option exn :=
  match lines with
  | [] => (tape_list, None)
  | line :: rest =>
      let line := split "  " line in
      if is_empty (strip (first_piece line))
      then get_result_loop tape_list_result rest tape_list
      else if existsb (fun item => contains "-" item) line
      then get_result_loop tape_list_result rest tape_list
      else if existsb (fun x => mem x heading) line
      then get_result_loop tape_list_result rest tape_list
      else if Z.of_nat (List.length line) <? 2
      then get_result_loop tape_list_result rest tape_list
      else
        let tapes := fields line in
        match tapes with
        | [] => get_result_loop tape_list_result rest tape_list
        | t0 :: _ =>
            if mem (strip t0) tape_list_result then
              match index tapes 1, index tapes 2, index tapes 3,
                    index tapes 4, index tapes 5, index tapes 7 with
              | Ok t1, Ok t2, Ok t3, Ok t4, Ok t5, Ok t7 =>
                  get_result_loop tape_list_result rest
                    (tape_list ++ [Immutable.mktape t0 t1 t2 t3 t4 t5 t7])%list
              | _, _, _, _, _, _ =>
                  (tape_list, Some (IndexError "list index out of range"))
              end
            else get_result_loop tape_list_result rest tape_list
        end
  end.

(** [get_result]: [[]] ([Some []]) when the report cannot be retrieved,
    otherwise the function falls off its end ([None]). *)
Definition get_result (self : OpenSystemVTLReset) (tape_list_result : list string)
  : M (option (list Immutable.tape_info)) :=
  let vtl_pool_name := pool self in
  log_message (LogMsg ("Fetching Pool: " ++ vtl_pool_name ++ " Tape list result ...")) ;;
  let command := "vtl tape show pool " ++ vtl_pool_name ++ " sort-by modtime descending" in
  pool_data <- ssh self command ;;
  match pool_data with
  | None | Some EmptyString =>
      log_message (LogMsg ("Failed to retrieve Pool: " ++ vtl_pool_name ++ " details.")) ;;
      ret (Some [])
  | Some pool_data =>
      let '(tape_list, e) :=
        get_result_loop tape_list_result (split newline pool_data) [] in
      (match e with
       | Some e => log_message (LogMsg (str_of_exn e))
       | None => ret tt
       end) ;;
      log_message (LogMsg "Generating report") ;;
      generate_report_expired (pool self) (map Immutable.tape_json tape_list) ;;
      log_message (LogMsg "report generated successfully") ;;
      log_message (LogJson (map Immutable.tape_json tape_list)) ;;
      ret None
  end.

(** [check_result] *)
Definition check_result (self : OpenSystemVTLReset) : M unit :=
  if negb (Z.of_nat (List.length (created_tapes self)) =? 0) then
    _ <- get_result self (created_tapes self) ;;
    ret tt
  else log_message (LogMsg "None of the Tapes are removed").

(** [json.dumps] of a list of names that need no escaping. *)
Definition dumps_names (l : list string) : string :=
  let quote := String (ascii_of_nat 34) EmptyString in
  "[" ++ join ", " (map (fun x => quote ++ x ++ quote) l) ++ "]".

(** The [for] loop of [get_pools_present_on_VTL]; nothing in it can
    raise. *)
Fixpoint pools_loop (result : list string) (lines : list string)
    (exist_pool_list : list string) : list string :=
  match lines with
  | [] => exist_pool_list
  | line :: rest =>
      let line := split "  " line in
      if mem (first_piece line) result
      then pools_loop result rest (exist_pool_list ++ [strip (first_piece line)])%list
      else pools_loop result rest exist_pool_list
  end.

(** [get_pools_present_on_VTL]; the object has no field for the
    attribute [doamin_specific_pools], which is passed in and returned:
    the computation yields the attribute's value after the call. *)
Definition get_pools_present_on_VTL (self : OpenSystemVTLReset)
    (doamin_specific_pools : list string) : M (list string) :=
  match pools self with
  | None => raise (AttributeError "'NoneType' object has no attribute 'split'")
  | Some open_system_pool_names =>
      let result := map strip (split "," open_system_pool_names) in
      log_message (LogMsg ("check all Pools exist on OpenSystem: " ++ instance self
                           ++ " provided on list:")) ;;
      let command := "vtl pool show all" in
      log_message (LogMsg ("[Executing Command]: " ++ command)) ;;
      pool_data <- ssh self command ;;
      match pool_data with
      | None | Some EmptyString =>
          log_message (LogMsg "No data found") ;;
          ret doamin_specific_pools
      | Some pool_data =>
          let exist_pool_list := pools_loop result (split newline pool_data) [] in
          log_message (LogMsg ("These pools are processing from OpenSystem: "
                               ++ instance self ++ " Pools:  "
                               ++ dumps_names exist_pool_list)) ;;
          ret exist_pool_list
      end
  end.

Section Script.

Variable tz : Z.
Variable now : datetime.

(** The body of the inner [for] loop of the script, for one pool name. *)
Definition process_pool (self : OpenSystemVTLReset) (pool_name : string)
  : M OpenSystemVTLReset :=
  let self := set_pool self (strip pool_name) in
  self <- get_tapes_by_pool tz now self ;;
  self <- remove_retention_locked_tapes self ;;
  check_result self ;;
  ret self.

End Script.

End Reset.

(* ===================================================================== *)
(** * The specification's wording of the rules *)
(* ===================================================================== *)

Module Spec.
Import Py Env Utils.

(** The binary unit table: the power of 1024 each unit stands for. *)
Definition unit_table : list (string * nat) :=
  [("B", 0%nat); ("KB", 1%nat); ("MB", 2%nat); ("MIB", 2%nat);
   ("GB", 3%nat); ("GIB", 3%nat); ("TB", 4%nat); ("TIB", 4%nat)].

Fixpoint lookup_unit (u : string) (table : list (string * nat)) : option nat :=
  match table with
  | [] => None
  | (name, n) :: rest => if String.eqb u name then Some n else lookup_unit u rest
  end.

(** Units are looked up without regard to case. *)
Definition unit_power (u : string) : option nat := lookup_unit (upper u) unit_table.

(** [x] multiplied [n] times by 1024. *)
Fixpoint scale (x : float) (n : nat) : float :=
  match n with
  | O => x
  | S n' => fmul (scale x n') (float_of_Z 1024)
  end.

(** Conversion by the table: a number, a unit of the table, nothing else. *)
Definition size_by_table (size_str : string) : result float :=
  match split_ws (strip size_str) with
  | [v; u] =>
      match parse_float v with
      | None => Raise (ValueError ("could not convert string to float: " ++ v))
      | Some x =>
          match unit_power u with
          | Some n => Ok (scale x n)
          | None => Raise (ValueError ("Unsupported unit: " ++ upper u))
          end
      end
  | _ => Raise (ValueError "wrong number of values to unpack")
  end.

(** The exact integer value of a result, when it has one. *)
Definition exact_bytes (r : result float) : option Z :=
  match r with Ok x => exact_Z x | Raise _ => None end.

(** ** Lock-apply selection *)

(** The modification date of the record falls on today's calendar date
    under mechanism 1, on yesterday's under mechanism 2. *)
Definition modified_on (mechanism : pyval) (now : datetime)
    (t : Immutable.tape_info) : Prop :=
  exists d,
    parse_ymd_hms (Immutable.modification_time t) = Some d /\
    ((eq_int mechanism 1 = true /\ date_of d = date_of now) \/
     (eq_int mechanism 2 = true /\
      exists y, minus_one_day now = Ok y /\ date_of d = date_of y)).

(** ** Usage eligibility *)

(** The placement record [check_usage_in_report] looks at: the first one,
    in report order, whose file name contains the barcode. *)
Definition first_placement (self : Immutable.OpenSystem) (t : Immutable.tape_info)
  : option Immutable.Placement.t :=
  find (fun p => contains (Immutable.barcode t) (Immutable.Placement.file_name p))
       (Immutable.report self).

(** The size of the placement record, in bytes, exceeds the configured
    minimum, in bytes. *)
Definition above_threshold (self : Immutable.OpenSystem)
    (p : Immutable.Placement.t) : bool :=
  match Immutable.minimum_tape_usage self with
  | PStr m =>
      match size_to_bytes m, size_to_bytes (Immutable.Placement.size p) with
      | Ok r, Ok f => fgt f r
      | _, _ => false
      end
  | _ => false
  end.

(** The usage column starts with a number. *)
Definition usage_value (t : Immutable.tape_info) : option float :=
  match split_ws (Immutable.used t) with
  | u0 :: _ => parse_float u0
  | [] => None
  end.

(** *** Usage eligibility and the four conditions, as specified *)

(** The text of a usage column up to its first percent sign. *)
Fixpoint until_percent (s : string) : option string :=
  match s with
  | EmptyString => None
  | String c s' =>
      if Ascii.eqb c "%"%char then Some EmptyString
      else match until_percent s' with
           | Some r => Some (String c r)
           | None => None
           end
  end.

(** The last run of characters of [s] that holds no blank and no opening
    parenthesis. *)
Fixpoint last_token (s cur : string) : string :=
  match s with
  | EmptyString => cur
  | String c s' =>
      if is_space c || Ascii.eqb c "("%char then last_token s' EmptyString
      else last_token s' (snoc cur c)
  end.

(** The usage percentage a record reports: the number that stands before
    the percent sign of its usage column, 0.40 in "0.0 GiB (0.40%)" and
    0.0 in "0.0 %". *)
Definition reported_percentage (t : Immutable.tape_info) : option float :=
  match until_percent (Immutable.used t) with
  | Some p => parse_float (last_token (strip p) EmptyString)
  | None => None
  end.

(** Usage eligibility: the reported usage percentage is greater than 0,
    or a placement record whose file name contains the barcode exists
    with a size greater than the configured minimum. *)
Definition usage_eligible (self : Immutable.OpenSystem) (t : Immutable.tape_info)
  : Prop :=
  (exists x, reported_percentage t = Some x /\ fgt x (float_of_Z 0) = true) \/
  (exists p, In p (Immutable.report self) /\
             contains (Immutable.barcode t) (Immutable.Placement.file_name p) = true /\
             above_threshold self p = true).

(** The four conditions of lock application. *)
Definition lock_conditions (now : datetime) (self : Immutable.OpenSystem)
    (t : Immutable.tape_info) : Prop :=
  contains "slot" (Immutable.location t) = true /\
  usage_eligible self t /\
  contains "RL" (strip (Immutable.state t)) = false /\
  modified_on (Immutable.mechanism self) now t.

(** *** The conditions as the lock parser tests them *)

(** The usage test as [check_used] makes it: the number the usage column
    starts with is greater than 0, or the first placement record whose
    file name contains the barcode is above the minimum and its
    placement time can be read. *)
Definition usage_accepted (self : Immutable.OpenSystem) (t : Immutable.tape_info)
  : Prop :=
  (exists x, usage_value t = Some x /\ fgt x (float_of_Z 0) = true) \/
  (exists p, first_placement self t = Some p /\
             above_threshold self p = true /\
             parse_ctime (Immutable.Placement.placement_time p) <> None).

Definition parser_conditions (now : datetime) (self : Immutable.OpenSystem)
    (t : Immutable.tape_info) : Prop :=
  contains "slot" (Immutable.location t) = true /\
  usage_accepted self t /\
  contains "RL" (strip (Immutable.state t)) = false /\
  modified_on (Immutable.mechanism self) now t.

(** The command that lists the pool in the lock workflow, and what
    [get_tapes] logs before and after its loop. *)
Definition listing_command (self : Immutable.OpenSystem) : string :=
  "vtl tape show pool " ++ fmt (Immutable.pool self) ++ " sort-by modtime descending".

Definition listing_intro (self : Immutable.OpenSystem) : list log_entry :=
  [LogMsg ("Fetching Pool: " ++ fmt (Immutable.pool self) ++ " Tape list...");
   LogMsg ("[Executing Command]: " ++ listing_command self)].

Definition listing_outro (tape_list : list Immutable.tape_info) : list log_entry :=
  [LogMsg "=======================================Begins RL for Below Barcodes===========================================";
   LogJson (map Immutable.tape_json tape_list);
   Printed ("length:: " ++ str_of_int (Z.of_nat (List.length tape_list)));
   LogMsg Immutable.rule].

Definition retrieval_failure (pool : string) : log_entry :=
  LogMsg ("Failed to retrieve Pool: " ++ pool ++ " details.").

(** The same for the reclaim workflow. *)
Definition expiry_listing_command (self : Reset.OpenSystemVTLReset) : string :=
  "vtl tape show pool " ++ Reset.pool self
  ++ " time-display retention sort-by state ascending".

Definition expiry_listing_intro (self : Reset.OpenSystemVTLReset) : list log_entry :=
  [LogMsg ("Fetching Pool: " ++ Reset.pool self ++ " Tape list...");
   LogMsg ("[Executing Command]: " ++ expiry_listing_command self)].

Definition expiry_listing_outro (tape_list : list Reset.tape_info) : list log_entry :=
  [LogMsg "Listing Retention Lock expired tapes";
   LogJson (map Reset.tape_json tape_list)].

(** *** The lock parser without its log *)

(** What [check_usage_in_report] answers and what it logs. *)
Definition usage_answer (tz : Z) (self : Immutable.OpenSystem)
    (t : Immutable.tape_info) : option bool :=
  match first_placement self t with
  | Some p =>
      match Immutable.usage_against tz self t p with
      | Ok b => Some b
      | Raise _ => None
      end
  | None => Some false
  end.

Definition usage_logs (tz : Z) (self : Immutable.OpenSystem)
    (t : Immutable.tape_info) : list log_entry :=
  match first_placement self t with
  | Some p =>
      LogMsg ("Checking minimum usage for Barcode: " ++ Immutable.barcode t)
      :: match Immutable.usage_against tz self t p with
         | Ok _ => []
         | Raise e => [LogExn e]
         end
  | None => []
  end.

(** The number [check_used] reads: the first blank-separated piece of
    the usage column, as a [float]. *)
Definition usage_number (t : Immutable.tape_info) : result float :=
  match index (split_ws (Immutable.used t)) 0 with
  | Ok u0 => float_of_str u0
  | Raise e => Raise e
  end.

(** What the classification of one record answers and what it logs. *)
Definition decision (tz : Z) (now : datetime) (self : Immutable.OpenSystem)
    (t : Immutable.tape_info) : result bool :=
  match usage_number t with
  | Raise e => Raise e
  | Ok x =>
      let used := fgt x (float_of_Z 0)
                  || match usage_answer tz self t with Some true => true | _ => false end in
      match Immutable.check_modification_date tz now t (Immutable.mechanism self) with
      | Raise e => Raise e
      | Ok last_modified =>
          Ok (contains "slot" (Immutable.location t) && used
              && Immutable.check_state t && last_modified)
      end
  end.

Definition decision_logs (tz : Z) (self : Immutable.OpenSystem)
    (t : Immutable.tape_info) : list log_entry :=
  match usage_number t with
  | Raise _ => []
  | Ok _ => usage_logs tz self t
  end.

(** The records the loop of [get_tapes] selects from the lines of a
    report, and what it logs. *)
Fixpoint selection (tz : Z) (now : datetime) (self : Immutable.OpenSystem)
    (lines : list string) (acc : list Immutable.tape_info)
  : list Immutable.tape_info * list log_entry :=
  match lines with
  | [] => (acc, [])
  | line :: rest =>
      match Immutable.tape_record line with
      | None => selection tz now self rest acc
      | Some t =>
          match decision tz now self t with
          | Ok true =>
              let '(l, lg) := selection tz now self rest (acc ++ [t]) in
              (l, decision_logs tz self t ++ lg)
          | Ok false =>
              let '(l, lg) := selection tz now self rest acc in
              (l, decision_logs tz self t ++ lg)
          | Raise e => (acc, decision_logs tz self t ++ [LogMsg (str_of_exn e)])
          end
      end
  end%list.

(** The record is one the loop of [get_tapes] appends. *)
Definition selects (tz : Z) (now : datetime) (self : Immutable.OpenSystem)
    (t : Immutable.tape_info) : bool :=
  match decision tz now self t with
  | Ok true => true
  | _ => false
  end.

(** A record the classifier can read: its usage column starts with a
    number and its modification time has the expected format. *)
Definition readable (t : Immutable.tape_info) : Prop :=
  usage_value t <> None /\ parse_ymd_hms (Immutable.modification_time t) <> None.

(** ** What one remote command amounts to *)

(** The reply the session gives to the next command. *)
Definition head_ssh (w : world) : ssh_reply :=
  hd (SshRaised "no reply") (ssh_replies w).

(** The command succeeded: it ran and wrote nothing to standard error. *)
Definition ssh_ok (r : ssh_reply) : bool :=
  match r with
  | SshRan _ stderr => is_empty (strip stderr)
  | SshRaised _ => false
  end.

(** The value [execute_ssh_command] returns for a reply. *)
Definition ssh_value (r : ssh_reply) : option string :=
  match r with
  | SshRan stdout stderr => if is_empty (strip stderr) then Some (strip stdout) else None
  | SshRaised _ => None
  end.

(** What [execute_ssh_command] logs for a reply. *)
Definition ssh_log (command : string) (r : ssh_reply) : list log_entry :=
  match r with
  | SshRan stdout stderr =>
      if is_empty (strip stderr) then []
      else [LogMsg ("Error executing '" ++ command ++ "': " ++ strip stderr)]
  | SshRaised msg => [LogMsg ("SSH Connection error: " ++ msg)]
  end.

(** [w'] is [w] after [n_ssh] remote commands and [n_proc] tool runs
    have been answered and the events [ev] have happened; the log is
    left aside. *)
Definition advanced (w w' : world) (n_ssh n_proc : nat) (ev : list event) : Prop :=
  ssh_replies w' = skipn n_ssh (ssh_replies w) /\
  proc_replies w' = skipn n_proc (proc_replies w) /\
  events w' = (events w ++ ev)%list.

(** [w'] is [w] after the same, with the entries [lg] added to the
    log. *)
Definition stepped (w w' : world) (n_ssh n_proc : nat) (ev : list event)
    (lg : list log_entry) : Prop :=
  advanced w w' n_ssh n_proc ev /\ logs w' = (logs w ++ lg)%list.

(** [w] with further log entries. *)
Definition logged (w : world) (lg : list log_entry) : world :=
  mkworld (ssh_replies w) (proc_replies w) (events w) (logs w ++ lg).

(** ** The reclaim pipeline as a decision on the replies *)

(** The stages and outcomes of the data model. *)
Inductive stage : Type :=
  | CatalogDelete | Export | Remove | Create | Import | Label.

Inductive outcome : Type :=
  | Succeeded
  | FailedAt (s : stage).

Definition no_reply : ssh_reply := SshRaised "no reply".
Definition no_tool : proc_reply := ProcSpawnRaised (OSError "no such file").

(** The reply a catalog tool gives to the next run. *)
Definition head_proc (w : world) : proc_reply := hd no_tool (proc_replies w).

(** What the delete helper makes of the tool's behaviour: only a
    [CalledProcessError] is turned into [False]. *)
Definition nsrmm_outcome (r : proc_reply) : result bool :=
  match r with
  | ProcCompleted _ _ _ => Ok true
  | ProcExited _ _ _ => Raise (BrokenPipeError "[Errno 32] Broken pipe")
  | ProcSpawnRaised (CalledProcessError _) | ProcIORaised (CalledProcessError _) => Ok false
  | ProcSpawnRaised e | ProcIORaised e => Raise e
  end.

(** What the label helper makes of it: a non-zero exit status is a
    [CalledProcessError] as well. *)
Definition nsrjb_outcome (r : proc_reply) : result bool :=
  match r with
  | ProcCompleted _ _ returncode | ProcExited _ _ returncode => Ok (returncode =? 0)
  | ProcSpawnRaised (CalledProcessError _) | ProcIORaised (CalledProcessError _) => Ok false
  | ProcSpawnRaised e | ProcIORaised e => Raise e
  end.

(** The library a tape sits in: what precedes the first blank of its
    location. *)
Definition library_name (t : Reset.tape_info) : string :=
  Reset.first_piece (split " " (Reset.location t)).

(** The slot an export command is issued for: the location ends in a
    slot number and the library is not the vault. *)
Definition export_slot (t : Reset.tape_info) : option string :=
  match re_search_trailing_digits (Reset.location t) with
  | Some slot => if negb (String.eqb (library_name t) "vault") then Some slot else None
  | None => None
  end.

(** The capacity a tape is re-created with. *)
Definition capacity (t : Reset.tape_info) : result Z :=
  match split_ws (strip (Reset.size t)) with
  | [v; u] => int_of_str v
  | _ => Raise (ValueError "wrong number of values to unpack")
  end.

(** The outcome of one tape, and how many remote replies and tool
    replies it uses up, given the replies still to come. *)
Definition pipeline_step (self : Reset.OpenSystemVTLReset) (t : Reset.tape_info)
    (sr : list ssh_reply) (pr : list proc_reply) : result outcome * nat * nat :=
  match nsrmm_outcome (hd no_tool pr) with
  | Raise e => (Raise e, 0%nat, 1%nat)
  | Ok false => (Ok (FailedAt CatalogDelete), 0%nat, 1%nat)
  | Ok true =>
      match export_slot t with
      | None => (Ok (FailedAt Export), 0%nat, 1%nat)
      | Some _ =>
          if negb (ssh_ok (nth 0 sr no_reply)) then (Ok (FailedAt Export), 1%nat, 1%nat)
          else if negb (ssh_ok (nth 1 sr no_reply)) then (Ok (FailedAt Remove), 2%nat, 1%nat)
          else
            match capacity t with
            | Raise e => (Raise e, 2%nat, 1%nat)
            | Ok _ =>
                if negb (ssh_ok (nth 2 sr no_reply)) then (Ok (FailedAt Create), 3%nat, 1%nat)
                else if negb (ssh_ok (nth 3 sr no_reply))
                then (Ok (FailedAt Import), 4%nat, 1%nat)
                else
                  match Reset.jukebox_name self with
                  | None =>
                      (Raise (TypeError "sequence item 3: expected str instance, NoneType found"),
                       4%nat, 1%nat)
                  | Some _ =>
                      match nsrjb_outcome (hd no_tool (tl pr)) with
                      | Raise e => (Raise e, 4%nat, 2%nat)
                      | Ok _ => (Ok Succeeded, 4%nat, 2%nat)
                      end
                  end
            end
      end
  end.

(** Recording an outcome: the success list, or the list of the stage.
    There is no list for [Label]. *)
Definition record_outcome (t : Reset.tape_info) (o : outcome) (b : Reset.buckets)
  : Reset.buckets :=
  match o with
  | Succeeded =>
      Reset.mkbuckets (Reset.created b ++ [Reset.barcode t])
        (Reset.failed_tape_while_export b) (Reset.failed_tape_while_remove b)
        (Reset.failed_tape_while_create b) (Reset.failed_tape_while_import b)
        (Reset.failed_tape_while_delete_on_networker b)
  | FailedAt CatalogDelete =>
      Reset.mkbuckets (Reset.created b)
        (Reset.failed_tape_while_export b) (Reset.failed_tape_while_remove b)
        (Reset.failed_tape_while_create b) (Reset.failed_tape_while_import b)
        (Reset.failed_tape_while_delete_on_networker b ++ [t])
  | FailedAt Export =>
      Reset.mkbuckets (Reset.created b)
        (Reset.failed_tape_while_export b ++ [t]) (Reset.failed_tape_while_remove b)
        (Reset.failed_tape_while_create b) (Reset.failed_tape_while_import b)
        (Reset.failed_tape_while_delete_on_networker b)
  | FailedAt Remove =>
      Reset.mkbuckets (Reset.created b)
        (Reset.failed_tape_while_export b) (Reset.failed_tape_while_remove b ++ [t])
        (Reset.failed_tape_while_create b) (Reset.failed_tape_while_import b)
        (Reset.failed_tape_while_delete_on_networker b)
  | FailedAt Create =>
      Reset.mkbuckets (Reset.created b)
        (Reset.failed_tape_while_export b) (Reset.failed_tape_while_remove b)
        (Reset.failed_tape_while_create b ++ [t]) (Reset.failed_tape_while_import b)
        (Reset.failed_tape_while_delete_on_networker b)
  | FailedAt Import =>
      Reset.mkbuckets (Reset.created b)
        (Reset.failed_tape_while_export b) (Reset.failed_tape_while_remove b)
        (Reset.failed_tape_while_create b) (Reset.failed_tape_while_import b ++ [t])
        (Reset.failed_tape_while_delete_on_networker b)
  | FailedAt Label => b
  end.

(** The outcomes of a batch, tape after tape, given the replies to come;
    the first exception ends it. *)
Fixpoint batch_outcomes (self : Reset.OpenSystemVTLReset) (tapes : list Reset.tape_info)
    (sr : list ssh_reply) (pr : list proc_reply) : result (list outcome) :=
  match tapes with
  | [] => Ok []
  | t :: rest =>
      match pipeline_step self t sr pr with
      | (Ok o, n, m) =>
          match batch_outcomes self rest (skipn n sr) (skipn m pr) with
          | Ok os => Ok (o :: os)
          | Raise e => Raise e
          end
      | (Raise e, _, _) => Raise e
      end
  end.

Fixpoint record_all (tapes : list Reset.tape_info) (os : list outcome)
    (b : Reset.buckets) : Reset.buckets :=
  match tapes, os with
  | t :: tapes', o :: os' => record_all tapes' os' (record_outcome t o b)
  | _, _ => b
  end.

(** The tool reply does not raise anything but [CalledProcessError]. *)
Definition tool_returns (r : proc_reply) : bool :=
  match r with
  | ProcCompleted _ _ _ => true
  | ProcSpawnRaised (CalledProcessError _) | ProcIORaised (CalledProcessError _) => true
  | _ => false
  end.

(** A stage that issues one remote command and answers whether it
    succeeded. *)
Definition one_command_stage (m : M bool) (instance command : string) : Prop :=
  forall w, exists w',
    m w = (Ok (ssh_ok (head_ssh w)), w') /\
    advanced w w' 1 0 [EvSsh instance command].

(** ** The lock loop as a decision on the replies *)

(** The rows [format_tape_data] reads from the answer to a re-query. *)
Definition rows_of (data : option string) : list Immutable.Row.t :=
  match data with
  | None => []
  | Some d => fst (Immutable.format_tape_data_loop (split newline d) 0 [])
  end.

(** The answer to a re-query shows the tape locked: its first row has
    the state "RO/RL*". *)
Definition confirmed (r : ssh_reply) : bool :=
  match rows_of (ssh_value r) with
  | first :: _ => String.eqb (Immutable.Row.state first) "RO/RL*"
  | [] => false
  end.

(** The answer of [set_retention_lock] for one tape and the number of
    remote replies it uses up: the second reply is the re-query. *)
Definition lock_step (self : Immutable.OpenSystem) (sr : list ssh_reply)
  : result bool * nat :=
  match Immutable.retention_lock_period self with
  | None => (Ok false, 0%nat)
  | Some _ =>
      match rows_of (ssh_value (nth 1 sr no_reply)) with
      | [] => (Raise (IndexError "list index out of range"), 2%nat)
      | first :: _ => (Ok (String.eqb (Immutable.Row.state first) "RO/RL*"), 2%nat)
      end
  end.

Fixpoint lock_outcomes (self : Immutable.OpenSystem) (tapes : list Immutable.tape_info)
    (sr : list ssh_reply) : result (list bool) :=
  match tapes with
  | [] => Ok []
  | _ :: rest =>
      match lock_step self sr with
      | (Ok r, n) =>
          match lock_outcomes self rest (skipn n sr) with
          | Ok rs => Ok (r :: rs)
          | Raise e => Raise e
          end
      | (Raise e, _) => Raise e
      end
  end.

(** The barcodes of the tapes whose lock was confirmed. *)
Fixpoint locked_barcodes (tapes : list Immutable.tape_info) (rs : list bool)
  : list string :=
  match tapes, rs with
  | t :: tapes', r :: rs' =>
      if r then Immutable.barcode t :: locked_barcodes tapes' rs'
      else locked_barcodes tapes' rs'
  | _, _ => []
  end.

(** Every re-query of a batch of [n] tapes is answered with at least one
    row. *)
Fixpoint requeries_answered (n : nat) (sr : list ssh_reply) : bool :=
  match n with
  | O => true
  | S n' =>
      match rows_of (ssh_value (nth 1 sr no_reply)) with
      | [] => false
      | _ :: _ => requeries_answered n' (skipn 2 sr)
      end
  end.

Definition requeries_yield (self : Immutable.OpenSystem) (n : nat)
    (sr : list ssh_reply) : bool :=
  match Immutable.retention_lock_period self with
  | None => true
  | Some _ => requeries_answered n sr
  end.

(** ** Reports as lists of records *)

(** The records of the 8-column data lines of a report, in order. *)
Definition records_of (lines : list string) : list Immutable.tape_info :=
  flat_map (fun line => match Immutable.tape_record line with
                        | Some t => [t]
                        | None => []
                        end) lines.


(** ** Traces *)

(** The remote commands among the events, in order. *)
Fixpoint remote_commands (ev : list event) : list string :=
  match ev with
  | [] => []
  | EvSsh _ command :: rest => command :: remote_commands rest
  | _ :: rest => remote_commands rest
  end.

(** What running the delete tool does to the outside. *)
Definition nsrmm_events (argv : list string) (r : proc_reply) : list event :=
  match r with
  | ProcCompleted _ _ _ => [EvProc argv; EvSleep 50; EvStdin ("y" ++ newline)]
  | ProcExited _ _ _ => [EvProc argv; EvSleep 50]
  | ProcSpawnRaised _ => [EvProc argv]
  | ProcIORaised _ => [EvProc argv; EvSleep 50]
  end.

(** What running the label tool does to the outside. *)
Definition nsrjb_events (argv : list string) (r : proc_reply) : list event :=
  match r with
  | ProcCompleted _ _ returncode | ProcExited _ _ returncode =>
      if returncode =? 0 then [EvProc argv; EvSleep 60] else [EvProc argv]
  | _ => [EvProc argv]
  end.

(** The four remote commands of the pipeline for one tape. *)
Definition export_command (t : Reset.tape_info) (slot : string) : string :=
  "vtl export " ++ library_name t ++ " slot " ++ slot.

Definition remove_command (self : Reset.OpenSystemVTLReset) (t : Reset.tape_info)
  : string :=
  "vtl tape del " ++ Reset.barcode t ++ " pool " ++ Reset.pool self.

Definition create_command (self : Reset.OpenSystemVTLReset) (t : Reset.tape_info)
    (n : Z) : string :=
  "vtl tape add " ++ Reset.barcode t ++ " capacity " ++ str_of_int n
  ++ " pool " ++ Reset.pool self.

Definition import_command (self : Reset.OpenSystemVTLReset) (t : Reset.tape_info)
  : string :=
  "vtl import " ++ library_name t ++ " barcode " ++ Reset.barcode t
  ++ " count 1 pool " ++ Reset.pool self ++ " element slot".

Definition delete_argv (t : Reset.tape_info) : list string :=
  ["nsrmm"; "-d"; Reset.barcode t].

Definition label_argv (self : Reset.OpenSystemVTLReset) (t : Reset.tape_info)
    (jukebox : string) : list string :=
  ["nsrjb"; "-L"; "-j"; jukebox; "-b" ++ Reset.pool self; "-T"; Reset.barcode t; "-Y"].

(** What the pipeline does to the outside for one tape, given the
    replies still to come. *)
Definition pipeline_events (self : Reset.OpenSystemVTLReset) (t : Reset.tape_info)
    (sr : list ssh_reply) (pr : list proc_reply) : list event :=
  let i := Reset.instance self in
  (nsrmm_events (delete_argv t) (hd no_tool pr) ++
   match nsrmm_outcome (hd no_tool pr) with
   | Raise _ => []
   | Ok false => [EvSleep 60]
   | Ok true =>
       EvSleep 60 ::
       match export_slot t with
       | None => []
       | Some slot =>
           EvSsh i (export_command t slot) ::
           if negb (ssh_ok (nth 0 sr no_reply)) then []
           else
             EvSsh i (remove_command self t) ::
             if negb (ssh_ok (nth 1 sr no_reply)) then []
             else
               match capacity t with
               | Raise _ => []
               | Ok n =>
                   EvSsh i (create_command self t n) ::
                   if negb (ssh_ok (nth 2 sr no_reply)) then []
                   else
                     EvSsh i (import_command self t) ::
                     if negb (ssh_ok (nth 3 sr no_reply)) then []
                     else
                       EvSleep 60 ::
                       match Reset.jukebox_name self with
                       | None => []
                       | Some j => nsrjb_events (label_argv self t j) (hd no_tool (tl pr))
                       end
               end
       end
   end)%list.

(** What a batch does to the outside, tape after tape, up to the first
    exception. *)
Fixpoint batch_events (self : Reset.OpenSystemVTLReset) (tapes : list Reset.tape_info)
    (sr : list ssh_reply) (pr : list proc_reply) : list event :=
  match tapes with
  | [] => []
  | t :: rest =>
      (pipeline_events self t sr pr ++
       match pipeline_step self t sr pr with
       | (Ok _, n, m) => batch_events self rest (skipn n sr) (skipn m pr)
       | (Raise _, _, _) => []
       end)%list
  end.

(** The barcodes filed in the six lists of a batch. *)
Definition filed (b : Reset.buckets) : list string :=
  (Reset.created b
   ++ map Reset.barcode (Reset.failed_tape_while_export b)
   ++ map Reset.barcode (Reset.failed_tape_while_remove b)
   ++ map Reset.barcode (Reset.failed_tape_while_create b)
   ++ map Reset.barcode (Reset.failed_tape_while_import b)
   ++ map Reset.barcode (Reset.failed_tape_while_delete_on_networker b))%list.

(** The remote commands that have been issued for a tape with a given
    outcome. *)
Definition commands_of (self : Reset.OpenSystemVTLReset) (t : Reset.tape_info)
    (o : outcome) : list string :=
  let all :=
    match export_slot t with
    | None => []
    | Some slot =>
        export_command t slot :: remove_command self t ::
        match capacity t with
        | Ok n => [create_command self t n; import_command self t]
        | Raise _ => []
        end
    end in
  match o with
  | FailedAt CatalogDelete => []
  | FailedAt Export => firstn 1 all
  | FailedAt Remove => firstn 2 all
  | FailedAt Create => firstn 3 all
  | FailedAt Import | FailedAt Label | Succeeded => all
  end.

(** ** State of the library and of the pool *)

(** The status text shows the library enabled, running and licensed. *)
Definition shows_up (status : option string) : bool :=
  match status with
  | Some s => contains "enabled" s && contains "running" s && contains "licensed" s
  | None => false
  end.

(** The option and the value a line of the governance report sets: its
    first two non-blank pieces. *)
Definition setting (line : string) : option (string * string) :=
  match filter (fun x => negb (is_empty (strip x))) (split "  " line) with
  | a0 :: a1 :: _ => Some (strip a0, strip a1)
  | _ => None
  end.

Definition sets (option value line : string) : bool :=
  match setting line with
  | Some (o, v) => String.eqb o option && String.eqb v value
  | None => false
  end.

(** A line the positional loops stop at once past the header: it starts
    with two hyphens. *)
Definition closes (line : string) : bool :=
  1 <? count_char_0_2 "-"%char (hd EmptyString (split "  " line)).

(** The lines of a positional report body up to the line that closes
    it. *)
Fixpoint until_close (lines : list string) : list string :=
  match lines with
  | [] => []
  | line :: rest => if closes line then [] else line :: until_close rest
  end.

(** The period chosen among a daily and a monthly bound: the monthly one
    when it is a positive [int], else the daily one when it is. *)
Definition chosen_period (daily monthly : pyval) (monthly_unit : string)
  : option string :=
  if is_positive_int monthly then Some (str_of_val monthly ++ monthly_unit)
  else if is_positive_int daily then Some (str_of_val daily ++ "day")
  else None.

(** The two commands of the lock loop for one tape. *)
Definition modify_command (t : Immutable.tape_info) (period : string) : string :=
  "vtl tape modify " ++ Immutable.barcode t ++ " pool " ++ Immutable.pool_name t
  ++ " retention-lock " ++ period.

Definition show_command (t : Immutable.tape_info) : string :=
  "vtl tape show pool " ++ Immutable.pool_name t ++ " barcode " ++ Immutable.barcode t.

Definition lock_commands (tapes : list Immutable.tape_info) (period : string)
  : list string :=
  flat_map (fun t => [modify_command t period; show_command t]) tapes.

End Spec.

(* ===================================================================== *)
(** * Concrete objects used in the examples *)
(* ===================================================================== *)

Module Examples.
Import Py Env Utils.

Definition now : datetime := mkdatetime 2025 2 17 10 0 0 123.

Definition placement_old : Immutable.Placement.t :=
  Immutable.Placement.mk "/data/col1/FEB_3/A55157LA.old" "1 MiB" "Mon Feb 17 08:00:00 2025".

Definition placement_new : Immutable.Placement.t :=
  Immutable.Placement.mk "/data/col1/FEB_3/A55157LA" "2 GiB" "Mon Feb 17 09:00:00 2025".

(** daily = 30 days, monthly = 2 years; mechanism 1; minimum usage 1 GiB *)
Definition lock_object (report : list Immutable.Placement.t) : Immutable.OpenSystem :=
  Immutable.mkOpenSystem (Some "input.yml") (Some "dd01") (Some "cred.txt")
    "sysadmin" "secret" (Some "FEB_3") (PInt 1) true true [] report
    (PInt 30) (PInt 2) (PInt 7) (PInt 30) (PInt 30) (PInt 2) (PStr "1 GiB").

Definition written_today : Immutable.tape_info :=
  Immutable.mktape "A55157LA" "FEB_3" "Pool_TEST slot 667" "RW" "5 GiB"
    "1.2 GiB (24.00%)" "2025/02/17 09:45:48".

Definition unused_today : Immutable.tape_info :=
  Immutable.mktape "A55157LA" "FEB_3" "Pool_TEST slot 667" "RW" "5 GiB"
    "0.0 GiB (0.00%)" "2025/02/17 09:45:48".

Definition slightly_used : Immutable.tape_info :=
  Immutable.mktape "A55161LA" "FEB_3" "Pool_TEST slot 669" "RW" "5 GiB"
    "0.0 GiB (0.40%)" "2025/02/17 09:50:00".

(** A record whose usage column is the percentage alone. *)
Definition zero_percent : Immutable.tape_info :=
  Immutable.mktape "A55163LA" "FEB_3" "Pool_TEST slot 671" "RW" "5 GiB"
    "0.0 %" "2025/02/17 09:45:48".

Definition slightly_used_line : string :=
  "A55161LA  FEB_3  Pool_TEST slot 669  RW  5 GiB  0.0 GiB (0.40%)  0x  2025/02/17 09:50:00".

Definition unused_today_line : string :=
  "A55157LA  FEB_3  Pool_TEST slot 667  RW  5 GiB  0.0 GiB (0.00%)  0x  2025/02/17 09:45:48".

Definition written_yesterday : Immutable.tape_info :=
  Immutable.mktape "A55162LA" "FEB_3" "Pool_TEST slot 670" "RW" "5 GiB"
    "2.5 GiB (50.00%)" "2025/02/16 23:59:59".

Definition written_yesterday_line : string :=
  "A55162LA  FEB_3  Pool_TEST slot 670  RW  5 GiB  2.5 GiB (50.00%)  1x  2025/02/16 23:59:59".

(** The object with another mechanism. *)
Definition lock_object_with (mechanism : pyval) (report : list Immutable.Placement.t)
  : Immutable.OpenSystem :=
  Immutable.mkOpenSystem (Some "input.yml") (Some "dd01") (Some "cred.txt")
    "sysadmin" "secret" (Some "FEB_3") mechanism true true [] report
    (PInt 30) (PInt 2) (PInt 7) (PInt 30) (PInt 30) (PInt 2) (PStr "1 GiB").

Definition written_today_line : string :=
  "A55157LA  FEB_3  Pool_TEST slot 667  RW  5 GiB  1.2 GiB (24.00%)  1x  2025/02/17 09:45:48".

Definition quiet : world := mkworld [] [] [] [].

(** A separator row whose columns are two blanks apart. *)
Definition narrow_separator : string :=
  "--------  -----  ------------------  ------  -----  ---------  ----  -------------------".

(** A data line whose usage column holds no number. *)
Definition unknown_usage_line : string :=
  "A55170LA  FEB_3  Pool_TEST slot 672  RW  5 GiB  n/a  0x  2025/02/17 09:45:48".

Definition unknown_usage : Immutable.tape_info :=
  Immutable.mktape "A55170LA" "FEB_3" "Pool_TEST slot 672" "RW" "5 GiB" "n/a"
    "2025/02/17 09:45:48".

(** The listing of the pool, as the lock workflow receives it. *)
Definition lock_header : list string :=
  ["Processing tapes....";
   "Barcode    Pool    Location             State    Size    Used (%)    Comp   Modification Time";
   "--------   -----   ------------------   ------   -----   ---------   ----   -------------------"].

Definition listing (lines : list string) : ssh_reply :=
  SshRan (join newline (lock_header ++ lines)%list) "".

Definition listed_world (lines : list string) : world :=
  mkworld [listing lines] [] [] [].

(** The answer to the status command of a pool in governance mode. *)
Definition governance_report : string :=
  join newline
    ["Option                 Value";
     "-------------------    ----------";
     "Retention-lock         enabled";
     "Retention-lock mode    governance";
     "-------------------    ----------"].

(** *** Reclaim workflow *)

Definition reset_object (tapes : list Reset.tape_info) : Reset.OpenSystemVTLReset :=
  Reset.mkReset (Some "input.yml") (Some "dd01") (Some "FEB_3") (Some "cred.txt")
    "dd01" "sysadmin" "secret" "FEB_3" [] true tapes (Some "jukebox1").

Definition expired : Reset.tape_info :=
  Reset.mktape "A55157LA" "FEB_3" "Pool_TEST slot 667" "RO/RL*" "5 GiB"
    "2025/02/16 19:45:48".

Definition in_vault : Reset.tape_info :=
  Reset.mktape "A55158LA" "FEB_3" "vault" "RO/RL*" "5 GiB" "2025/02/16 19:45:48".

Definition no_slot : Reset.tape_info :=
  Reset.mktape "A55159LA" "FEB_3" "Pool_TEST" "RO/RL*" "5 GiB" "2025/02/16 19:45:48".

Definition fractional : Reset.tape_info :=
  Reset.mktape "A55160LA" "FEB_3" "Pool_TEST slot 668" "RO/RL*" "1.5 GiB"
    "2025/02/16 19:45:48".

Definition fine : ssh_reply := SshRan "ok" "".
Definition refused : ssh_reply := SshRan "" "**** Error".
Definition exited (returncode : Z) : proc_reply := ProcCompleted "" "" returncode.

(** Every command succeeds, the delete tool runs, the label tool exits
    with status 1. *)
Definition label_fails : world :=
  mkworld [fine; fine; fine; fine] [exited 0; exited 1] [] [].

(** The delete tool fails at once: it has exited, with status 1, before
    the answer is written to it. *)
Definition early_exit : proc_reply := ProcExited "" "nsrmm: volume not found" 1.

Definition reset_object_without_jukebox (tapes : list Reset.tape_info)
  : Reset.OpenSystemVTLReset :=
  Reset.mkReset (Some "input.yml") (Some "dd01") (Some "FEB_3") (Some "cred.txt")
    "dd01" "sysadmin" "secret" "FEB_3" [] true tapes None.

(** Every command and every tool succeeds, for two tapes. *)
Definition all_fine : world :=
  mkworld [fine; fine; fine; fine; fine; fine; fine; fine]
          [exited 0; exited 0; exited 0; exited 0] [] [].

Definition other_expired : Reset.tape_info :=
  Reset.mktape "A55165LA" "FEB_3" "Pool_TEST slot 670" "RO/RL*" "5 GiB"
    "2025/02/16 19:45:48".

(** Three tapes: the remove command of the first is refused, the second
    has no slot, the label tool of the third exits with status 1. *)
Definition mixed_batch : world :=
  mkworld [fine; refused; fine; fine; fine; fine]
          [exited 0; exited 0; exited 0; exited 1; exited 0; exited 0] [] [].

(** Configurations with a missing key. *)
Definition reset_object_without_pool : Reset.OpenSystemVTLReset :=
  Reset.mkReset (Some "input.yml") (Some "dd01") None (Some "cred.txt")
    "dd01" "sysadmin" "secret" "" [] true [] (Some "jukebox1").

Definition lock_object_without_mechanism : Immutable.OpenSystem :=
  Immutable.mkOpenSystem (Some "input.yml") (Some "dd01") (Some "cred.txt")
    "sysadmin" "secret" (Some "FEB_3") PNone true true [] []
    (PInt 30) (PInt 2) (PInt 7) (PInt 30) (PInt 30) (PInt 2) (PStr "1 GiB").

(** *** Reports *)

Definition header : list string :=
  ["Processing tapes....";
   "Barcode    Pool    Location             State    Size    Used (%)    Comp   Retention Time";
   "--------   -----   ------------------   ------   -----   ---------   ----   -------------------"].

Definition expired_line : string :=
  "A55157LA  FEB_3  Pool_TEST slot 667  RO/RL*  5 GiB  0.0 GiB (0.00%)  0x  2025/02/16 19:45:48".

Definition test_line : string :=
  "TEST01L5  FEB_3  Pool_TEST slot 668  RW  5 GiB  0.0 GiB (0.00%)  0x  n/a".

Definition test_tape : Reset.tape_info :=
  Reset.mktape "TEST01L5" "FEB_3" "Pool_TEST slot 668" "RW" "5 GiB" "n/a".

Definition test_report : string :=
  join newline (header ++ [test_line])%list.

Definition test_reply : ssh_reply := SshRan test_report "".

(** A TEST01L5 that is locked and expired. *)
Definition test_line_expired : string :=
  "TEST01L5  FEB_3  Pool_TEST slot 668  RO/RL*  5 GiB  0.0 GiB (0.00%)  0x  2025/02/16 19:45:48".

(** *** Lock loop *)

(** The re-query answer for a tape whose lock took effect. *)
Definition requery_locked : ssh_reply :=
  SshRan (join newline
            ["Processing tapes....";
             "Barcode    Pool    Location             State    Size    Used (%)    Comp   Modification Time";
             "--------   -----   ------------------   ------   -----   ---------   ----   -------------------";
             "A55157LA  FEB_3  Pool_TEST slot 667  RO/RL*  5 GiB  1.2 GiB (24.00%)  1x  2025/02/17 09:45:48";
             "--------   -----   ------------------   ------   -----   ---------   ----   -------------------"])
         "".

(** The re-query answer for a tape whose lock did not take effect. *)
Definition requery_unlocked : ssh_reply :=
  SshRan (join newline
            ["Processing tapes....";
             "Barcode    Pool    Location             State    Size    Used (%)    Comp   Modification Time";
             "--------   -----   ------------------   ------   -----   ---------   ----   -------------------";
             "A55157LA  FEB_3  Pool_TEST slot 667  RW  5 GiB  1.2 GiB (24.00%)  1x  2025/02/17 09:45:48";
             "--------   -----   ------------------   ------   -----   ---------   ----   -------------------"])
         "".

(** The lock of the first tape is refused and does not take effect, the
    lock of the second does. *)
Definition first_lock_refused : world :=
  mkworld [refused; requery_unlocked; SshRan "ok" ""; requery_locked] [] [] [].

(** The re-query of the first tape fails. *)
Definition requery_fails : world :=
  mkworld [SshRan "ok" ""; SshRaised "timed out"; SshRan "ok" ""; requery_locked] [] [] [].

(** Both re-queries are answered. *)
Definition requery_answers : world :=
  mkworld [SshRan "ok" ""; requery_locked; SshRan "ok" ""; requery_locked] [] [] [].

Definition second_tape : Immutable.tape_info :=
  Immutable.mktape "A55158LA" "FEB_3" "Pool_TEST slot 668" "RW" "5 GiB"
    "2.0 GiB (40.00%)" "2025/02/17 09:50:00".

End Examples.

(* ===================================================================== *)
(** * Properties *)
(* ===================================================================== *)

(** ** Tactics *)

(** Evaluate the closed integer tests of the goal and the hypotheses. *)
Ltac eval_tests :=
  repeat match goal with
  | |- context [?a =? ?b] =>
      let v := eval vm_compute in (a =? b) in
      match v with true => idtac | false => idtac end; change (a =? b) with v
  | |- context [?a <? ?b] =>
      let v := eval vm_compute in (a <? b) in
      match v with true => idtac | false => idtac end; change (a <? b) with v
  | H : context [?a =? ?b] |- _ =>
      let v := eval vm_compute in (a =? b) in
      match v with true => idtac | false => idtac end; change (a =? b) with v in H
  | H : context [?a <? ?b] |- _ =>
      let v := eval vm_compute in (a <? b) in
      match v with true => idtac | false => idtac end; change (a <? b) with v in H
  end; cbn [andb orb negb] in *.

Ltac month_cases m :=
  let H := fresh "Hm" in
  assert (H : m = 1 \/ m = 2 \/ m = 3 \/ m = 4 \/ m = 5 \/ m = 6 \/
              m = 7 \/ m = 8 \/ m = 9 \/ m = 10 \/ m = 11 \/ m = 12) by lia;
  repeat (destruct H as [H | H]); subst m.

(** ** Strings and the calendar (Python runtime) *)

Module PyFacts.
Import Py.

Lemma bind_opt_some {A B} (o : option A) (f : A -> option B) (b : B) :
  bind_opt o f = Some b -> exists a, o = Some a /\ f a = Some b.
Proof. destruct o as [a |]; cbn; [eauto | discriminate]. Qed.

Lemma forall_chars_snoc p s c :
  forall_chars p (snoc s c) = forall_chars p s && p c.
Proof.
  unfold snoc. induction s as [| a s IH]; cbn.
  - now rewrite andb_true_r.
  - now rewrite IH, andb_assoc.
Qed.

Lemma lstrip_all_space s : forall_chars is_space s = true -> lstrip s = EmptyString.
Proof.
  induction s as [| c s IH]; cbn; [reflexivity |].
  intros H. apply andb_true_iff in H as [Hc Hs]. rewrite Hc. auto.
Qed.

Lemma strip_all_space s : forall_chars is_space s = true -> strip s = EmptyString.
Proof. intros H. unfold strip. now rewrite lstrip_all_space. Qed.

(** The first piece of a split is made of characters of the string. *)
Lemma split_aux_first_piece p sep s :
  forall skip cur,
    forall_chars p s = true -> forall_chars p cur = true ->
    forall_chars p (hd EmptyString (split_aux sep s skip cur)) = true.
Proof.
  induction s as [| c s IH]; intros skip cur Hs Hcur; cbn [split_aux].
  - exact Hcur.
  - cbn in Hs. apply andb_true_iff in Hs as [Hc Hs].
    destruct skip as [| k]; [| now apply IH].
    destruct (startswith sep (String c s)); [exact Hcur |].
    apply IH; [exact Hs |]. rewrite forall_chars_snoc. now rewrite Hcur, Hc.
Qed.

Lemma split_blank_first_piece sep s :
  forall_chars is_space s = true ->
  strip (hd EmptyString (split sep s)) = EmptyString.
Proof.
  intros H. apply strip_all_space. unfold split.
  now apply split_aux_first_piece.
Qed.

(** *** Ordinals *)

Lemma days_before_year_succ y :
  days_before_year (y + 1) = days_before_year y + 365 + (if is_leap y then 1 else 0).
Proof.
  unfold days_before_year, is_leap.
  replace (y + 1 - 1) with y by lia.
  destruct (Z.eqb_spec (y mod 4) 0), (Z.eqb_spec (y mod 100) 0), (Z.eqb_spec (y mod 400) 0);
    cbn [andb orb negb]; Z.to_euclidean_division_equations; lia.
Qed.

Lemma days_before_year_mono y1 y2 :
  y1 <= y2 -> days_before_year y1 <= days_before_year y2.
Proof.
  unfold days_before_year. intros. Z.to_euclidean_division_equations; lia.
Qed.

Lemma day_in_year_bounds y m d :
  1 <= m <= 12 -> 1 <= d <= days_in_month y m ->
  1 <= days_before_month y m + d <= 365 + (if is_leap y then 1 else 0).
Proof.
  unfold days_before_month, days_in_month. intros Hm Hd.
  destruct (is_leap y); month_cases m; eval_tests; lia.
Qed.

Lemma day_in_year_inj y m1 d1 m2 d2 :
  1 <= m1 <= 12 -> 1 <= d1 <= days_in_month y m1 ->
  1 <= m2 <= 12 -> 1 <= d2 <= days_in_month y m2 ->
  days_before_month y m1 + d1 = days_before_month y m2 + d2 -> m1 = m2 /\ d1 = d2.
Proof.
  unfold days_before_month, days_in_month. intros H1 Hd1 H2 Hd2.
  destruct (is_leap y); month_cases m1; month_cases m2; eval_tests; lia.
Qed.

Lemma valid_date_spec d :
  valid_date d = true <->
  1 <= year d <= 9999 /\ 1 <= month d <= 12 /\
  1 <= day d <= days_in_month (year d) (month d).
Proof.
  unfold valid_date. rewrite !andb_true_iff, !Z.leb_le. lia.
Qed.

(** Two valid dates with the same ordinal are the same date. *)
Lemma toordinal_inj a b :
  valid_date a = true -> valid_date b = true ->
  toordinal a = toordinal b -> date_of a = date_of b.
Proof.
  rewrite !valid_date_spec. unfold toordinal, date_of.
  intros (Hya & Hma & Hda) (Hyb & Hmb & Hdb) E.
  pose proof (day_in_year_bounds _ _ _ Hma Hda) as Ba.
  pose proof (day_in_year_bounds _ _ _ Hmb Hdb) as Bb.
  assert (Hy : year a = year b).
  { destruct (Z.lt_trichotomy (year a) (year b)) as [L | [L | L]]; [| exact L |]; exfalso.
    - pose proof (days_before_year_succ (year a)).
      pose proof (days_before_year_mono (year a + 1) (year b)). lia.
    - pose proof (days_before_year_succ (year b)).
      pose proof (days_before_year_mono (year b + 1) (year a)). lia. }
  rewrite Hy in *.
  destruct (day_in_year_inj (year b) (month a) (day a) (month b) (day b)) as [-> ->];
    auto. lia.
Qed.

(** Midnight timestamps agree exactly when the calendar dates do. *)
Lemma midnight_timestamp_eq tz a b :
  valid_date a = true -> valid_date b = true ->
  (int_timestamp tz (replace_midnight a) =? int_timestamp tz (replace_midnight b)) = true
  <-> date_of a = date_of b.
Proof.
  intros Va Vb. rewrite Z.eqb_eq.
  unfold int_timestamp, timestamp_s, replace_midnight, toordinal; cbn.
  split.
  - intros E. apply toordinal_inj; auto. unfold toordinal. lia.
  - unfold date_of. intros E. injection E as -> -> ->. reflexivity.
Qed.

Lemma minus_one_day_valid d y :
  valid_date d = true -> minus_one_day d = Ok y -> valid_date y = true.
Proof.
  rewrite !valid_date_spec. unfold minus_one_day.
  destruct d as [yy m dd h mi s us]; cbn [year month day hour minute second microsecond].
  intros (Hy & Hm & Hd).
  destruct (Z.ltb_spec 1 dd).
  { intros E; injection E as <-; cbn [year month day]. lia. }
  destruct (Z.ltb_spec 1 m).
  { intros E; injection E as <-; cbn [year month day].
    assert (28 <= days_in_month yy (m - 1)).
    { unfold days_in_month. destruct (is_leap yy); month_cases m; eval_tests; lia. }
    lia. }
  destruct (Z.ltb_spec 1 yy); [| discriminate].
  intros E; injection E as <-; cbn [year month day]. unfold days_in_month; cbn. lia.
Qed.

(** [minus_one_day] is the date whose ordinal is one less. *)
Lemma minus_one_day_ordinal d y :
  valid_date d = true -> minus_one_day d = Ok y -> toordinal y = toordinal d - 1.
Proof.
  rewrite !valid_date_spec. unfold minus_one_day, toordinal.
  destruct d as [yy m dd h mi s us]; cbn [year month day hour minute second microsecond].
  intros (Hy & Hm & Hd).
  destruct (Z.ltb_spec 1 dd).
  { intros E; injection E as <-; cbn [year month day]. lia. }
  destruct (Z.ltb_spec 1 m).
  { intros E; injection E as <-; cbn [year month day].
    unfold days_before_month, days_in_month.
    destruct (is_leap yy); month_cases m; eval_tests; lia. }
  destruct (Z.ltb_spec 1 yy); [| discriminate].
  intros E; injection E as <-; cbn [year month day].
  pose proof (days_before_year_succ (yy - 1)) as S.
  replace (yy - 1 + 1) with yy in S by lia.
  assert (m = 1) by lia. assert (dd = 1) by lia. subst.
  unfold days_before_month. eval_tests.
  destruct (is_leap (yy - 1)); lia.
Qed.

Lemma build_datetime_valid y m d h mi sec dt :
  build_datetime y m d h mi sec = Some dt -> valid_date dt = true.
Proof.
  unfold build_datetime, valid_datetime.
  destruct (valid_date _) eqn:V; cbn; [| discriminate].
  destruct (valid_time _); [| discriminate]. now intros [= <-].
Qed.

(** What [strptime] returns is a date of the calendar. *)
Lemma parse_ymd_hms_valid s dt : parse_ymd_hms s = Some dt -> valid_date dt = true.
Proof.
  unfold parse_ymd_hms. intros H.
  repeat match type of H with
         | bind_opt _ _ = Some _ =>
             apply bind_opt_some in H; destruct H as (? & _ & H)
         | (let '(_, _) := ?p in _) = Some _ => destruct p
         end.
  destruct (is_empty _); [| discriminate].
  eapply build_datetime_valid; eauto.
Qed.

End PyFacts.

(** ** The unit table (utils.py) *)

Module UtilsFacts.
Import Py Env Utils Spec.

Lemma lookup_upper_cases (u : string) :
  unit_power u =
    (if String.eqb (upper u) "B" then Some 0%nat
     else if String.eqb (upper u) "KB" then Some 1%nat
     else if String.eqb (upper u) "MB" || String.eqb (upper u) "MIB" then Some 2%nat
     else if String.eqb (upper u) "GB" || String.eqb (upper u) "GIB" then Some 3%nat
     else if String.eqb (upper u) "TB" || String.eqb (upper u) "TIB" then Some 4%nat
     else None).
Proof.
  unfold unit_power, unit_table, lookup_unit.
  repeat match goal with
         | |- context [String.eqb (upper u) ?k] => destruct (String.eqb (upper u) k)
         end; reflexivity.
Qed.

Lemma size_to_bytes_by_table (size_str : string) :
  size_to_bytes size_str = size_by_table size_str.
Proof.
  unfold size_to_bytes, size_by_table.
  destruct (split_ws (strip size_str)) as [| v [| u [| ? ?]]]; try reflexivity.
  unfold float_of_str. destruct (parse_float v) as [x |]; [| reflexivity].
  rewrite lookup_upper_cases.
  repeat match goal with
         | |- context [String.eqb (upper u) ?k] => destruct (String.eqb (upper u) k)
         end; reflexivity.
Qed.

(** C9. [size_to_bytes] is conversion by the fixed binary unit table
    (B x1, KB x1024, MB/MiB x2^20, GB/GiB x2^30, TB/TiB x2^40, in either
    case): it agrees with [size_by_table] on every string; one unit of
    each entry is exactly the stated power of two; "2 TiB" is exactly
    2 * 2^40 bytes; and a string whose unit is outside the table raises
    and never returns a value. *)
Theorem size_to_bytes_unit_table :
  (forall size_str, size_to_bytes size_str = size_by_table size_str) /\
  map (fun e => exact_bytes (size_to_bytes ("1 " ++ fst e))) unit_table
    = map (fun e => Some (2 ^ (10 * Z.of_nat (snd e)))) unit_table /\
  map (fun e => exact_bytes (size_to_bytes ("1 " ++ lower (fst e)))) unit_table
    = map (fun e => Some (2 ^ (10 * Z.of_nat (snd e)))) unit_table /\
  exact_bytes (size_to_bytes "2 TiB") = Some (2 * 2 ^ 40) /\
  (forall size_str v u,
      split_ws (strip size_str) = [v; u] ->
      unit_power u = None ->
      exists e, size_to_bytes size_str = Raise e) /\
  (forall size_str x,
      size_to_bytes size_str = Ok x ->
      exists v u n, split_ws (strip size_str) = [v; u] /\ unit_power u = Some n).
Proof.
  split; [exact size_to_bytes_by_table |].
  split; [vm_compute; reflexivity |].
  split; [vm_compute; reflexivity |].
  split; [vm_compute; reflexivity |].
  split.
  - intros s v u Hs Hu. rewrite size_to_bytes_by_table. unfold size_by_table.
    rewrite Hs, Hu. destruct (parse_float v); eauto.
  - intros s x. rewrite size_to_bytes_by_table. unfold size_by_table.
    destruct (split_ws (strip s)) as [| v [| u [| ? ?]]]; try discriminate.
    destruct (parse_float v); try discriminate.
    destruct (unit_power u) as [n |] eqn:Hu; try discriminate.
    intros _. exists v, u, n. auto.
Qed.

Lemma size_to_bytes_unit_table_witness :
  (exists e, size_to_bytes "5 KiB" = Raise e) /\
  (exists v u n, split_ws (strip "2 TiB") = [v; u] /\ unit_power u = Some n).
Proof.
  destruct size_to_bytes_unit_table as (_ & _ & _ & _ & Hraise & Hok).
  split.
  - apply (Hraise "5 KiB" "5" "KiB"); reflexivity.
  - apply (Hok "2 TiB" (S754_finite false 4503599627370496 (-11))). reflexivity.
Defined.

End UtilsFacts.

(** ** The environment *)

Module EnvFacts.
Import Py Env Utils Spec.

(** One remote command: the value and the world it leaves. *)
Lemma execute_ssh_command_eq command instance user password w :
  execute_ssh_command command instance user password w =
    (Ok (ssh_value (head_ssh w)),
     mkworld (tl (ssh_replies w)) (proc_replies w)
             (events w ++ [EvSsh instance command])
             (logs w ++ ssh_log command (head_ssh w))).
Proof.
  unfold execute_ssh_command, head_ssh, bind, emit, next_ssh, log_message, ret.
  destruct w as [sr pr ev lg]; cbn.
  destruct sr as [| [out err | msg] rest]; cbn; try reflexivity.
  destruct (is_empty (strip err)); cbn; [| reflexivity].
  now rewrite app_nil_r.
Qed.

Lemma ssh_value_ok r : ssh_ok r = true <-> exists out, ssh_value r = Some out.
Proof.
  destruct r as [out err | msg]; cbn.
  - destruct (is_empty (strip err)); split; eauto; try discriminate.
    intros (? & [=]).
  - split; [discriminate | intros (? & [=])].
Qed.

Lemma advanced_refl w : advanced w w 0 0 [].
Proof. unfold advanced. cbn. now rewrite app_nil_r. Qed.

Lemma advanced_trans w0 w1 w2 a b e1 c d e2 :
  advanced w0 w1 a b e1 -> advanced w1 w2 c d e2 ->
  advanced w0 w2 (a + c) (b + d) (e1 ++ e2).
Proof.
  unfold advanced. intros (S1 & P1 & E1) (S2 & P2 & E2).
  rewrite S2, S1, P2, P1, E2, E1, !skipn_skipn, app_assoc.
  rewrite (Nat.add_comm c a), (Nat.add_comm d b). auto.
Qed.

Lemma bind_run {A B} (m : M A) (k : A -> M B) w a w' :
  m w = (Ok a, w') -> bind m k w = k a w'.
Proof. unfold bind. now intros ->. Qed.

Lemma bind_raised {A B} (m : M A) (k : A -> M B) w e w' :
  m w = (Raise e, w') -> bind m k w = (Raise e, w').
Proof. unfold bind. now intros ->. Qed.

Lemma bind_lift_ok {A B} (a : A) (k : A -> M B) w : bind (lift (Ok a)) k w = k a w.
Proof. reflexivity. Qed.

Lemma bind_lift_raise {A B} (e : exn) (k : A -> M B) w :
  bind (lift (Raise e)) k w = (Raise e, w).
Proof. reflexivity. Qed.

Lemma run_log entry w :
  exists w', log_message entry w = (Ok tt, w') /\ advanced w w' 0 0 [].
Proof.
  eexists. split; [reflexivity |]. unfold advanced. cbn. now rewrite app_nil_r.
Qed.

Lemma run_emit e w :
  exists w', emit e w = (Ok tt, w') /\ advanced w w' 0 0 [e].
Proof. eexists. split; [reflexivity |]. unfold advanced. cbn. auto. Qed.

Lemma run_sleep n w :
  exists w', sleep n w = (Ok tt, w') /\ advanced w w' 0 0 [EvSleep n].
Proof. apply run_emit. Qed.

Lemma skipn_1_tl {A} (l : list A) : skipn 1 l = tl l.
Proof. now destruct l. Qed.

Lemma run_ssh command instance user password w :
  exists w',
    execute_ssh_command command instance user password w
      = (Ok (ssh_value (head_ssh w)), w') /\
    advanced w w' 1 0 [EvSsh instance command].
Proof.
  rewrite execute_ssh_command_eq. eexists. split; [reflexivity |].
  unfold advanced. rewrite skipn_1_tl. cbn. auto.
Qed.

(** Step over the first action of a sequence, keeping track of how far
    the world has advanced since [w0]. *)
Ltac chain Hadv H' :=
  let T := fresh "Hadv" in
  pose proof (advanced_trans _ _ _ _ _ _ _ _ _ Hadv H') as T;
  clear Hadv H'; rename T into Hadv.

Ltac step_over q_m q_lemma Hadv :=
  match goal with
  | |- context [bind q_m ?q_k ?q_w] =>
      let w' := fresh "w" in let H' := fresh "Hstep" in let E' := fresh "Erun" in
      destruct (q_lemma q_w) as (w' & E' & H');
      match goal with
      | HE : q_m q_w = (Ok ?q_a, w') |- _ =>
          rewrite (bind_run q_m q_k q_w q_a w' HE); clear HE
      end;
      chain Hadv H'; cbv beta
  end.

Ltac step_log Hadv :=
  match goal with
  | |- context [bind (log_message ?q_e) _ _] =>
      step_over (log_message q_e) (run_log q_e) Hadv
  | |- context [log_message ?q_e ?q_w] =>
      let w' := fresh "w" in let H' := fresh "Hstep" in let E' := fresh "Erun" in
      destruct (run_log q_e q_w) as (w' & E' & H');
      match goal with
      | HE : log_message q_e q_w = (Ok tt, w') |- _ => rewrite HE; clear HE
      end;
      chain Hadv H'
  end.

Ltac step_sleep Hadv :=
  match goal with
  | |- context [bind (sleep ?q_n) _ _] => step_over (sleep q_n) (run_sleep q_n) Hadv
  end.

Ltac step_emit Hadv :=
  match goal with
  | |- context [bind (emit ?q_e) _ _] => step_over (emit q_e) (run_emit q_e) Hadv
  end.

Ltac step_ssh Hadv :=
  match goal with
  | |- context [bind (execute_ssh_command ?q_c ?q_i ?q_u ?q_p) _ _] =>
      step_over (execute_ssh_command q_c q_i q_u q_p) (run_ssh q_c q_i q_u q_p) Hadv
  end.

Lemma run_next_proc w :
  exists w', next_proc w = (Ok (head_proc w), w') /\ advanced w w' 0 1 [].
Proof.
  unfold next_proc, head_proc, advanced. destruct w as [sr pr ev lg]; cbn.
  destruct pr as [| r rest]; cbn; eexists; (split; [reflexivity |]); cbn;
    now rewrite app_nil_r.
Qed.

Ltac step_proc Hadv := step_over next_proc run_next_proc Hadv.

Ltac finish Hadv := eexists _, _; split; [reflexivity | exact Hadv].

Lemma bind_assoc {A B C} (m : M A) (k1 : A -> M B) (k2 : B -> M C) w :
  bind (bind m k1) k2 w = bind m (fun x => bind (k1 x) k2) w.
Proof. unfold bind. destruct (m w) as [[a | e] w']; reflexivity. Qed.

Lemma bind_ret {A B} (a : A) (k : A -> M B) w : bind (ret a) k w = k a w.
Proof. reflexivity. Qed.

Lemma hd_skipn {A} (d : A) n (l : list A) : hd d (skipn n l) = nth n l d.
Proof.
  revert l. induction n as [| n IH]; intros [| x l]; cbn; auto.
Qed.

Lemma head_ssh_advanced w w' n m ev :
  advanced w w' n m ev -> head_ssh w' = nth n (ssh_replies w) no_reply.
Proof. intros (E & _ & _). unfold head_ssh. rewrite E. apply hd_skipn. Qed.

Lemma head_proc_advanced w w' n m ev :
  advanced w w' n m ev -> head_proc w' = nth m (proc_replies w) no_tool.
Proof. intros (_ & E & _). unfold head_proc. rewrite E. apply hd_skipn. Qed.

Lemma head_ssh_same w w' m ev : advanced w w' 0 m ev -> head_ssh w' = head_ssh w.
Proof. intros (E & _ & _). unfold head_ssh. now rewrite E. Qed.

Lemma head_proc_same w w' n ev : advanced w w' n 0 ev -> head_proc w' = head_proc w.
Proof. intros (_ & E & _). unfold head_proc. now rewrite E. Qed.

Lemma ssh_value_none r : ssh_ok r = false -> ssh_value r = None.
Proof.
  destruct r as [out err | msg]; cbn; [| reflexivity].
  now destruct (is_empty (strip err)).
Qed.

Lemma ssh_value_some r : ssh_ok r = true -> exists out, ssh_value r = Some out.
Proof. apply ssh_value_ok. Qed.

Ltac one_command Hadv w0 :=
  let Hh := fresh "Hh" in let Hok := fresh "Hok" in
  match goal with
  | |- context [bind (execute_ssh_command _ _ _ _) _ ?q_w] =>
      assert (Hh : head_ssh q_w = head_ssh w0)
        by (exact (head_ssh_same _ _ _ _ Hadv));
      step_ssh Hadv; rewrite Hh;
      destruct (ssh_ok (head_ssh w0)) eqn:Hok;
      [ destruct (ssh_value_some _ Hok) as (? & ->)
      | rewrite (ssh_value_none _ Hok) ];
      step_log Hadv; eexists; (split; [reflexivity | exact Hadv])
  end.

Ltac use_stage q_L Hadv :=
  let w' := fresh "w" in let E := fresh "Erun" in let H' := fresh "Hstep" in
  destruct q_L as (w' & E & H');
  match goal with
  | HE : _ = (Ok _, w') |- _ => rewrite (bind_run _ _ _ _ _ HE); clear HE
  end;
  chain Hadv H'; cbv beta.

Ltac ssh_stage q_m q_L Hadv :=
  let Hh := fresh "Hh" in
  match goal with
  | |- context [bind q_m _ ?q_w] =>
      pose proof (head_ssh_advanced _ _ _ _ _ Hadv) as Hh; cbn [Nat.add] in Hh;
      use_stage (q_L q_w) Hadv; rewrite Hh; clear Hh
  end.

Ltac done Hadv := eexists _, _; split; [reflexivity | exact Hadv].

Lemma length_positive {A} (l : list A) :
  l <> [] -> (0 <? Z.of_nat (List.length l)) = true.
Proof. destruct l; [congruence |]. intros _. cbn. reflexivity. Qed.

End EnvFacts.

(** ** Frames with the log *)

Module TraceFacts.
Import Py Env Utils Spec EnvFacts.

Lemma stepped_refl w : stepped w w 0 0 [] [].
Proof. split; [apply advanced_refl | now rewrite app_nil_r]. Qed.

Lemma stepped_trans w0 w1 w2 a b e1 l1 c d e2 l2 :
  stepped w0 w1 a b e1 l1 -> stepped w1 w2 c d e2 l2 ->
  stepped w0 w2 (a + c) (b + d) (e1 ++ e2) (l1 ++ l2).
Proof.
  intros [A1 L1] [A2 L2]. split; [eapply advanced_trans; eassumption |].
  now rewrite L2, L1, app_assoc.
Qed.

Lemma stepped_eq w w' n m ev lg n' m' ev' lg' :
  stepped w w' n m ev lg -> n = n' -> m = m' -> ev = ev' -> lg = lg' ->
  stepped w w' n' m' ev' lg'.
Proof. now intros H <- <- <- <-. Qed.

Lemma advanced_eq w w' n m ev n' m' ev' :
  advanced w w' n m ev -> n = n' -> m = m' -> ev = ev' -> advanced w w' n' m' ev'.
Proof. now intros H <- <- <-. Qed.

Lemma stepped_logged w lg : stepped w (logged w lg) 0 0 [] lg.
Proof. split; [| reflexivity]. unfold advanced, logged. cbn. now rewrite app_nil_r. Qed.

(** A frame fixes the world. *)
Lemma stepped_unique w w1 w2 n m ev lg :
  stepped w w1 n m ev lg -> stepped w w2 n m ev lg -> w1 = w2.
Proof.
  intros [(A1 & B1 & C1) D1] [(A2 & B2 & C2) D2].
  destruct w1, w2; cbn in *. congruence.
Qed.

Lemma trace_log entry w :
  exists w', log_message entry w = (Ok tt, w') /\ stepped w w' 0 0 [] [entry].
Proof.
  eexists. split; [reflexivity |]. split; [| reflexivity].
  unfold advanced. cbn. now rewrite app_nil_r.
Qed.

Lemma trace_emit e w :
  exists w', emit e w = (Ok tt, w') /\ stepped w w' 0 0 [e] [].
Proof.
  eexists. split; [reflexivity |]. split; [| cbn; now rewrite app_nil_r].
  unfold advanced. cbn. auto.
Qed.

Lemma trace_sleep n w :
  exists w', sleep n w = (Ok tt, w') /\ stepped w w' 0 0 [EvSleep n] [].
Proof. apply trace_emit. Qed.

Lemma trace_ssh command instance user password w :
  exists w',
    execute_ssh_command command instance user password w
      = (Ok (ssh_value (head_ssh w)), w') /\
    stepped w w' 1 0 [EvSsh instance command] (ssh_log command (head_ssh w)).
Proof.
  rewrite execute_ssh_command_eq. eexists. split; [reflexivity |].
  split; [| reflexivity]. unfold advanced. rewrite skipn_1_tl. cbn. auto.
Qed.

Lemma trace_next_proc w :
  exists w', next_proc w = (Ok (head_proc w), w') /\ stepped w w' 0 1 [] [].
Proof.
  destruct (run_next_proc w) as (w' & E & H). exists w'. split; [exact E |].
  split; [exact H |].
  unfold next_proc in E. destruct (proc_replies w); injection E as _ <-; cbn;
    now rewrite app_nil_r.
Qed.

Ltac tchain Hst H' :=
  let T := fresh "Hst" in
  pose proof (stepped_trans _ _ _ _ _ _ _ _ _ _ _ Hst H') as T;
  clear Hst H'; rename T into Hst.

Ltac tstep_over q_m q_lemma Hst :=
  match goal with
  | |- context [bind q_m ?q_k ?q_w] =>
      let w' := fresh "w" in let H' := fresh "Hstep" in let E' := fresh "Erun" in
      destruct (q_lemma q_w) as (w' & E' & H');
      match goal with
      | HE : q_m q_w = (Ok ?q_a, w') |- _ =>
          rewrite (bind_run q_m q_k q_w q_a w' HE); clear HE
      end;
      tchain Hst H'; cbv beta
  end.

Ltac tstep_log Hst :=
  match goal with
  | |- context [bind (log_message ?q_e) _ _] =>
      tstep_over (log_message q_e) (trace_log q_e) Hst
  | |- context [log_message ?q_e ?q_w] =>
      let w' := fresh "w" in let H' := fresh "Hstep" in let E' := fresh "Erun" in
      destruct (trace_log q_e q_w) as (w' & E' & H');
      match goal with
      | HE : log_message q_e q_w = (Ok tt, w') |- _ => rewrite HE; clear HE
      end;
      tchain Hst H'
  end.

Ltac tstep_sleep Hst :=
  match goal with
  | |- context [bind (sleep ?q_n) _ _] => tstep_over (sleep q_n) (trace_sleep q_n) Hst
  end.

Ltac tstep_emit Hst :=
  match goal with
  | |- context [bind (emit ?q_e) _ _] => tstep_over (emit q_e) (trace_emit q_e) Hst
  end.

Ltac tstep_ssh Hst :=
  match goal with
  | |- context [bind (execute_ssh_command ?q_c ?q_i ?q_u ?q_p) _ _] =>
      tstep_over (execute_ssh_command q_c q_i q_u q_p) (trace_ssh q_c q_i q_u q_p) Hst
  end.

Ltac tstep_proc Hst := tstep_over next_proc trace_next_proc Hst.

(** Close a goal [stepped w w' n m ev lg] from the frame reached. *)
Ltac tframe Hst :=
  eapply stepped_eq;
  [ exact Hst | reflexivity | reflexivity
  | cbn [app]; rewrite ?app_nil_r, <- ?app_assoc; reflexivity
  | cbn [app]; rewrite ?app_nil_r, <- ?app_assoc; reflexivity ].

Ltac tdone Hst := eexists; split; [reflexivity | tframe Hst].

(** The same for a goal [advanced w w' n m ev]. *)
Ltac aframe Hadv :=
  eapply advanced_eq;
  [ exact Hadv | reflexivity | reflexivity
  | cbn [app]; rewrite ?app_nil_r, <- ?app_assoc; reflexivity ].

Ltac adone Hadv := eexists; split; [reflexivity | aframe Hadv].

Lemma head_proc_stepped w w' n ev lg :
  stepped w w' n 0 ev lg -> head_proc w' = head_proc w.
Proof. intros [H _]. exact (head_proc_same _ _ _ _ H). Qed.

Lemma head_ssh_stepped w w' m ev lg :
  stepped w w' 0 m ev lg -> head_ssh w' = head_ssh w.
Proof. intros [H _]. exact (head_ssh_same _ _ _ _ H). Qed.

(** *** The catalog tools *)

(** What the delete helper logs. *)
Lemma run_nsrmm_command_trace command argv w :
  str_items command = Ok argv ->
  exists w',
    run_nsrmm_command command w = (nsrmm_outcome (head_proc w), w') /\
    advanced w w' 0 1 (nsrmm_events argv (head_proc w)).
Proof.
  intros Hargv. unfold run_nsrmm_command. rewrite Hargv, bind_lift_ok.
  pose proof (advanced_refl w) as Hadv.
  step_log Hadv. step_log Hadv. step_emit Hadv.
  pose proof (head_proc_same _ _ _ _ Hadv) as Hhead.
  step_proc Hadv. rewrite Hhead.
  destruct (head_proc w) as [out err rc | out err rc | e | e];
    cbn [nsrmm_outcome nsrmm_events].
  - step_sleep Hadv. step_emit Hadv. step_log Hadv.
    destruct (negb (is_empty err)).
    + step_log Hadv. adone Hadv.
    + rewrite (bind_run (ret tt) _ _ tt _ eq_refl). adone Hadv.
  - step_sleep Hadv. unfold raise. adone Hadv.
  - destruct e; try (unfold raise; adone Hadv); step_log Hadv; adone Hadv.
  - step_sleep Hadv.
    destruct e; try (unfold raise; adone Hadv); step_log Hadv; adone Hadv.
Qed.

Lemma run_nsrjb_command_trace command argv w :
  str_items command = Ok argv ->
  exists w',
    run_nsrjb_command command w = (nsrjb_outcome (head_proc w), w') /\
    advanced w w' 0 1 (nsrjb_events argv (head_proc w)).
Proof.
  intros Hargv. unfold run_nsrjb_command. rewrite Hargv, bind_lift_ok.
  pose proof (advanced_refl w) as Hadv.
  step_log Hadv. step_emit Hadv.
  pose proof (head_proc_same _ _ _ _ Hadv) as Hhead.
  step_proc Hadv. rewrite Hhead.
  destruct (head_proc w) as [out err rc | out err rc | e | e];
    cbn [nsrjb_outcome nsrjb_events].
  - destruct (rc =? 0).
    + step_sleep Hadv. step_log Hadv. adone Hadv.
    + step_log Hadv. adone Hadv.
  - destruct (rc =? 0).
    + step_sleep Hadv. step_log Hadv. adone Hadv.
    + step_log Hadv. adone Hadv.
  - destruct e; try (unfold raise; adone Hadv); step_log Hadv; adone Hadv.
  - destruct e; try (unfold raise; adone Hadv); step_log Hadv; adone Hadv.
Qed.

End TraceFacts.

(** ** Lock-apply workflow (open_system_vtl_immutable.py) *)

Module ImmutableFacts.
Import Py Env Utils Immutable Spec PyFacts EnvFacts TraceFacts.

Lemma check_state_spec t :
  check_state t = negb (contains "RL" (strip (state t))).
Proof. unfold check_state. now destruct (contains _ _). Qed.

Lemma check_modification_date_spec tz now t mech :
  valid_date now = true -> is_ok (minus_one_day now) = true ->
  check_modification_date tz now t mech = Ok true <-> modified_on mech now t.
Proof.
  intros Vnow Hy. unfold check_modification_date, modified_on, strptime.
  destruct (minus_one_day now) as [y |] eqn:Ey; [| discriminate].
  pose proof (minus_one_day_valid _ _ Vnow Ey) as Vy.
  destruct (parse_ymd_hms (modification_time t)) as [d |] eqn:Ep.
  2:{ split; [discriminate | intros (d & [=] & _)]. }
  pose proof (parse_ymd_hms_valid _ _ Ep) as Vd.
  pose proof (midnight_timestamp_eq tz now d Vnow Vd) as Htoday.
  pose proof (midnight_timestamp_eq tz y d Vy Vd) as Hyest.
  destruct (_ =? _) eqn:E1 in |- *.
  - destruct (eq_int mech 1) eqn:M1; cbn [andb].
    + split; [intros _ | reflexivity]. exists d. split; [reflexivity |]. left.
      split; [reflexivity |]. symmetry. now apply Htoday.
    + destruct (_ =? _) eqn:E2 in |- *; destruct (eq_int mech 2) eqn:M2; cbn [andb];
        split; try discriminate; try reflexivity.
      * intros _. exists d. split; [reflexivity |]. right. split; [reflexivity |].
        exists y. split; [reflexivity |]. symmetry. now apply Hyest.
      * intros (d' & [= <-] & [[? _] | [? _]]); congruence.
      * intros (d' & [= <-] & [[? _] | [_ (y' & [= <-] & Hd)]]); [congruence |].
        symmetry in Hd. apply Hyest in Hd. congruence.
      * intros (d' & [= <-] & [[? _] | [? _]]); congruence.
  - rewrite andb_false_l.
    destruct (_ =? _) eqn:E2 in |- *; destruct (eq_int mech 2) eqn:M2; cbn [andb];
      split; try discriminate; try reflexivity.
    + intros _. exists d. split; [reflexivity |]. right. split; [reflexivity |].
      exists y. split; [reflexivity |]. symmetry. now apply Hyest.
    + intros (d' & [= <-] & [[_ Hd] | [? _]]); [| congruence].
      symmetry in Hd. apply Htoday in Hd. congruence.
    + intros (d' & [= <-] & [[_ Hd] | [_ (y' & [= <-] & Hd)]]).
      * symmetry in Hd. apply Htoday in Hd. congruence.
      * symmetry in Hd. apply Hyest in Hd. congruence.
    + intros (d' & [= <-] & [[_ Hd] | [? _]]); [| congruence].
      symmetry in Hd. apply Htoday in Hd. congruence.
Qed.

Lemma check_modification_date_other tz now t mech d :
  is_ok (minus_one_day now) = true ->
  parse_ymd_hms (modification_time t) = Some d ->
  eq_int mech 1 = false -> eq_int mech 2 = false ->
  check_modification_date tz now t mech = Ok false.
Proof.
  intros Hy Ep M1 M2. unfold check_modification_date, strptime.
  rewrite Ep. destruct (minus_one_day now); [| discriminate].
  now rewrite M1, M2, !andb_false_r.
Qed.


(** *** The classifier without its log *)

Lemma logged_nil w : logged w [] = w.
Proof. destruct w. unfold logged. cbn. now rewrite app_nil_r. Qed.

Lemma logged_logged w a b : logged (logged w a) b = logged w (a ++ b).
Proof. unfold logged. cbn. now rewrite app_assoc. Qed.

Lemma log_message_eq m w : log_message m w = (Ok tt, logged w [m]).
Proof. reflexivity. Qed.

Lemma check_usage_in_report_eq tz self t w :
  check_usage_in_report tz self t w
  = (Ok (usage_answer tz self t), logged w (usage_logs tz self t)).
Proof.
  unfold check_usage_in_report, usage_answer, usage_logs, first_placement.
  destruct (find _ (report self)) as [p |]; [| now rewrite logged_nil].
  rewrite (bind_run _ _ _ _ _ (log_message_eq _ w)).
  destruct (usage_against tz self t p) as [b | e]; [reflexivity |].
  rewrite (bind_run _ _ _ _ _ (log_message_eq _ _)). cbn [ret].
  now rewrite logged_logged.
Qed.

Lemma check_used_eq tz self t w :
  check_used tz self t w
  = (match usage_number t with
     | Ok x => Ok (fgt x (float_of_Z 0)
                   || match usage_answer tz self t with Some true => true | _ => false end)
     | Raise e => Raise e
     end, logged w (decision_logs tz self t)).
Proof.
  unfold check_used, usage_number, decision_logs, usage_number.
  destruct (index (split_ws (used t)) 0) as [u0 | e].
  2:{ rewrite bind_lift_raise. now rewrite logged_nil. }
  rewrite bind_lift_ok.
  destruct (float_of_str u0) as [x | e].
  2:{ rewrite bind_lift_raise. now rewrite logged_nil. }
  rewrite bind_lift_ok.
  rewrite (bind_run _ _ _ _ _ (check_usage_in_report_eq tz self t w)).
  now destruct (_ || _).
Qed.

Lemma eligible_eq tz now self t w :
  eligible tz now self t w
  = (decision tz now self t, logged w (decision_logs tz self t)).
Proof.
  unfold eligible, decision.
  pose proof (check_used_eq tz self t w) as E.
  destruct (usage_number t) as [x | e].
  - rewrite (bind_run _ _ _ _ _ E).
    destruct (check_modification_date tz now t (mechanism self)) as [lm | e];
      reflexivity.
  - now rewrite (bind_raised _ _ _ _ _ E).
Qed.

Lemma get_tapes_loop_eq tz now self lines :
  forall acc w,
    get_tapes_loop tz now self lines acc w
    = (Ok (fst (selection tz now self lines acc)),
       logged w (snd (selection tz now self lines acc))).
Proof.
  induction lines as [| line rest IH]; intros acc w; cbn [get_tapes_loop selection].
  - cbn. now rewrite logged_nil.
  - destruct (tape_record line) as [t |]; [| apply IH].
    rewrite eligible_eq.
    destruct (decision tz now self t) as [[|] | e].
    + rewrite IH. destruct (selection tz now self rest (acc ++ [t])) as [l lg].
      cbn [fst snd]. rewrite logged_logged. reflexivity.
    + rewrite IH. destruct (selection tz now self rest acc) as [l lg].
      cbn [fst snd]. rewrite logged_logged. reflexivity.
    + rewrite (bind_run _ _ _ _ _ (log_message_eq _ _)). cbn [ret fst snd].
      rewrite logged_logged. reflexivity.
Qed.

Lemma usage_against_above tz self t p d1 d2 :
  above_threshold self p = true ->
  parse_ymd_hms (modification_time t) = Some d1 ->
  parse_ctime (Placement.placement_time p) = Some d2 ->
  usage_against tz self t p = Ok true.
Proof.
  unfold above_threshold, usage_against, strptime.
  destruct (minimum_tape_usage self); try discriminate.
  destruct (size_to_bytes s); try discriminate.
  destruct (size_to_bytes (Placement.size p)); try discriminate.
  intros -> -> ->. now destruct (_ =? _).
Qed.

Lemma usage_against_below tz self t p :
  above_threshold self p = false -> usage_against tz self t p <> Ok true.
Proof.
  unfold above_threshold, usage_against.
  destruct (minimum_tape_usage self); try discriminate.
  destruct (size_to_bytes s); try discriminate.
  destruct (size_to_bytes (Placement.size p)); try discriminate.
  intros ->. discriminate.
Qed.


Lemma usage_number_value t x : usage_number t = Ok x <-> usage_value t = Some x.
Proof.
  unfold usage_number, usage_value, index, float_of_str.
  destruct (split_ws (used t)) as [| u0 rest]; cbn [nth_error].
  - split; discriminate.
  - destruct (parse_float u0); split; congruence.
Qed.

(** The answer of the placement test. *)
Lemma usage_answer_true tz self t d :
  parse_ymd_hms (modification_time t) = Some d ->
  usage_answer tz self t = Some true <->
  exists p, first_placement self t = Some p /\
            above_threshold self p = true /\
            parse_ctime (Placement.placement_time p) <> None.
Proof.
  intros Hd. unfold usage_answer.
  destruct (first_placement self t) as [p |].
  2:{ split; [discriminate | intros (p & [=] & _)]. }
  destruct (above_threshold self p) eqn:Ha.
  - destruct (parse_ctime (Placement.placement_time p)) as [d2 |] eqn:Hc.
    + rewrite (usage_against_above tz self t p d d2 Ha Hd Hc).
      split; [intros _ | reflexivity]. exists p.
      split; [reflexivity | split; [exact Ha | congruence]].
    + split.
      * unfold usage_against, strptime. rewrite Hc, Hd.
        destruct (minimum_tape_usage self); try discriminate.
        destruct (size_to_bytes s); try discriminate.
        destruct (size_to_bytes (Placement.size p)); try discriminate.
        destruct (fgt _ _); discriminate.
      * intros (p' & [= <-] & _ & Hn). congruence.
  - pose proof (usage_against_below tz self t p Ha) as Hb. split.
    + destruct (usage_against tz self t p) as [[|] | e]; congruence.
    + intros (p' & [= <-] & Ha' & _). congruence.
Qed.

Lemma used_accepted tz self t x d :
  usage_number t = Ok x ->
  parse_ymd_hms (modification_time t) = Some d ->
  fgt x (float_of_Z 0)
  || match usage_answer tz self t with Some true => true | _ => false end = true
  <-> usage_accepted self t.
Proof.
  intros Hx Hd.
  pose proof (usage_answer_true tz self t d Hd) as Hans.
  unfold usage_accepted. apply usage_number_value in Hx. rewrite Hx.
  destruct (fgt x (float_of_Z 0)) eqn:Hpos; cbn [orb].
  - split; [intros _; left; eauto | reflexivity].
  - destruct (usage_answer tz self t) as [[|] |].
    + split; [intros _; right; now apply Hans | reflexivity].
    + split; [discriminate |].
      intros [(y & [= <-] & Hy) | Hp]; [congruence |]. apply Hans in Hp. discriminate.
    + split; [discriminate |].
      intros [(y & [= <-] & Hy) | Hp]; [congruence |]. apply Hans in Hp. discriminate.
Qed.

Lemma readable_parts t :
  readable t ->
  exists x d, usage_number t = Ok x /\ parse_ymd_hms (modification_time t) = Some d.
Proof.
  intros [Hu Hm].
  destruct (usage_value t) as [x |] eqn:Hx; [| congruence].
  destruct (parse_ymd_hms (modification_time t)) as [d |]; [| congruence].
  exists x, d. split; [now apply usage_number_value | reflexivity].
Qed.

(** What [check_used] answers for a record it can read. *)
Lemma check_used_decides tz self t w :
  readable t ->
  (exists b, fst (check_used tz self t w) = Ok b) /\
  (returns (check_used tz self t) w true <-> usage_accepted self t).
Proof.
  intros Hr. destruct (readable_parts t Hr) as (x & d & Hx & Hd).
  unfold returns. rewrite check_used_eq, Hx. cbn [fst]. split; [eauto |].
  rewrite <- (used_accepted tz self t x d Hx Hd).
  split; intros H; [injection H as H; exact H | f_equal; exact H].
Qed.

(** What the classification answers for a record it can read. *)
Lemma decision_iff tz now self t :
  valid_date now = true -> is_ok (minus_one_day now) = true ->
  readable t ->
  exists b, decision tz now self t = Ok b /\
            (b = true <-> parser_conditions now self t).
Proof.
  intros Vnow Hy Hr. destruct (readable_parts t Hr) as (x & d & Hx & Hd).
  pose proof (used_accepted tz self t x d Hx Hd) as Hacc.
  pose proof (check_modification_date_spec tz now t (mechanism self) Vnow Hy) as Hmod.
  unfold decision, parser_conditions. rewrite Hx, check_state_spec.
  assert (Hlm : exists lm, check_modification_date tz now t (mechanism self) = Ok lm).
  { unfold check_modification_date, strptime. rewrite Hd.
    destruct (minus_one_day now); [| discriminate].
    destruct (_ && _); [eauto |]. destruct (_ && _); eauto. }
  destruct Hlm as (lm & Hlm). rewrite Hlm in Hmod |- *.
  eexists. split; [reflexivity |].
  destruct (fgt x (float_of_Z 0)
            || match usage_answer tz self t with Some true => true | _ => false end).
  - destruct (contains "slot" (location t)), (contains "RL" (strip (state t))), lm;
      cbn; split; try discriminate; try tauto;
      try (intros (? & ? & ? & Hm); try congruence; apply Hmod in Hm; discriminate).
  - split.
    + rewrite andb_false_r. cbn. discriminate.
    + intros (_ & Hu & _). apply Hacc in Hu. discriminate.
Qed.

(** *** The selection as a filter *)

Lemma records_of_cons line rest :
  records_of (line :: rest)
  = match tape_record line with
    | Some t => t :: records_of rest
    | None => records_of rest
    end.
Proof. unfold records_of. cbn [flat_map]. now destruct (tape_record line). Qed.

(** When every record can be classified, the loop is a filter. *)
Lemma selection_filter tz now self lines :
  (forall t, In t (records_of lines) -> is_ok (decision tz now self t) = true) ->
  forall acc,
    selection tz now self lines acc
    = ((acc ++ filter (selects tz now self) (records_of lines))%list,
       flat_map (decision_logs tz self) (records_of lines)).
Proof.
  induction lines as [| line rest IH]; intros Hall acc.
  - cbn. now rewrite app_nil_r.
  - rewrite records_of_cons in *. cbn [selection].
    destruct (tape_record line) as [t |]; [| now apply IH].
    pose proof (Hall t (or_introl eq_refl)) as Ht.
    assert (Hrest : forall t', In t' (records_of rest) ->
                               is_ok (decision tz now self t') = true)
      by (intros; apply Hall; now right).
    cbn [filter flat_map]. unfold selects at 1.
    destruct (decision tz now self t) as [[|] | e]; [| | discriminate].
    + rewrite (IH Hrest). now rewrite <- app_assoc.
    + now rewrite (IH Hrest).
Qed.

Lemma readable_decides tz now self t :
  valid_date now = true -> is_ok (minus_one_day now) = true ->
  readable t -> is_ok (decision tz now self t) = true.
Proof.
  intros Vnow Hy Hr. destruct (decision_iff tz now self t Vnow Hy Hr) as (b & -> & _).
  reflexivity.
Qed.

Lemma selects_iff tz now self t :
  valid_date now = true -> is_ok (minus_one_day now) = true ->
  readable t ->
  selects tz now self t = true <-> parser_conditions now self t.
Proof.
  intros Vnow Hy Hr. destruct (decision_iff tz now self t Vnow Hy Hr) as (b & E & H).
  unfold selects. rewrite E. rewrite <- H. now destruct b.
Qed.

Lemma decision_other_mechanism tz now self t :
  valid_date now = true -> is_ok (minus_one_day now) = true ->
  readable t ->
  eq_int (mechanism self) 1 = false -> eq_int (mechanism self) 2 = false ->
  decision tz now self t = Ok false.
Proof.
  intros Vnow Hy Hr M1 M2. destruct (readable_parts t Hr) as (x & d & Hx & Hd).
  unfold decision. rewrite Hx.
  rewrite (check_modification_date_other tz now t (mechanism self) d Hy Hd M1 M2).
  now rewrite andb_false_r.
Qed.

(** *** [get_tapes] *)

Lemma ssh_log_value command r data : ssh_value r = Some data -> ssh_log command r = [].
Proof.
  destruct r as [out err | msg]; cbn; [| discriminate].
  now destruct (is_empty (strip err)).
Qed.

(** The report was retrieved: the records selected are stored, nothing
    is returned, and the log holds what the classifier wrote between the
    two banners. *)
Lemma get_tapes_retrieved tz now self w data :
  ssh_value (head_ssh w) = Some data -> data <> EmptyString ->
  exists w',
    get_tapes tz now self w
    = (Ok (set_tape_list self (fst (selection tz now self (split newline data) [])),
           None), w') /\
    stepped w w' 1 0 [EvSsh (fmt (instance self)) (listing_command self)]
      (listing_intro self
       ++ snd (selection tz now self (split newline data) [])
       ++ listing_outro (fst (selection tz now self (split newline data) [])))%list.
Proof.
  intros Hdata Hne. unfold get_tapes, ssh, listing_intro, listing_outro, listing_command.
  pose proof (stepped_refl w) as Hst.
  tstep_log Hst. tstep_log Hst.
  pose proof (head_ssh_stepped _ _ _ _ _ Hst) as Hh.
  tstep_ssh Hst. rewrite Hh, Hdata in *.
  rewrite (ssh_log_value _ _ _ Hdata) in Hst.
  destruct data as [| c data]; [contradiction |].
  rewrite (bind_run _ _ _ _ _ (get_tapes_loop_eq tz now self _ _ _)).
  match goal with
  | |- context [logged ?q_w ?q_lg] => pose proof (stepped_logged q_w q_lg) as Hlg
  end.
  tchain Hst Hlg.
  tstep_log Hst. tstep_log Hst. tstep_log Hst. tstep_log Hst.
  tdone Hst.
Qed.

(** The report was not retrieved, or is empty: the failure is logged, an
    empty list is returned, and the object is left as it was. *)
Lemma get_tapes_failed tz now self w :
  ssh_value (head_ssh w) = None \/ ssh_value (head_ssh w) = Some EmptyString ->
  exists w',
    get_tapes tz now self w = (Ok (self, Some []), w') /\
    stepped w w' 1 0 [EvSsh (fmt (instance self)) (listing_command self)]
      (listing_intro self
       ++ ssh_log (listing_command self) (head_ssh w)
       ++ [retrieval_failure (fmt (pool self))])%list.
Proof.
  intros Hdata. unfold get_tapes, ssh, listing_intro, listing_command, retrieval_failure.
  pose proof (stepped_refl w) as Hst.
  tstep_log Hst. tstep_log Hst.
  pose proof (head_ssh_stepped _ _ _ _ _ Hst) as Hh.
  tstep_ssh Hst. rewrite Hh in *.
  destruct Hdata as [-> | ->]; tstep_log Hst; tdone Hst.
Qed.

(** *** Usage eligibility *)

Lemma first_placement_in self t p :
  first_placement self t = Some p ->
  In p (report self) /\ contains (barcode t) (Placement.file_name p) = true.
Proof. unfold first_placement. intros H. now apply find_some in H. Qed.

Lemma usage_answer_below tz self t :
  (forall p, In p (report self) ->
             contains (barcode t) (Placement.file_name p) = true ->
             above_threshold self p = false) ->
  usage_answer tz self t <> Some true.
Proof.
  intros Hall. unfold usage_answer.
  destruct (first_placement self t) as [p |] eqn:Hp; [| discriminate].
  apply first_placement_in in Hp as [Hin Hc].
  pose proof (usage_against_below tz self t p (Hall p Hin Hc)) as Hb.
  destruct (usage_against tz self t p) as [[|] | e]; congruence.
Qed.

(** C8 (the code departs from the claim). [check_used] does not read the
    usage percentage of the record: it reads the number the usage column
    starts with, which in a column such as "0.0 GiB (0.40%)" is the
    amount.  For a record it can read, it answers True exactly when that
    number is greater than 0 or the first placement record whose file
    name contains the barcode is above the minimum and carries a
    readable placement time, and it logs what the placement test logs.
    A record with usage "0.0 %" and no matching placement record above
    the minimum is answered False, as claimed.  A record whose usage
    column is "0.0 GiB (0.40%)" and that has no placement record is
    usage-eligible, its percentage being greater than 0, and is answered
    False; so is a record with no usage whose second matching placement
    record is above the minimum when the first is not. *)
Theorem usage_test_reads_the_amount tz self t w :
  (readable t ->
   exists b,
     check_used tz self t w = (Ok b, logged w (usage_logs tz self t)) /\
     (b = true <-> usage_accepted self t)) /\
  (used t = "0.0 %" ->
   (forall p, In p (report self) ->
              contains (barcode t) (Placement.file_name p) = true ->
              above_threshold self p = false) ->
   fst (check_used tz self t w) = Ok false) /\
  (used t = "0.0 GiB (0.40%)" -> first_placement self t = None ->
   usage_eligible self t /\ check_used tz self t w = (Ok false, w)) /\
  (usage_eligible (Examples.lock_object [Examples.placement_old; Examples.placement_new])
     Examples.unused_today /\
   check_used tz (Examples.lock_object [Examples.placement_old; Examples.placement_new])
     Examples.unused_today w
   = (Ok false,
      logged w [LogMsg "Checking minimum usage for Barcode: A55157LA"])).
Proof.
  repeat apply conj.
  - intros Hr. destruct (readable_parts t Hr) as (x & d & Hx & Hd).
    rewrite check_used_eq. unfold decision_logs. rewrite Hx.
    eexists. split; [reflexivity |]. exact (used_accepted tz self t x d Hx Hd).
  - intros Hu Hall. rewrite check_used_eq. cbn [fst].
    assert (Hx : usage_number t = Ok (float_of_Z 0)).
    { unfold usage_number. rewrite Hu. vm_compute. reflexivity. }
    rewrite Hx. pose proof (usage_answer_below tz self t Hall) as Hb.
    change (fgt (float_of_Z 0) (float_of_Z 0)) with false. cbn [orb].
    destruct (usage_answer tz self t) as [[|] |]; congruence.
  - intros Hu Hp. split.
    { left. unfold reported_percentage. rewrite Hu.
      eexists. split; vm_compute; reflexivity. }
    rewrite check_used_eq.
    assert (Hx : usage_number t = Ok (float_of_Z 0)).
    { unfold usage_number. rewrite Hu. vm_compute. reflexivity. }
    unfold decision_logs, usage_logs, usage_answer. rewrite Hx, Hp.
    change (fgt (float_of_Z 0) (float_of_Z 0)) with false. cbn [orb].
    now rewrite logged_nil.
  - right. exists Examples.placement_new.
    split; [right; left; reflexivity | split; vm_compute; reflexivity].
  - rewrite check_used_eq. vm_compute. reflexivity.
Qed.

Lemma usage_test_reads_the_amount_witness :
  (readable Examples.written_today /\
   check_used 0 (Examples.lock_object []) Examples.written_today Examples.quiet
   = (Ok true, Examples.quiet)) /\
  (readable Examples.unused_today /\
   check_used 0 (Examples.lock_object [Examples.placement_new]) Examples.unused_today
     Examples.quiet
   = (Ok true,
      logged Examples.quiet [LogMsg "Checking minimum usage for Barcode: A55157LA"])) /\
  (used Examples.zero_percent = "0.0 %" /\
   fst (check_used 0 (Examples.lock_object [Examples.placement_new]) Examples.zero_percent
          Examples.quiet) = Ok false) /\
  (used Examples.slightly_used = "0.0 GiB (0.40%)" /\
   first_placement (Examples.lock_object [Examples.placement_new]) Examples.slightly_used
   = None /\
   usage_eligible (Examples.lock_object [Examples.placement_new]) Examples.slightly_used /\
   check_used 0 (Examples.lock_object [Examples.placement_new]) Examples.slightly_used
     Examples.quiet
   = (Ok false, Examples.quiet)).
Proof.
  assert (Hr1 : readable Examples.written_today) by (split; vm_compute; discriminate).
  assert (Hr2 : readable Examples.unused_today) by (split; vm_compute; discriminate).
  split; [split; [exact Hr1 |] | split; [split; [exact Hr2 |] | split;
    [split; [reflexivity |] | split; [reflexivity | split; [reflexivity | split]]]]].
  - destruct (usage_test_reads_the_amount 0 (Examples.lock_object [])
                Examples.written_today Examples.quiet) as (H & _).
    destruct (H Hr1) as (b & E & Hb). rewrite E.
    assert (b = true) as ->.
    { apply Hb. left. eexists. split; vm_compute; reflexivity. }
    reflexivity.
  - destruct (usage_test_reads_the_amount 0 (Examples.lock_object [Examples.placement_new])
                Examples.unused_today Examples.quiet) as (H & _).
    destruct (H Hr2) as (b & E & Hb). rewrite E.
    assert (b = true) as ->.
    { apply Hb. right. exists Examples.placement_new.
      repeat split; vm_compute; try reflexivity; discriminate. }
    reflexivity.
  - destruct (usage_test_reads_the_amount 0 (Examples.lock_object [Examples.placement_new])
                Examples.zero_percent Examples.quiet) as (_ & H & _).
    apply H; [reflexivity |].
    intros p [<- | []]. vm_compute. discriminate.
  - destruct (usage_test_reads_the_amount 0 (Examples.lock_object [Examples.placement_new])
                Examples.slightly_used Examples.quiet) as (_ & _ & H & _).
    now apply H.
  - destruct (usage_test_reads_the_amount 0 (Examples.lock_object [Examples.placement_new])
                Examples.slightly_used Examples.quiet) as (_ & _ & H & _).
    now apply H.
Defined.

(** *** The selection of [get_tapes] *)

(** C2 (the code departs from the claim). When the report is retrieved
    and every record in it can be read, [get_tapes] stores exactly the
    records for which four tests hold, in report order, returns nothing,
    and logs what the usage test logs between its two banners: the
    location contains "slot", [check_used] accepts the usage, the state
    does not contain "RL", and the modification date is today's
    (mechanism 1) or yesterday's (mechanism 2); with any other mechanism
    every record is answered False and none is stored.  The usage test
    is the one of [check_used], which reads the amount and not the
    percentage (C8): a record in a slot, modified today, not locked,
    whose usage column is "0.0 GiB (0.40%)" meets the four conditions of
    the claim and is left out, and so is an unused record whose second
    matching placement record is above the minimum. *)
Theorem lock_selection_reads_the_amount tz now self w data :
  (valid_date now = true -> is_ok (minus_one_day now) = true ->
   ssh_value (head_ssh w) = Some data -> data <> EmptyString ->
   (forall t, In t (records_of (split newline data)) -> readable t) ->
   (exists w',
      get_tapes tz now self w
      = (Ok (set_tape_list self
               (filter (selects tz now self) (records_of (split newline data))),
             None), w') /\
      stepped w w' 1 0 [EvSsh (fmt (instance self)) (listing_command self)]
        (listing_intro self
         ++ flat_map (decision_logs tz self) (records_of (split newline data))
         ++ listing_outro
              (filter (selects tz now self) (records_of (split newline data))))%list) /\
   (forall t, In t (records_of (split newline data)) ->
              (selects tz now self t = true <-> parser_conditions now self t)) /\
   (eq_int (mechanism self) 1 = false -> eq_int (mechanism self) 2 = false ->
    (forall t, In t (records_of (split newline data)) ->
               decision tz now self t = Ok false) /\
    filter (selects tz now self) (records_of (split newline data)) = [])) /\
  (lock_conditions Examples.now (Examples.lock_object []) Examples.slightly_used /\
   fst (get_tapes 0 Examples.now (Examples.lock_object [])
          (Examples.listed_world [Examples.written_today_line; Examples.slightly_used_line]))
   = Ok (set_tape_list (Examples.lock_object []) [Examples.written_today], None)) /\
  (lock_conditions Examples.now
     (Examples.lock_object [Examples.placement_old; Examples.placement_new])
     Examples.unused_today /\
   fst (get_tapes 0 Examples.now
          (Examples.lock_object [Examples.placement_old; Examples.placement_new])
          (Examples.listed_world [Examples.unused_today_line]))
   = Ok (set_tape_list
           (Examples.lock_object [Examples.placement_old; Examples.placement_new]) [],
         None)).
Proof.
  split; [| split].
  - intros Vnow Hy Hdata Hne Hread.
    assert (Hall : forall t, In t (records_of (split newline data)) ->
                             is_ok (decision tz now self t) = true)
      by (intros t Ht; apply readable_decides; auto).
    split; [| split].
    + destruct (get_tapes_retrieved tz now self w data Hdata Hne) as (w' & E & Hst).
      rewrite (selection_filter tz now self _ Hall []) in E, Hst.
      cbn [fst snd app] in E, Hst. eauto.
    + intros t Ht. apply selects_iff; auto.
    + intros M1 M2.
      assert (Hno : forall t, In t (records_of (split newline data)) ->
                              decision tz now self t = Ok false)
        by (intros t Ht; apply decision_other_mechanism; auto).
      split; [exact Hno |].
      induction (records_of (split newline data)) as [| t l IH]; [reflexivity |].
      cbn [filter]. unfold selects at 1. rewrite (Hno t (or_introl eq_refl)).
      apply IH; intros; [apply Hread | apply Hall | apply Hno]; now right.
  - split; [| vm_compute; reflexivity].
    split; [vm_compute; reflexivity | split; [| split; [vm_compute; reflexivity |]]].
    + left. eexists. split; vm_compute; reflexivity.
    + eexists. split; [vm_compute; reflexivity |]. left. split; vm_compute; reflexivity.
  - split; [| vm_compute; reflexivity].
    split; [vm_compute; reflexivity | split; [| split; [vm_compute; reflexivity |]]].
    + right. exists Examples.placement_new.
      split; [right; left; reflexivity | split; vm_compute; reflexivity].
    + eexists. split; [vm_compute; reflexivity |]. left. split; vm_compute; reflexivity.
Qed.

Lemma lock_selection_reads_the_amount_witness :
  valid_date Examples.now = true /\
  is_ok (minus_one_day Examples.now) = true /\
  (forall t,
      In t (records_of (Examples.lock_header
                        ++ [Examples.written_today_line; Examples.slightly_used_line;
                            Examples.written_yesterday_line])%list) ->
      readable t) /\
  (exists w',
     get_tapes 0 Examples.now (Examples.lock_object [])
       (Examples.listed_world [Examples.written_today_line; Examples.slightly_used_line;
                               Examples.written_yesterday_line])
     = (Ok (set_tape_list (Examples.lock_object []) [Examples.written_today], None), w') /\
     events w' = [EvSsh "dd01" "vtl tape show pool FEB_3 sort-by modtime descending"]) /\
  (exists w',
     get_tapes 0 Examples.now (Examples.lock_object_with (PInt 2) [])
       (Examples.listed_world [Examples.written_today_line; Examples.slightly_used_line;
                               Examples.written_yesterday_line])
     = (Ok (set_tape_list (Examples.lock_object_with (PInt 2) [])
              [Examples.written_yesterday], None), w')) /\
  (exists w',
     get_tapes 0 Examples.now (Examples.lock_object_with (PInt 3) [])
       (Examples.listed_world [Examples.written_today_line; Examples.slightly_used_line;
                               Examples.written_yesterday_line])
     = (Ok (set_tape_list (Examples.lock_object_with (PInt 3) []) [], None), w')).
Proof.
  assert (Hread : forall t,
             In t (records_of (Examples.lock_header
                               ++ [Examples.written_today_line; Examples.slightly_used_line;
                                   Examples.written_yesterday_line])%list) ->
             readable t).
  { intros t Ht. vm_compute in Ht.
    destruct Ht as [<- | [<- | [<- | []]]]; split; vm_compute; discriminate. }
  assert (Hne : strip (join newline
                         (Examples.lock_header
                          ++ [Examples.written_today_line; Examples.slightly_used_line;
                              Examples.written_yesterday_line])%list) <> EmptyString)
    by (vm_compute; discriminate).
  assert (Hlines : split newline
                     (strip (join newline
                               (Examples.lock_header
                                ++ [Examples.written_today_line;
                                    Examples.slightly_used_line;
                                    Examples.written_yesterday_line])%list))
                   = (Examples.lock_header
                      ++ [Examples.written_today_line; Examples.slightly_used_line;
                          Examples.written_yesterday_line])%list)
    by (vm_compute; reflexivity).
  split; [reflexivity |]. split; [reflexivity |]. split; [exact Hread |].
  split; [| split].
  - destruct (lock_selection_reads_the_amount 0 Examples.now (Examples.lock_object [])
                (Examples.listed_world [Examples.written_today_line;
                                        Examples.slightly_used_line;
                                        Examples.written_yesterday_line])
                (strip (join newline
                          (Examples.lock_header
                           ++ [Examples.written_today_line; Examples.slightly_used_line;
                               Examples.written_yesterday_line])%list))) as (H & _).
    destruct (H eq_refl eq_refl eq_refl Hne) as ((w' & E & Hst) & _).
    { rewrite Hlines. exact Hread. }
    exists w'. split.
    + rewrite E. vm_compute. reflexivity.
    + destruct Hst as ((_ & _ & Hev) & _). exact Hev.
  - destruct (lock_selection_reads_the_amount 0 Examples.now
                (Examples.lock_object_with (PInt 2) [])
                (Examples.listed_world [Examples.written_today_line;
                                        Examples.slightly_used_line;
                                        Examples.written_yesterday_line])
                (strip (join newline
                          (Examples.lock_header
                           ++ [Examples.written_today_line; Examples.slightly_used_line;
                               Examples.written_yesterday_line])%list))) as (H & _).
    destruct (H eq_refl eq_refl eq_refl Hne) as ((w' & E & Hst) & _).
    { rewrite Hlines. exact Hread. }
    exists w'. rewrite E. vm_compute. reflexivity.
  - destruct (lock_selection_reads_the_amount 0 Examples.now
                (Examples.lock_object_with (PInt 3) [])
                (Examples.listed_world [Examples.written_today_line;
                                        Examples.slightly_used_line;
                                        Examples.written_yesterday_line])
                (strip (join newline
                          (Examples.lock_header
                           ++ [Examples.written_today_line; Examples.slightly_used_line;
                               Examples.written_yesterday_line])%list))) as (H & _).
    destruct (H eq_refl eq_refl eq_refl Hne) as ((w' & E & _) & _ & Hother).
    { rewrite Hlines. exact Hread. }
    exists w'. rewrite E. destruct (Hother eq_refl eq_refl) as (_ & ->). reflexivity.
Defined.

Lemma format_tape_data_frame data w :
  exists rows w',
    format_tape_data data w = (Ok rows, w') /\ advanced w w' 0 0 [].
Proof.
  unfold format_tape_data. destruct data as [d |].
  - destruct (format_tape_data_loop _ _ _) as [rows [e |]].
    + destruct (EnvFacts.run_log (LogExn e) w) as (w' & E & H).
      exists rows, w'. now rewrite (EnvFacts.bind_run _ _ _ _ _ E).
    + exists rows, w. split; [reflexivity | apply EnvFacts.advanced_refl].
  - destruct (EnvFacts.run_log
                (LogExn (AttributeError "'bool' object has no attribute 'split'")) w)
      as (w' & E & H).
    exists [], w'. now rewrite (EnvFacts.bind_run _ _ _ _ _ E).
Qed.

Lemma set_retention_lock_events self t w period :
  retention_lock_period self = Some period ->
  events (snd (set_retention_lock self t w)) =
    (events w ++
     [EvSsh (fmt (instance self))
        ("vtl tape modify " ++ barcode t ++ " pool " ++ pool_name t
         ++ " retention-lock " ++ period);
      EvSsh (fmt (instance self))
        ("vtl tape show pool " ++ pool_name t ++ " barcode " ++ barcode t)])%list.
Proof.
  intros Hp. unfold set_retention_lock, ssh. rewrite Hp.
  pose proof (EnvFacts.advanced_refl w) as Hadv.
  EnvFacts.step_log Hadv. EnvFacts.step_log Hadv. EnvFacts.step_ssh Hadv.
  EnvFacts.step_log Hadv. EnvFacts.step_log Hadv. EnvFacts.step_ssh Hadv.
  match goal with
  | |- context [bind (format_tape_data ?d) ?k ?w0] =>
      destruct (format_tape_data_frame d w0) as (rows & w' & E & H');
      rewrite (EnvFacts.bind_run _ k w0 _ _ E); clear E; EnvFacts.chain Hadv H'; cbv beta
  end.
  EnvFacts.step_log Hadv.
  destruct Hadv as (_ & _ & Hev). cbn [app] in Hev.
  destruct (index rows 0) as [first | e].
  - rewrite EnvFacts.bind_lift_ok. destruct (String.eqb _ _); exact Hev.
  - rewrite EnvFacts.bind_lift_raise. exact Hev.
Qed.

(** C7. When the daily bound and the monthly bound are both positive
    integers, the duration issued is the monthly one:
    [set_max_retention_lock_period_pool] (on a non-empty tape list with
    governance enabled) issues the command that sets the maximum period
    to "<monthly>year", and [set_retention_lock] issues the tape lock
    command with "<monthly>year", whatever the daily value is. *)
Theorem monthly_bound_overrides_daily self daily monthly :
  0 < daily -> 0 < monthly ->
  (maximum_retention_lock_period_daily_backup_in_days self = PInt daily ->
   maximum_retention_lock_period_monthly_backup_in_years self = PInt monthly ->
   tape_list self <> [] -> pool_retention_lock_enabled self = true ->
   forall w,
     events (snd (set_max_retention_lock_period_pool self w)) =
       (events w ++
        [EvSsh (fmt (instance self))
           ("mtree retention-lock set max-retention-period "
            ++ (str_of_int monthly ++ "year") ++ " mtree /data/col1/"
            ++ fmt (pool self))])%list) /\
  (retention_lock_period_for_tapes_in_days self = PInt daily ->
   retention_lock_period_for_tapes_for_monthly_in_years self = PInt monthly ->
   retention_lock_period self = Some (str_of_int monthly ++ "year") /\
   forall t w,
     events (snd (set_retention_lock self t w)) =
       (events w ++
        [EvSsh (fmt (instance self))
           ("vtl tape modify " ++ barcode t ++ " pool " ++ pool_name t
            ++ " retention-lock " ++ (str_of_int monthly ++ "year"));
         EvSsh (fmt (instance self))
           ("vtl tape show pool " ++ pool_name t ++ " barcode " ++ barcode t)])%list).
Proof.
  intros Hd Hm. apply Z.ltb_lt in Hd, Hm. split.
  - intros Ed Em Hne Hen w. unfold set_max_retention_lock_period_pool.
    rewrite (EnvFacts.length_positive _ Hne), Hen, Ed, Em. cbn [andb is_positive_int].
    rewrite Hd, Hm. cbn [str_of_val].
    unfold ssh. pose proof (EnvFacts.advanced_refl w) as Hadv.
    EnvFacts.step_log Hadv. EnvFacts.step_ssh Hadv. EnvFacts.step_log Hadv.
    destruct Hadv as (_ & _ & Hev). cbn [app] in Hev. rewrite ?app_nil_r in Hev.
    exact Hev.
  - intros Ed Em.
    assert (Hp : retention_lock_period self = Some (str_of_int monthly ++ "year")).
    { unfold retention_lock_period. rewrite Ed, Em. cbn [is_positive_int].
      now rewrite Hd, Hm. }
    split; [exact Hp |]. intros t w. now apply set_retention_lock_events.
Qed.

Lemma monthly_bound_overrides_daily_witness :
  let self := Immutable.set_tape_list (Examples.lock_object []) [Examples.written_today] in
  0 < 30 /\ 0 < 2 /\
  events (snd (set_max_retention_lock_period_pool self Examples.quiet)) =
    [EvSsh "dd01" "mtree retention-lock set max-retention-period 2year mtree /data/col1/FEB_3"] /\
  retention_lock_period self = Some "2year" /\
  events (snd (set_retention_lock self Examples.written_today Examples.quiet)) =
    [EvSsh "dd01" "vtl tape modify A55157LA pool FEB_3 retention-lock 2year";
     EvSsh "dd01" "vtl tape show pool FEB_3 barcode A55157LA"].
Proof.
  cbv zeta.
  destruct (monthly_bound_overrides_daily
              (Immutable.set_tape_list (Examples.lock_object []) [Examples.written_today])
              30 2 eq_refl eq_refl) as [Hmax Htape].
  split; [reflexivity |]. split; [reflexivity |].
  split.
  - apply (Hmax eq_refl eq_refl); [discriminate | reflexivity].
  - destruct (Htape eq_refl eq_refl) as [Hp Hev]. split; [exact Hp |].
    apply (Hev Examples.written_today Examples.quiet).
Defined.
(** *** The lock loop *)

Lemma format_tape_data_rows data w :
  exists w', format_tape_data data w = (Ok (rows_of data), w') /\ advanced w w' 0 0 [].
Proof.
  unfold format_tape_data, rows_of. destruct data as [d |].
  - destruct (format_tape_data_loop _ _ _) as [rows [e |]]; cbn [fst].
    + destruct (run_log (LogExn e) w) as (w' & E & H).
      exists w'. now rewrite (bind_run _ _ _ _ _ E).
    + exists w. split; [reflexivity | apply advanced_refl].
  - destruct (run_log (LogExn (AttributeError "'bool' object has no attribute 'split'")) w)
      as (w' & E & H).
    exists w'. now rewrite (bind_run _ _ _ _ _ E).
Qed.

Lemma set_retention_lock_spec self t w :
  exists w' ev,
    set_retention_lock self t w = (fst (lock_step self (ssh_replies w)), w') /\
    advanced w w' (snd (lock_step self (ssh_replies w))) 0 ev.
Proof.
  unfold set_retention_lock, lock_step, ssh.
  destruct (retention_lock_period self) as [period |].
  2:{ exists w, []. split; [reflexivity | apply advanced_refl]. }
  pose proof (advanced_refl w) as Hadv.
  step_log Hadv. step_log Hadv. step_ssh Hadv.
  step_log Hadv. step_log Hadv.
  pose proof (head_ssh_advanced _ _ _ _ _ Hadv) as Hh. cbn [Nat.add] in Hh.
  step_ssh Hadv. rewrite Hh.
  match goal with
  | |- context [bind (format_tape_data ?q_d) _ ?q_w] =>
      step_over (format_tape_data q_d) (format_tape_data_rows q_d) Hadv
  end.
  step_log Hadv.
  destruct (rows_of (ssh_value (nth 1 (ssh_replies w) no_reply))) as [| first more];
    cbn [index nth_error fst snd].
  - rewrite bind_lift_raise. eexists _, _. split; [reflexivity | exact Hadv].
  - rewrite bind_lift_ok. destruct (String.eqb _ _);
      eexists _, _; (split; [reflexivity | exact Hadv]).
Qed.

Lemma apply_loop_spec self tapes :
  forall acc w, exists w',
    apply_loop self tapes acc w =
      (match lock_outcomes self tapes (ssh_replies w) with
       | Ok rs => Ok (acc ++ locked_barcodes tapes rs)%list
       | Raise e => Raise e
       end, w').
Proof.
  induction tapes as [| t rest IH]; intros acc w; cbn [apply_loop lock_outcomes].
  - exists w. cbn. now rewrite app_nil_r.
  - pose proof (advanced_refl w) as Hadv.
    step_log Hadv. step_log Hadv.
    assert (Hs : ssh_replies w1 = ssh_replies w) by (destruct Hadv as (-> & _); reflexivity).
    destruct (set_retention_lock_spec self t w1) as (w2 & ev & E & H2).
    rewrite Hs in E, H2.
    destruct (lock_step self (ssh_replies w)) as [[r | e] n]; cbn [fst snd] in E, H2.
    2:{ rewrite (bind_raised _ _ _ _ _ E). eauto. }
    rewrite (bind_run _ _ _ _ _ E). chain Hadv H2.
    assert (Hs2 : forall w3, ssh_replies w3 = skipn n (ssh_replies w) ->
              exists w', apply_loop self rest (if r then acc ++ [barcode t] else acc)%list w3
                = (match lock_outcomes self rest (skipn n (ssh_replies w)) with
                   | Ok rs => Ok (acc ++ locked_barcodes (t :: rest) (r :: rs))%list
                   | Raise e => Raise e
                   end, w')).
    { intros w3 H3. destruct (IH (if r then acc ++ [barcode t] else acc)%list w3) as (w' & E').
      rewrite H3 in E'. exists w'. rewrite E'. clear E'.
      destruct (lock_outcomes self rest (skipn n (ssh_replies w))); [| reflexivity].
      destruct r; cbn [locked_barcodes]; [| reflexivity].
      now rewrite <- app_assoc. }
    destruct r.
    + rewrite bind_assoc. step_log Hadv. rewrite bind_ret. step_log Hadv.
      destruct (Hs2 w4) as (w' & E').
      { destruct Hadv as (Hx & _). rewrite Hx. f_equal. lia. }
      exists w'. rewrite E'. clear E'.
      destruct (lock_outcomes self rest (skipn n (ssh_replies w))); reflexivity.
    + rewrite bind_assoc. step_log Hadv. rewrite bind_ret. step_log Hadv.
      destruct (Hs2 w4) as (w' & E').
      { destruct Hadv as (Hx & _). rewrite Hx. f_equal. lia. }
      exists w'. rewrite E'. clear E'.
      destruct (lock_outcomes self rest (skipn n (ssh_replies w))); reflexivity.
Qed.


(** One tape of the lock loop: the two commands issued and the answer. *)
Lemma set_retention_lock_trace self t p w :
  retention_lock_period self = Some p ->
  exists w',
    set_retention_lock self t w = (fst (lock_step self (ssh_replies w)), w') /\
    advanced w w' 2 0
      [EvSsh (fmt (instance self)) (modify_command t p);
       EvSsh (fmt (instance self)) (show_command t)].
Proof.
  intros Hp. unfold set_retention_lock, lock_step, ssh, modify_command, show_command.
  rewrite Hp.
  pose proof (advanced_refl w) as Hadv.
  step_log Hadv. step_log Hadv. step_ssh Hadv.
  step_log Hadv. step_log Hadv.
  pose proof (head_ssh_advanced _ _ _ _ _ Hadv) as Hh. cbn [Nat.add] in Hh.
  step_ssh Hadv. rewrite Hh.
  match goal with
  | |- context [bind (format_tape_data ?q_d) _ ?q_w] =>
      step_over (format_tape_data q_d) (format_tape_data_rows q_d) Hadv
  end.
  step_log Hadv.
  destruct (rows_of (ssh_value (nth 1 (ssh_replies w) no_reply))) as [| first more];
    cbn [index nth_error fst snd].
  - rewrite bind_lift_raise. adone Hadv.
  - rewrite bind_lift_ok. destruct (String.eqb _ _); adone Hadv.
Qed.

Lemma set_retention_lock_none self t w :
  retention_lock_period self = None -> set_retention_lock self t w = (Ok false, w).
Proof. intros Hp. unfold set_retention_lock. now rewrite Hp. Qed.

Lemma nth_after_skipn {A} (l : list A) (n i : nat) (d : A) :
  nth i (skipn n l) d = nth (n + i) l d.
Proof.
  revert l. induction n as [| n IH]; intros l; [reflexivity |].
  destruct l as [| x l]; [now destruct i | apply IH].
Qed.

(** The answers of a batch, reply by reply. *)
Lemma lock_outcomes_confirmed self p tapes :
  retention_lock_period self = Some p ->
  forall sr,
    requeries_answered (List.length tapes) sr = true ->
    exists rs,
      lock_outcomes self tapes sr = Ok rs /\
      List.length rs = List.length tapes /\
      forall k, (k < List.length tapes)%nat ->
                nth_error rs k = Some (confirmed (nth (2 * k + 1) sr no_reply)).
Proof.
  intros Hp. induction tapes as [| t rest IH]; intros sr H.
  - exists []. repeat split. cbn. lia.
  - cbn [lock_outcomes List.length requeries_answered] in *. unfold lock_step. rewrite Hp.
    pose proof (eq_refl (confirmed (nth 1 sr no_reply))) as Hc. unfold confirmed at 1 in Hc.
    destruct (rows_of (ssh_value (nth 1 sr no_reply))) as [| first more];
      [discriminate |].
    destruct (IH (skipn 2 sr) H) as (rs & E & Hl & Hk). rewrite E.
    eexists. split; [reflexivity |]. split; [cbn; now rewrite Hl |].
    intros [| k] Hlt; cbn [nth_error].
    + change (2 * 0 + 1)%nat with 1%nat. now rewrite Hc.
    + rewrite Hk by lia. rewrite nth_after_skipn. do 3 f_equal. lia.
Qed.

(** The lock loop when every re-query is answered: both commands of
    every tape are issued, in order, and the barcodes of the confirmed
    tapes are returned. *)
Lemma apply_loop_trace self p tapes :
  retention_lock_period self = Some p ->
  forall acc w,
    requeries_answered (List.length tapes) (ssh_replies w) = true ->
    exists rs w',
      lock_outcomes self tapes (ssh_replies w) = Ok rs /\
      apply_loop self tapes acc w = (Ok (acc ++ locked_barcodes tapes rs)%list, w') /\
      advanced w w' (2 * List.length tapes) 0
        (map (EvSsh (fmt (instance self))) (lock_commands tapes p)).
Proof.
  intros Hp. induction tapes as [| t rest IH]; intros acc w H.
  - exists [], w. cbn. rewrite app_nil_r. repeat split. now rewrite app_nil_r.
  - cbn [apply_loop lock_outcomes List.length requeries_answered] in *.
    pose proof (advanced_refl w) as Hadv.
    step_log Hadv. step_log Hadv.
    assert (Hs : ssh_replies w1 = ssh_replies w) by (destruct Hadv as (-> & _); reflexivity).
    destruct (set_retention_lock_trace self t p w1 Hp) as (w2 & E & H2).
    rewrite Hs in E. unfold lock_step in E |- *. rewrite Hp in E |- *.
    destruct (rows_of (ssh_value (nth 1 (ssh_replies w) no_reply))) as [| first more];
      [discriminate |].
    cbn [fst] in E. rewrite (bind_run _ _ _ _ _ E). chain Hadv H2.
    set (r := String.eqb (Row.state first) "RO/RL*") in *.
    assert (Hnext : forall w4 acc',
               advanced w w4 2 0
                 [EvSsh (fmt (instance self)) (modify_command t p);
                  EvSsh (fmt (instance self)) (show_command t)] ->
               exists rs w',
                 lock_outcomes self rest (skipn 2 (ssh_replies w)) = Ok rs /\
                 apply_loop self rest acc' w4 = (Ok (acc' ++ locked_barcodes rest rs)%list, w') /\
                 advanced w w' (2 * S (List.length rest)) 0
                   (map (EvSsh (fmt (instance self))) (lock_commands (t :: rest) p))).
    { intros w4 acc' H4.
      assert (Hs4 : ssh_replies w4 = skipn 2 (ssh_replies w)) by (now destruct H4).
      destruct (IH acc' w4) as (rs & w' & Ers & Eloop & Hrest).
      { now rewrite Hs4. }
      rewrite Hs4 in Ers. exists rs, w'. split; [exact Ers |]. split; [exact Eloop |].
      chain H4 Hrest. eapply advanced_eq; [exact H4 | lia | reflexivity | reflexivity]. }
    destruct r.
    + rewrite bind_assoc. step_log Hadv. rewrite bind_ret. step_log Hadv.
      match goal with
      | |- context [apply_loop self rest ?q_acc ?q_w] =>
          destruct (Hnext q_w q_acc) as (rs & w' & Ers & Eloop & Hrest); [aframe Hadv |]
      end.
      rewrite Ers. exists (true :: rs), w'. split; [reflexivity |].
      split; [| exact Hrest]. rewrite Eloop. cbn [locked_barcodes].
      now rewrite <- app_assoc.
    + rewrite bind_assoc. step_log Hadv. rewrite bind_ret. step_log Hadv.
      match goal with
      | |- context [apply_loop self rest ?q_acc ?q_w] =>
          destruct (Hnext q_w q_acc) as (rs & w' & Ers & Eloop & Hrest); [aframe Hadv |]
      end.
      rewrite Ers. exists (false :: rs), w'. split; [reflexivity |].
      split; [| exact Hrest]. rewrite Eloop. reflexivity.
Qed.

(** Without a configured period no command is issued and no tape is
    locked. *)
Lemma apply_loop_no_period self tapes :
  retention_lock_period self = None ->
  forall acc w, exists w',
    apply_loop self tapes acc w = (Ok acc, w') /\ advanced w w' 0 0 [].
Proof.
  intros Hp. induction tapes as [| t rest IH]; intros acc w.
  - exists w. split; [reflexivity | apply advanced_refl].
  - cbn [apply_loop]. pose proof (advanced_refl w) as Hadv.
    step_log Hadv. step_log Hadv.
    rewrite (bind_run _ _ _ _ _ (set_retention_lock_none self t _ Hp)).
    rewrite bind_assoc. step_log Hadv. rewrite bind_ret. step_log Hadv.
    match goal with
    | |- context [apply_loop self rest ?q_acc ?q_w] =>
        destruct (IH q_acc q_w) as (w' & E & H')
    end.
    exists w'. split; [exact E |].
    chain Hadv H'. aframe Hadv.
Qed.

(** An exception of [set_retention_lock] leaves the loop and the
    function. *)
Lemma apply_loop_raises self t rest acc w e :
  raises (set_retention_lock self t) w e ->
  raises (apply_loop self (t :: rest) acc) w e.
Proof.
  intros H. unfold raises in *.
  destruct (set_retention_lock_spec self t w) as (w1 & ev & E & _).
  rewrite E in H. cbn [fst] in H.
  destruct (apply_loop_spec self (t :: rest) acc w) as (w' & E').
  rewrite E'. cbn [fst lock_outcomes].
  destruct (lock_step self (ssh_replies w)) as [r n]. cbn [fst] in H. now subst r.
Qed.

Lemma apply_retention_lock_to_tapes_raises self t rest w e :
  tape_list self = t :: rest -> pool_retention_lock_enabled self = true ->
  raises (set_retention_lock self t) w e ->
  raises (apply_retention_lock_to_tapes self) w e.
Proof.
  intros Hl Hen H. pose proof (apply_loop_raises self t rest [] w e H) as Hloop.
  unfold raises in *. unfold apply_retention_lock_to_tapes. rewrite Hl, Hen.
  cbn [List.length]. replace (0 <? Z.of_nat (S (List.length rest))) with true
    by (symmetry; apply Z.ltb_lt; lia).
  cbn [andb]. destruct (apply_loop self (t :: rest) [] w) as [r w1] eqn:E.
  cbn [fst] in Hloop. subst r. now rewrite (bind_raised _ _ _ _ _ E).
Qed.
End ImmutableFacts.

(** ** Reclaim workflow (open_system_vtl_reset.py) *)

Module ResetFacts.
Import Py Env Utils Reset Spec PyFacts EnvFacts TraceFacts.

Lemma execute_tape_remove_commmand_spec self t :
  one_command_stage (execute_tape_remove_commmand self t) (instance self)
    ("vtl tape del " ++ barcode t ++ " pool " ++ pool self).
Proof.
  intros w. unfold execute_tape_remove_commmand, ssh.
  pose proof (advanced_refl w) as Hadv.
  step_log Hadv. step_log Hadv. one_command Hadv w.
Qed.

Lemma create_tape_spec self t n :
  capacity t = Ok n ->
  one_command_stage (create_tape self t) (instance self)
    ("vtl tape add " ++ barcode t ++ " capacity " ++ str_of_int n
     ++ " pool " ++ pool self).
Proof.
  unfold capacity. intros Hc w. unfold create_tape, ssh.
  destruct (split_ws (strip (size t))) as [| v [| u [| ? ?]]]; try discriminate.
  rewrite Hc, bind_lift_ok.
  pose proof (advanced_refl w) as Hadv.
  step_log Hadv. step_log Hadv. one_command Hadv w.
Qed.

Lemma create_tape_raises self t e w :
  capacity t = Raise e -> create_tape self t w = (Raise e, w).
Proof.
  unfold capacity, create_tape.
  destruct (split_ws (strip (size t))) as [| v [| u [| ? ?]]];
    try (intros [= <-]; reflexivity).
  intros ->. reflexivity.
Qed.

Lemma import_tape_from_library_spec self t :
  String.eqb (library_name t) "vault" = false ->
  one_command_stage (import_tape_from_library self t) (instance self)
    ("vtl import " ++ library_name t ++ " barcode " ++ barcode t
     ++ " count 1 pool " ++ pool self ++ " element slot").
Proof.
  intros Hlib w. unfold import_tape_from_library, ssh.
  fold (library_name t). rewrite Hlib. cbn [negb].
  pose proof (advanced_refl w) as Hadv.
  step_log Hadv. step_log Hadv. one_command Hadv w.
Qed.

Lemma import_tape_from_library_vault self t w :
  String.eqb (library_name t) "vault" = true ->
  import_tape_from_library self t w = (Ok false, w).
Proof.
  intros Hlib. unfold import_tape_from_library. fold (library_name t).
  now rewrite Hlib.
Qed.

Lemma export_tape_from_library_none self t w :
  export_slot t = None -> export_tape_from_library self t w = (Ok None, w).
Proof.
  unfold export_slot, export_tape_from_library. fold (library_name t).
  destruct (re_search_trailing_digits (location t)); [| reflexivity].
  destruct (negb (String.eqb (library_name t) "vault")); [discriminate | reflexivity].
Qed.

Lemma export_tape_from_library_slot self t slot w :
  export_slot t = Some slot ->
  exists w',
    export_tape_from_library self t w = (Ok (Some (ssh_ok (head_ssh w))), w') /\
    advanced w w' 1 0
      [EvSsh (instance self) ("vtl export " ++ library_name t ++ " slot " ++ slot)].
Proof.
  unfold export_slot, export_tape_from_library, ssh. fold (library_name t).
  destruct (re_search_trailing_digits (location t)) as [s |]; [| discriminate].
  destruct (negb (String.eqb (library_name t) "vault")); [| discriminate].
  intros [= ->].
  pose proof (advanced_refl w) as Hadv.
  step_log Hadv. step_log Hadv. one_command Hadv w.
Qed.

Lemma export_slot_not_vault t slot :
  export_slot t = Some slot -> String.eqb (library_name t) "vault" = false.
Proof.
  unfold export_slot. destruct (re_search_trailing_digits _); [| discriminate].
  destruct (String.eqb (library_name t) "vault"); [discriminate | reflexivity].
Qed.


(** One tape of the pipeline: the list it is filed in and what is done
    to the outside are decided by the replies. *)
Lemma reclaim_tape_trace self t b w :
  exists w',
    reclaim_tape self t b w =
      (match fst (fst (pipeline_step self t (ssh_replies w) (proc_replies w))) with
       | Ok o => Ok (record_outcome t o b)
       | Raise e => Raise e
       end, w') /\
    advanced w w'
      (snd (fst (pipeline_step self t (ssh_replies w) (proc_replies w))))
      (snd (pipeline_step self t (ssh_replies w) (proc_replies w)))
      (pipeline_events self t (ssh_replies w) (proc_replies w)).
Proof.
  unfold reclaim_tape, pipeline_step, pipeline_events. fold (head_proc w).
  pose proof (advanced_refl w) as Hadv.
  step_log Hadv.
  destruct (run_nsrmm_command_trace
              [Some "nsrmm"; Some "-d"; Some (barcode t)] _ w0 eq_refl)
    as (w1 & E & H1).
  rewrite (head_proc_same _ _ _ _ Hadv) in E, H1.
  fold (delete_argv t) in H1.
  destruct (nsrmm_outcome (head_proc w)) as [[|] | e].
  3:{ rewrite (bind_raised _ _ _ _ _ E). chain Hadv H1. cbn [fst snd]. adone Hadv. }
  2:{ rewrite (bind_run _ _ _ _ _ E). chain Hadv H1. step_sleep Hadv.
      rewrite bind_ret. step_log Hadv. cbn [fst snd]. adone Hadv. }
  rewrite (bind_run _ _ _ _ _ E). chain Hadv H1. step_sleep Hadv.
  rewrite bind_assoc. step_log Hadv. rewrite bind_assoc.
  destruct (export_slot t) as [slot |] eqn:Hslot.
  2:{ rewrite (bind_run _ _ _ _ _ (export_tape_from_library_none self t w3 Hslot)).
      rewrite bind_ret. step_log Hadv. cbn [fst snd]. adone Hadv. }
  pose proof (export_slot_not_vault t slot Hslot) as Hlib.
  ssh_stage (export_tape_from_library self t)
            (fun w => export_tape_from_library_slot self t slot w Hslot) Hadv.
  fold (export_command t slot) in Hadv.
  destruct (ssh_ok (nth 0 (ssh_replies w) no_reply)); cbn [negb].
  2:{ rewrite bind_ret. step_log Hadv. cbn [fst snd]. adone Hadv. }
  rewrite bind_assoc.
  ssh_stage (execute_tape_remove_commmand self t)
            (execute_tape_remove_commmand_spec self t) Hadv.
  fold (remove_command self t) in Hadv.
  destruct (ssh_ok (nth 1 (ssh_replies w) no_reply)); cbn [negb].
  2:{ rewrite bind_ret. step_log Hadv. cbn [fst snd]. adone Hadv. }
  rewrite bind_assoc.
  destruct (capacity t) as [n | e] eqn:Hcap.
  2:{ match goal with
      | |- context [bind (create_tape self t) _ ?w] =>
          rewrite (bind_raised _ _ _ _ _ (create_tape_raises self t e w Hcap))
      end.
      cbn [fst snd]. adone Hadv. }
  ssh_stage (create_tape self t) (create_tape_spec self t n Hcap) Hadv.
  fold (create_command self t n) in Hadv.
  destruct (ssh_ok (nth 2 (ssh_replies w) no_reply)); cbn [negb].
  2:{ rewrite bind_ret. step_log Hadv. cbn [fst snd]. adone Hadv. }
  rewrite bind_assoc.
  ssh_stage (import_tape_from_library self t)
            (import_tape_from_library_spec self t Hlib) Hadv.
  fold (import_command self t) in Hadv.
  destruct (ssh_ok (nth 3 (ssh_replies w) no_reply)); cbn [negb].
  2:{ rewrite bind_ret. step_log Hadv. cbn [fst snd]. adone Hadv. }
  rewrite bind_assoc. step_sleep Hadv.
  rewrite bind_assoc. step_log Hadv. rewrite bind_assoc.
  destruct (jukebox_name self) as [j |] eqn:Hj.
  2:{ match goal with
      | |- context [bind (run_nsrjb_command ?c) ?k ?w] =>
          rewrite (bind_raised (run_nsrjb_command c) k w
                     (TypeError "sequence item 3: expected str instance, NoneType found") w eq_refl)
      end.
      cbn [fst snd]. adone Hadv. }
  match goal with
  | |- context [bind (run_nsrjb_command ?c) _ ?w] =>
      pose proof (head_proc_advanced _ _ _ _ _ Hadv) as Hp; cbn [Nat.add] in Hp;
      destruct (run_nsrjb_command_trace c _ w eq_refl) as (w' & E2 & H2);
      rewrite Hp in E2, H2
  end.
  fold (label_argv self t j) in H2.
  replace (nth 1 (proc_replies w) no_tool) with (hd no_tool (tl (proc_replies w)))
    in E2, H2 by (destruct (proc_replies w) as [| ? [| ? ?]]; reflexivity).
  destruct (nsrjb_outcome (hd no_tool (tl (proc_replies w)))) as [labeling | e].
  2:{ rewrite (bind_raised _ _ _ _ _ E2). chain Hadv H2. cbn [fst snd]. adone Hadv. }
  rewrite (bind_run _ _ _ _ _ E2). chain Hadv H2.
  rewrite bind_assoc.
  destruct labeling.
  - step_log Hadv. rewrite bind_ret. step_log Hadv. cbn [fst snd]. adone Hadv.
  - rewrite bind_ret, bind_ret. step_log Hadv. cbn [fst snd]. adone Hadv.
Qed.

(** A batch: the lists and the events are those of its tapes, one after
    the other, up to the first exception. *)
Lemma reclaim_loop_trace self tapes :
  forall b w, exists w',
    reclaim_loop self tapes b w =
      (match batch_outcomes self tapes (ssh_replies w) (proc_replies w) with
       | Ok os => Ok (record_all tapes os b)
       | Raise e => Raise e
       end, w') /\
    events w' = (events w ++ batch_events self tapes (ssh_replies w) (proc_replies w))%list.
Proof.
  induction tapes as [| t rest IH]; intros b w;
    cbn [reclaim_loop batch_outcomes batch_events].
  - exists w. split; [reflexivity | now rewrite app_nil_r].
  - destruct (reclaim_tape_trace self t b w) as (w1 & E & Hadv).
    destruct (pipeline_step self t (ssh_replies w) (proc_replies w)) as [[[o | e] n] m];
      cbn [fst snd] in E, Hadv.
    + rewrite (bind_run _ _ _ _ _ E).
      destruct (IH (record_outcome t o b) w1) as (w2 & E2 & Hev).
      destruct Hadv as (Hs & Hp & He). rewrite Hs, Hp in E2, Hev.
      exists w2. rewrite E2. split.
      * destruct (batch_outcomes self rest _ _); reflexivity.
      * rewrite Hev, He. now rewrite app_assoc.
    + rewrite (bind_raised _ _ _ _ _ E). exists w1. split; [reflexivity |].
      destruct Hadv as (_ & _ & He). now rewrite app_nil_r.
Qed.

Lemma run_log_failed first last l w :
  exists w', log_failed first last l w = (Ok tt, w') /\ advanced w w' 0 0 [].
Proof.
  unfold log_failed. destruct (0 <? Z.of_nat (List.length l)).
  - pose proof (advanced_refl w) as Hadv.
    step_log Hadv. step_log Hadv. step_log Hadv. adone Hadv.
  - exists w. split; [reflexivity | apply advanced_refl].
Qed.

(** [remove_retention_locked_tapes] on a list that is not empty: it runs
    the batch and stores the success list of the batch. *)
Lemma remove_retention_locked_tapes_spec self w :
  retention_locked_tape_list self <> [] ->
  (forall b w1,
      reclaim_loop self (retention_locked_tape_list self) no_buckets w = (Ok b, w1) ->
      exists w',
        remove_retention_locked_tapes self w
        = (Ok (set_created_tapes self (created b)), w') /\
        advanced w1 w' 0 0 []) /\
  (forall e w1,
      reclaim_loop self (retention_locked_tape_list self) no_buckets w = (Raise e, w1) ->
      remove_retention_locked_tapes self w = (Raise e, w1)).
Proof.
  intros Hne. unfold remove_retention_locked_tapes.
  rewrite (length_positive _ Hne). split.
  - intros b w1 E. rewrite (bind_run _ _ _ _ _ E).
    pose proof (advanced_refl w1) as Hadv.
    repeat match goal with
           | |- context [bind (log_failed ?q_a ?q_b ?q_l) _ _] =>
               step_over (log_failed q_a q_b q_l) (run_log_failed q_a q_b q_l) Hadv
           end.
    adone Hadv.
  - intros e w1 E. now rewrite (bind_raised _ _ _ _ _ E).
Qed.

Lemma pipeline_step_never_label self t sr pr :
  fst (fst (pipeline_step self t sr pr)) <> Ok (FailedAt Label).
Proof.
  unfold pipeline_step.
  repeat match goal with
         | |- context [match ?x with _ => _ end] => destruct x; cbn [fst snd]
         end; discriminate.
Qed.

Lemma pipeline_step_uses self t sr pr :
  (snd (pipeline_step self t sr pr) <= 2)%nat.
Proof.
  unfold pipeline_step.
  repeat match goal with
         | |- context [match ?x with _ => _ end] => destruct x; cbn [fst snd]
         end; lia.
Qed.

Lemma export_slot_none_iff t :
  export_slot t = None <->
  re_search_trailing_digits (location t) = None \/ library_name t = "vault".
Proof.
  unfold export_slot.
  destruct (re_search_trailing_digits (location t)) as [slot |].
  - destruct (String.eqb_spec (library_name t) "vault") as [-> | Hne]; cbn.
    + split; auto.
    + split; [discriminate |]. intros [[=] | H]; congruence.
  - split; auto.
Qed.

Lemma pipeline_step_delete self t sr pr :
  fst (fst (pipeline_step self t sr pr)) = Ok (FailedAt CatalogDelete) <->
  nsrmm_outcome (hd no_tool pr) = Ok false.
Proof.
  unfold pipeline_step.
  destruct (nsrmm_outcome (hd no_tool pr)) as [[|] | e]; cbn [fst].
  - split; [| discriminate].
    repeat match goal with
           | |- context [match ?x with _ => _ end] => destruct x; cbn [fst snd]
           end; discriminate.
  - split; reflexivity.
  - split; discriminate.
Qed.

Lemma record_outcome_delete_list t o b :
  failed_tape_while_delete_on_networker (record_outcome t o b) =
    match o with
    | FailedAt CatalogDelete => (failed_tape_while_delete_on_networker b ++ [t])%list
    | _ => failed_tape_while_delete_on_networker b
    end.
Proof. destruct o as [| []]; reflexivity. Qed.

(** A list and the list with one more element differ. *)
Lemma snoc_differs {A} (l : list A) (x : A) : l <> (l ++ [x])%list.
Proof.
  intros Hl. apply (f_equal (@List.length _)) in Hl.
  rewrite length_app in Hl. cbn in Hl. lia.
Qed.

Lemma nsrmm_outcome_false r :
  nsrmm_outcome r = Ok false <->
  exists rc, r = ProcSpawnRaised (CalledProcessError rc) \/
             r = ProcIORaised (CalledProcessError rc).
Proof.
  destruct r as [? ? ? | ? ? ? | e | e]; cbn.
  - split; [discriminate | intros (? & [[=] | [=]])].
  - split; [discriminate | intros (? & [[=] | [=]])].
  - destruct e; (split; [try discriminate | intros (? & [[=] | [=]]); try reflexivity]).
    intros _. eauto.
  - destruct e; (split; [try discriminate | intros (? & [[=] | [=]]); try reflexivity]).
    intros _. eauto.
Qed.

(** C10 (amended). When the delete tool has been started, is still there
    when the answer is written to it 50 s later and then runs to
    completion, [run_nsrmm_command] answers true whatever the tool wrote
    to standard error and whatever its exit status: the error output is
    only logged.  When the tool has already exited by then, writing the
    answer raises [BrokenPipeError], which is not handled: the helper
    raises, and so does the pipeline, which files the tape nowhere.  The
    helper answers false exactly when starting or talking to the tool
    raised [CalledProcessError], and the pipeline files a tape in the
    CatalogDelete failure list exactly in that case. *)
Theorem nsrmm_true_when_the_answer_is_taken command argv w :
  str_items command = Ok argv ->
  (forall stdout stderr returncode,
      head_proc w = ProcCompleted stdout stderr returncode ->
      exists w',
        run_nsrmm_command command w = (Ok true, w') /\
        stepped w w' 0 1 [EvProc argv; EvSleep 50; EvStdin ("y" ++ newline)]
          ([LogMsg ("Networker: Executing delete command : " ++ join " " argv);
            LogMsg "Deleting inprogress";
            LogMsg ("Command output:" ++ newline ++ stdout)]
           ++ (if is_empty stderr then []
               else [LogMsg ("Error occurred while deleting volume:" ++ newline
                             ++ stderr)]))) /\
  (forall stdout stderr returncode,
      head_proc w = ProcExited stdout stderr returncode ->
      (exists w',
         run_nsrmm_command command w
         = (Raise (BrokenPipeError "[Errno 32] Broken pipe"), w') /\
         advanced w w' 0 1 [EvProc argv; EvSleep 50]) /\
      forall self t b, exists w',
        reclaim_tape self t b w
        = (Raise (BrokenPipeError "[Errno 32] Broken pipe"), w') /\
        advanced w w' 0 1 [EvProc ["nsrmm"; "-d"; barcode t]; EvSleep 50]) /\
  (returns (run_nsrmm_command command) w false <->
   exists rc, head_proc w = ProcSpawnRaised (CalledProcessError rc) \/
              head_proc w = ProcIORaised (CalledProcessError rc)) /\
  (forall self t b b' w',
      reclaim_tape self t b w = (Ok b', w') ->
      (failed_tape_while_delete_on_networker b'
       = (failed_tape_while_delete_on_networker b ++ [t])%list <->
       exists rc, head_proc w = ProcSpawnRaised (CalledProcessError rc) \/
                  head_proc w = ProcIORaised (CalledProcessError rc)) /\
      (failed_tape_while_delete_on_networker b'
       = failed_tape_while_delete_on_networker b \/
       failed_tape_while_delete_on_networker b'
       = (failed_tape_while_delete_on_networker b ++ [t])%list)).
Proof.
  intros Hargv.
  destruct (run_nsrmm_command_trace command argv w Hargv) as (w1 & E & Hev).
  pose proof (nsrmm_outcome_false (head_proc w)) as Hfalse.
  split; [| split; [| split]].
  - intros out err rc Hh. clear E Hev w1.
    unfold run_nsrmm_command. rewrite Hargv, bind_lift_ok.
    pose proof (stepped_refl w) as Hst.
    tstep_log Hst. tstep_log Hst. tstep_emit Hst.
    pose proof (head_proc_stepped _ _ _ _ _ Hst) as Hhead.
    tstep_proc Hst. rewrite Hhead, Hh.
    tstep_sleep Hst. tstep_emit Hst. tstep_log Hst.
    destruct err as [| c err']; cbn [is_empty negb].
    + rewrite (bind_run (ret tt) _ _ tt _ eq_refl). tdone Hst.
    + tstep_log Hst. tdone Hst.
  - intros out err rc Hh. rewrite Hh in E, Hev. split; [eauto |].
    intros self t b.
    destruct (reclaim_tape_trace self t b w) as (w2 & E2 & H2).
    unfold pipeline_step, pipeline_events in E2, H2. fold (head_proc w) in E2, H2.
    rewrite Hh in E2, H2. cbn in E2, H2. eauto.
  - unfold returns. rewrite E. cbn [fst]. exact Hfalse.
  - intros self t b b' w' Erec.
    destruct (reclaim_tape_trace self t b w) as (w2 & E2 & _).
    rewrite E2 in Erec. clear E2.
    pose proof (pipeline_step_delete self t (ssh_replies w) (proc_replies w)) as Hdel.
    fold (head_proc w) in Hdel. rewrite Hfalse in Hdel.
    destruct (fst (fst (pipeline_step self t (ssh_replies w) (proc_replies w))))
      as [o | e]; [| discriminate].
    injection Erec as <- _. rewrite record_outcome_delete_list.
    destruct o as [| []];
      try (split; [split; [intros Hx; exfalso; exact (snoc_differs _ _ Hx)
                          | intros Hx; apply Hdel in Hx; discriminate]
                  | left; reflexivity]).
    split; [split; [intros _; now apply Hdel | reflexivity] | right; reflexivity].
Qed.

Lemma nsrmm_true_when_the_answer_is_taken_witness :
  str_items [Some "nsrmm"; Some "-d"; Some "A55157LA"] = Ok ["nsrmm"; "-d"; "A55157LA"] /\
  (exists w',
     run_nsrmm_command [Some "nsrmm"; Some "-d"; Some "A55157LA"]
       (mkworld [] [ProcCompleted "" "nsrmm: volume not found" 1] [] [])
     = (Ok true, w') /\
     logs w'
     = [LogMsg "Networker: Executing delete command : nsrmm -d A55157LA";
        LogMsg "Deleting inprogress";
        LogMsg ("Command output:" ++ newline);
        LogMsg ("Error occurred while deleting volume:" ++ newline
                ++ "nsrmm: volume not found")]) /\
  (exists w',
     run_nsrmm_command [Some "nsrmm"; Some "-d"; Some "A55157LA"]
       (mkworld [] [Examples.early_exit] [] [])
     = (Raise (BrokenPipeError "[Errno 32] Broken pipe"), w') /\
     advanced (mkworld [] [Examples.early_exit] [] []) w' 0 1
       [EvProc ["nsrmm"; "-d"; "A55157LA"]; EvSleep 50]).
Proof.
  split; [reflexivity |]. split.
  - destruct (nsrmm_true_when_the_answer_is_taken
                [Some "nsrmm"; Some "-d"; Some "A55157LA"] ["nsrmm"; "-d"; "A55157LA"]
                (mkworld [] [ProcCompleted "" "nsrmm: volume not found" 1] [] [])
                eq_refl) as [Hcompleted _].
    destruct (Hcompleted "" "nsrmm: volume not found" 1 eq_refl) as (w' & E & _ & Hl).
    exists w'. split; [exact E | exact Hl].
  - destruct (nsrmm_true_when_the_answer_is_taken
                [Some "nsrmm"; Some "-d"; Some "A55157LA"] ["nsrmm"; "-d"; "A55157LA"]
                (mkworld [] [Examples.early_exit] [] [])
                eq_refl) as (_ & Hexited & _).
    destruct (Hexited "" "nsrmm: volume not found" 1 eq_refl) as [H _]. exact H.
Defined.

(** C10, as stated, fails: the delete tool is started and runs to
    completion, with exit status 1 and a message on standard error, but
    it has exited before the answer is written; the helper does not
    answer true, it raises, and the batch ends with the first tape filed
    nowhere and the second tape untouched. *)
Lemma nsrmm_early_exit_raises_counterexample :
  run_nsrmm_command [Some "nsrmm"; Some "-d"; Some "A55157LA"]
    (mkworld [] [Examples.early_exit] [] [])
  = (Raise (BrokenPipeError "[Errno 32] Broken pipe"),
     mkworld [] []
       [EvProc ["nsrmm"; "-d"; "A55157LA"]; EvSleep 50]
       [LogMsg "Networker: Executing delete command : nsrmm -d A55157LA";
        LogMsg "Deleting inprogress"]) /\
  fst (reclaim_loop (Examples.reset_object []) [Examples.expired; Examples.in_vault]
         no_buckets
         (mkworld [Examples.fine; Examples.fine; Examples.fine; Examples.fine]
            [Examples.early_exit; Examples.exited 0; Examples.exited 0] [] []))
  = Raise (BrokenPipeError "[Errno 32] Broken pipe") /\
  events (snd (reclaim_loop (Examples.reset_object [])
                 [Examples.expired; Examples.in_vault] no_buckets
                 (mkworld [Examples.fine; Examples.fine; Examples.fine; Examples.fine]
                    [Examples.early_exit; Examples.exited 0; Examples.exited 0] [] [])))
  = [EvProc ["nsrmm"; "-d"; "A55157LA"]; EvSleep 50].
Proof. repeat split; vm_compute; reflexivity. Qed.

(** *** The Export stage *)

(** C5 (amended). For a tape whose location does not end in a slot number,
    or whose library is "vault", the Export stage issues no command and
    answers neither true nor false; the pipeline then files the tape in
    the Export failure list and skips the later stages: after the
    delete tool and the wait of 60 nothing more is done for the tape.
    For a tape with a slot number in another library the stage issues
    "vtl export <library> slot <n>" and succeeds exactly when that
    command succeeds; when it fails the tape is filed in the Export
    failure list and the later stages are skipped.  The Import stage
    answers false for a vault library without issuing a command. *)
Theorem export_stage_behaviour self t w :
  (re_search_trailing_digits (location t) = None \/ library_name t = "vault" ->
   export_tape_from_library self t w = (Ok None, w) /\
   forall b stdout stderr returncode,
     head_proc w = ProcCompleted stdout stderr returncode ->
     exists w',
       reclaim_tape self t b w
       = (Ok (mkbuckets (created b)
                (failed_tape_while_export b ++ [t]) (failed_tape_while_remove b)
                (failed_tape_while_create b) (failed_tape_while_import b)
                (failed_tape_while_delete_on_networker b)), w') /\
       advanced w w' 0 1
         [EvProc ["nsrmm"; "-d"; barcode t]; EvSleep 50; EvStdin ("y" ++ newline);
          EvSleep 60]) /\
  (forall slot,
     re_search_trailing_digits (location t) = Some slot ->
     library_name t <> "vault" ->
     (exists w',
        export_tape_from_library self t w = (Ok (Some (ssh_ok (head_ssh w))), w') /\
        advanced w w' 1 0
          [EvSsh (instance self) ("vtl export " ++ library_name t ++ " slot " ++ slot)]) /\
     forall b stdout stderr returncode,
       head_proc w = ProcCompleted stdout stderr returncode ->
       ssh_ok (head_ssh w) = false ->
       exists w',
         reclaim_tape self t b w
         = (Ok (mkbuckets (created b)
                  (failed_tape_while_export b ++ [t]) (failed_tape_while_remove b)
                  (failed_tape_while_create b) (failed_tape_while_import b)
                  (failed_tape_while_delete_on_networker b)), w') /\
         advanced w w' 1 1
           [EvProc ["nsrmm"; "-d"; barcode t]; EvSleep 50; EvStdin ("y" ++ newline);
            EvSleep 60;
            EvSsh (instance self)
              ("vtl export " ++ library_name t ++ " slot " ++ slot)]) /\
  (library_name t = "vault" ->
   import_tape_from_library self t w = (Ok false, w)).
Proof.
  split; [| split].
  - intros Hnone. apply export_slot_none_iff in Hnone. split.
    + now apply export_tape_from_library_none.
    + intros b out err rc Hh.
      destruct (reclaim_tape_trace self t b w) as (w1 & E & H1).
      unfold pipeline_step, pipeline_events in E, H1. fold (head_proc w) in E, H1.
      rewrite Hh, Hnone in E, H1. cbn in E, H1. eauto.
  - intros slot Hslot Hlib.
    assert (Hs : export_slot t = Some slot).
    { unfold export_slot. rewrite Hslot.
      destruct (String.eqb_spec (library_name t) "vault"); [contradiction | reflexivity]. }
    split; [exact (export_tape_from_library_slot self t slot w Hs) |].
    intros b out err rc Hh Hfail.
    destruct (reclaim_tape_trace self t b w) as (w1 & E & H1).
    unfold pipeline_step, pipeline_events in E, H1. fold (head_proc w) in E, H1.
    rewrite Hh, Hs in E, H1.
    replace (nth 0 (ssh_replies w) no_reply) with (head_ssh w) in E, H1
      by (unfold head_ssh; now destruct (ssh_replies w)).
    rewrite Hfail in E, H1. cbn in E, H1. eauto.
  - intros Hlib. apply import_tape_from_library_vault. rewrite Hlib. reflexivity.
Qed.

Lemma export_stage_behaviour_witness :
  (re_search_trailing_digits (location Examples.in_vault) = None) /\
  (exists w', reclaim_tape (Examples.reset_object []) Examples.in_vault no_buckets
                Examples.all_fine
              = (Ok (mkbuckets [] [Examples.in_vault] [] [] [] []), w') /\
              events w'
              = [EvProc ["nsrmm"; "-d"; "A55158LA"]; EvSleep 50; EvStdin ("y" ++ newline);
                 EvSleep 60]) /\
  (exists w', export_tape_from_library (Examples.reset_object []) Examples.expired
                Examples.all_fine = (Ok (Some true), w') /\
              events w' = [EvSsh "dd01" "vtl export Pool_TEST slot 667"]) /\
  (exists w', reclaim_tape (Examples.reset_object []) Examples.expired no_buckets
                (mkworld [Examples.refused] [Examples.exited 0] [] [])
              = (Ok (mkbuckets [] [Examples.expired] [] [] [] []), w') /\
              events w'
              = [EvProc ["nsrmm"; "-d"; "A55157LA"]; EvSleep 50; EvStdin ("y" ++ newline);
                 EvSleep 60; EvSsh "dd01" "vtl export Pool_TEST slot 667"]) /\
  import_tape_from_library (Examples.reset_object []) Examples.in_vault Examples.all_fine
    = (Ok false, Examples.all_fine).
Proof.
  split; [reflexivity |]. split; [| split; [| split]].
  - destruct (export_stage_behaviour (Examples.reset_object []) Examples.in_vault
                Examples.all_fine) as [Hnone _].
    destruct (Hnone (or_introl eq_refl)) as [_ Hrec].
    destruct (Hrec no_buckets EmptyString EmptyString 0 eq_refl) as (w' & E & _ & _ & Hev).
    exists w'. split; [exact E | exact Hev].
  - destruct (export_stage_behaviour (Examples.reset_object []) Examples.expired
                Examples.all_fine) as (_ & Hslot & _).
    destruct (Hslot "667" eq_refl ltac:(discriminate)) as [(w' & E & _ & _ & Hev) _].
    exists w'. split; [exact E | exact Hev].
  - destruct (export_stage_behaviour (Examples.reset_object []) Examples.expired
                (mkworld [Examples.refused] [Examples.exited 0] [] [])) as (_ & Hslot & _).
    destruct (Hslot "667" eq_refl ltac:(discriminate)) as [_ Hfail].
    destruct (Hfail no_buckets EmptyString EmptyString 0 eq_refl eq_refl)
      as (w' & E & _ & _ & Hev).
    exists w'. split; [exact E | exact Hev].
  - destruct (export_stage_behaviour (Examples.reset_object []) Examples.in_vault
                Examples.all_fine) as (_ & _ & Hvault).
    apply Hvault. reflexivity.
Defined.

(** C5, as stated, fails: a tape in the vault, and a tape whose location
    has no slot number, both end in the Export failure list, although
    the delete tool ran and every remote command would have succeeded;
    no export command is issued for them. *)
Lemma export_no_slot_is_a_failure_counterexample :
  export_slot Examples.in_vault = None /\
  export_slot Examples.no_slot = None /\
  failed_tape_while_export
    (match fst (reclaim_loop (Examples.reset_object [])
                  [Examples.in_vault; Examples.no_slot] no_buckets Examples.all_fine)
     with Ok b => b | Raise _ => no_buckets end)
  = [Examples.in_vault; Examples.no_slot] /\
  events (snd (reclaim_loop (Examples.reset_object [])
                 [Examples.in_vault; Examples.no_slot] no_buckets Examples.all_fine))
  = [EvProc ["nsrmm"; "-d"; "A55158LA"]; EvSleep 50; EvStdin ("y" ++ newline); EvSleep 60;
     EvProc ["nsrmm"; "-d"; "A55159LA"]; EvSleep 50; EvStdin ("y" ++ newline); EvSleep 60].
Proof. repeat split; vm_compute; reflexivity. Qed.

(** *** The Label stage *)

(** C4 (amended). For a tape whose CatalogDelete, Export, Remove, Create
    and Import stages all succeed, when the jukebox name is configured
    and the label tool is started and exits, the label command is run
    and the tape is then filed in the success list whatever the tool's
    exit status, every failure list being left as it was; the success
    list of the batch is what [remove_retention_locked_tapes] stores in
    [created_tapes].  When the jukebox name is missing, or the label
    tool cannot be run, the label helper raises after the tape has been
    imported: the tape is filed nowhere and [created_tapes] is not
    written.  Whatever happens, no tape is filed as a Label failure. *)
Theorem label_result_not_consulted self t b w :
  (forall o1 e1 rc1 p2 prest s1 s2 s3 s4 srest slot n,
      proc_replies w = ProcCompleted o1 e1 rc1 :: p2 :: prest ->
      ssh_replies w = s1 :: s2 :: s3 :: s4 :: srest ->
      export_slot t = Some slot -> ssh_ok s1 = true ->
      ssh_ok s2 = true ->
      capacity t = Ok n -> ssh_ok s3 = true ->
      ssh_ok s4 = true ->
      let done_so_far :=
        [EvProc ["nsrmm"; "-d"; barcode t]; EvSleep 50; EvStdin ("y" ++ newline);
         EvSleep 60;
         EvSsh (instance self) (export_command t slot);
         EvSsh (instance self) (remove_command self t);
         EvSsh (instance self) (create_command self t n);
         EvSsh (instance self) (import_command self t);
         EvSleep 60] in
      (forall j o2 e2 rc2,
          jukebox_name self = Some j ->
          p2 = ProcCompleted o2 e2 rc2 \/ p2 = ProcExited o2 e2 rc2 ->
          exists w',
            reclaim_tape self t b w =
              (Ok (mkbuckets (created b ++ [barcode t])
                     (failed_tape_while_export b) (failed_tape_while_remove b)
                     (failed_tape_while_create b) (failed_tape_while_import b)
                     (failed_tape_while_delete_on_networker b)), w') /\
            advanced w w' 4 2
              (done_so_far ++ EvProc (label_argv self t j)
                              :: (if rc2 =? 0 then [EvSleep 60] else []))) /\
      (jukebox_name self = None ->
       exists w',
         reclaim_tape self t b w
         = (Raise (TypeError "sequence item 3: expected str instance, NoneType found"), w') /\
         advanced w w' 4 1 done_so_far) /\
      (forall j e,
          jukebox_name self = Some j ->
          p2 = ProcSpawnRaised e \/ p2 = ProcIORaised e ->
          (forall rc, e <> CalledProcessError rc) ->
          exists w',
            reclaim_tape self t b w = (Raise e, w') /\
            advanced w w' 4 2 (done_so_far ++ [EvProc (label_argv self t j)]))) /\
  (retention_locked_tape_list self <> [] ->
   (forall b1 w1,
       reclaim_loop self (retention_locked_tape_list self) no_buckets w = (Ok b1, w1) ->
       exists w',
         remove_retention_locked_tapes self w
         = (Ok (set_created_tapes self (created b1)), w') /\
         advanced w1 w' 0 0 []) /\
   (forall e w1,
       reclaim_loop self (retention_locked_tape_list self) no_buckets w = (Raise e, w1) ->
       remove_retention_locked_tapes self w = (Raise e, w1))) /\
  (forall b' w',
      reclaim_tape self t b w = (Ok b', w') ->
      exists o, o <> FailedAt Label /\ b' = record_outcome t o b).
Proof.
  destruct (reclaim_tape_trace self t b w) as (w1 & E & H1).
  split; [| split].
  - intros o1 e1 rc1 p2 prest s1 s2 s3 s4 srest slot n
           Hp Hs Hslot Hs1 Hs2 Hcap Hs3 Hs4 done_so_far.
    unfold pipeline_step, pipeline_events in E, H1. rewrite Hp, Hs in E, H1.
    cbn [hd tl nth nsrmm_outcome nsrmm_events] in E, H1.
    rewrite Hslot, Hs1, Hs2, Hcap, Hs3, Hs4 in E, H1.
    cbn [negb app delete_argv] in E, H1.
    split; [| split].
    + intros j o2 e2 rc2 Hj Hp2. rewrite Hj in E, H1.
      exists w1.
      destruct Hp2 as [-> | ->]; cbn [nsrjb_outcome nsrjb_events fst snd] in E, H1;
        (split; [exact E |]);
        destruct (rc2 =? 0); exact H1.
    + intros Hj. rewrite Hj in E, H1. cbn [fst snd] in E, H1. eauto.
    + intros j e Hj Hp2 Hne. rewrite Hj in E, H1. exists w1.
      destruct Hp2 as [-> | ->]; cbn [nsrjb_outcome nsrjb_events fst snd] in E, H1;
        (destruct e; try (split; [exact E | exact H1]); now destruct (Hne returncode)).
  - exact (remove_retention_locked_tapes_spec self w).
  - intros b' w' E'. rewrite E in E'.
    pose proof (pipeline_step_never_label self t (ssh_replies w) (proc_replies w)) as Hn.
    destruct (fst (fst (pipeline_step self t (ssh_replies w) (proc_replies w))))
      as [o | e]; [| discriminate].
    injection E' as <- _. exists o. split; [congruence | reflexivity].
Qed.

Lemma label_result_not_consulted_witness :
  (exists w',
     reclaim_tape (Examples.reset_object [Examples.expired]) Examples.expired no_buckets
       Examples.label_fails
     = (Ok (mkbuckets ["A55157LA"] [] [] [] [] []), w') /\
     events w'
     = [EvProc ["nsrmm"; "-d"; "A55157LA"]; EvSleep 50; EvStdin ("y" ++ newline);
        EvSleep 60;
        EvSsh "dd01" "vtl export Pool_TEST slot 667";
        EvSsh "dd01" "vtl tape del A55157LA pool FEB_3";
        EvSsh "dd01" "vtl tape add A55157LA capacity 5 pool FEB_3";
        EvSsh "dd01" "vtl import Pool_TEST barcode A55157LA count 1 pool FEB_3 element slot";
        EvSleep 60;
        EvProc ["nsrjb"; "-L"; "-j"; "jukebox1"; "-bFEB_3"; "-T"; "A55157LA"; "-Y"]]) /\
  (exists w',
     remove_retention_locked_tapes (Examples.reset_object [Examples.expired])
       Examples.label_fails
     = (Ok (set_created_tapes (Examples.reset_object [Examples.expired]) ["A55157LA"]),
        w')) /\
  (exists w',
     reclaim_tape (Examples.reset_object_without_jukebox [Examples.expired])
       Examples.expired no_buckets Examples.label_fails
     = (Raise (TypeError "sequence item 3: expected str instance, NoneType found"), w')) /\
  (exists w',
     reclaim_tape (Examples.reset_object [Examples.expired]) Examples.expired no_buckets
       (mkworld [Examples.fine; Examples.fine; Examples.fine; Examples.fine]
          [Examples.exited 0; no_tool] [] [])
     = (Raise (OSError "no such file"), w')) /\
  (exists o, o <> FailedAt Label /\
     mkbuckets ["A55157LA"] [] [] [] [] []
     = record_outcome Examples.expired o no_buckets).
Proof.
  destruct (label_result_not_consulted (Examples.reset_object [Examples.expired])
              Examples.expired no_buckets Examples.label_fails)
    as (Hstage & Hstore & Hnever).
  destruct (Hstage _ _ _ _ _ _ _ _ _ _ "667" 5
              eq_refl eq_refl eq_refl eq_refl eq_refl eq_refl eq_refl eq_refl)
    as (Hrun & _ & _).
  destruct (Hrun "jukebox1" EmptyString EmptyString 1 eq_refl (or_introl eq_refl))
    as (w' & E & _ & _ & Hev).
  split; [exists w'; split; [exact E | exact Hev] |].
  split.
  { destruct (Hstore ltac:(discriminate)) as [Hok _].
    destruct (Hok (mkbuckets ["A55157LA"] [] [] [] [] [])
                (snd (reclaim_loop (Examples.reset_object [Examples.expired])
                        [Examples.expired] no_buckets Examples.label_fails)))
      as (w2 & E2 & _); [vm_compute; reflexivity |].
    exists w2. exact E2. }
  split.
  { destruct (label_result_not_consulted
                (Examples.reset_object_without_jukebox [Examples.expired])
                Examples.expired no_buckets Examples.label_fails) as (Hs & _ & _).
    destruct (Hs _ _ _ _ _ _ _ _ _ _ "667" 5
                eq_refl eq_refl eq_refl eq_refl eq_refl eq_refl eq_refl eq_refl)
      as (_ & Hnone & _).
    destruct (Hnone eq_refl) as (w3 & E3 & _). exists w3. exact E3. }
  split.
  { destruct (label_result_not_consulted (Examples.reset_object [Examples.expired])
                Examples.expired no_buckets
                (mkworld [Examples.fine; Examples.fine; Examples.fine; Examples.fine]
                   [Examples.exited 0; no_tool] [] [])) as (Hs & _ & _).
    destruct (Hs _ _ _ _ _ _ _ _ _ _ "667" 5
                eq_refl eq_refl eq_refl eq_refl eq_refl eq_refl eq_refl eq_refl)
      as (_ & _ & Hraise).
    destruct (Hraise "jukebox1" (OSError "no such file") eq_refl (or_introl eq_refl)
                ltac:(discriminate)) as (w4 & E4 & _).
    exists w4. exact E4. }
  exact (Hnever _ _ E).
Defined.

(** C4, as stated, fails: with no jukebox name in the configuration
    (validation does not ask for one) the five stages of the tape succeed
    and the label helper is called, but it raises before the label tool
    is run; the tape is filed nowhere, the call of
    [remove_retention_locked_tapes] raises and [created_tapes] is not
    written.  The same happens when the label tool cannot be started. *)
Lemma label_stage_raises_counterexample :
  fst (validate_input_parameters
         (Examples.reset_object_without_jukebox [Examples.expired]) Examples.quiet)
  = Ok tt /\
  fst (remove_retention_locked_tapes
         (Examples.reset_object_without_jukebox [Examples.expired]) Examples.label_fails)
  = Raise (TypeError "sequence item 3: expected str instance, NoneType found") /\
  events (snd (remove_retention_locked_tapes
                 (Examples.reset_object_without_jukebox [Examples.expired])
                 Examples.label_fails))
  = [EvProc ["nsrmm"; "-d"; "A55157LA"]; EvSleep 50; EvStdin ("y" ++ newline);
     EvSleep 60;
     EvSsh "dd01" "vtl export Pool_TEST slot 667";
     EvSsh "dd01" "vtl tape del A55157LA pool FEB_3";
     EvSsh "dd01" "vtl tape add A55157LA capacity 5 pool FEB_3";
     EvSsh "dd01" "vtl import Pool_TEST barcode A55157LA count 1 pool FEB_3 element slot";
     EvSleep 60] /\
  fst (remove_retention_locked_tapes (Examples.reset_object [Examples.expired])
         (mkworld [Examples.fine; Examples.fine; Examples.fine; Examples.fine]
            [Examples.exited 0] [] []))
  = Raise (OSError "no such file").
Proof. repeat split; vm_compute; reflexivity. Qed.

End ResetFacts.

(** ** The two report parsers *)

Module ParserFacts.
Import Py Env Utils Spec PyFacts EnvFacts TraceFacts.

(** *** Lock-workflow parser *)

Lemma tape_record_blank line :
  forall_chars is_space line = true -> Immutable.tape_record line = None.
Proof.
  intros H. unfold Immutable.tape_record, Immutable.first_piece.
  now rewrite (split_blank_first_piece "  " line H).
Qed.

Lemma tape_record_heading line :
  Immutable.remove_heading (split "  " line) = true -> Immutable.tape_record line = None.
Proof.
  intros H. unfold Immutable.tape_record. rewrite H.
  now destruct (is_empty _).
Qed.

Lemma mem_In x l : mem x l = true <-> In x l.
Proof.
  unfold mem. rewrite existsb_exists. split.
  - intros (y & Hy & E). apply String.eqb_eq in E. now subst.
  - intros H. exists x. split; [exact H | apply String.eqb_refl].
Qed.

(** A line one of whose pieces is a heading token. *)
Lemma tape_record_heading_piece line piece :
  In piece (split "  " line) -> In piece heading -> Immutable.tape_record line = None.
Proof.
  intros Hp Hh. apply tape_record_heading. unfold Immutable.remove_heading.
  apply existsb_exists. exists piece. split; [exact Hp | now apply mem_In].
Qed.

Lemma tape_record_columns line :
  List.length (Immutable.fields (split "  " line)) <> 8%nat ->
  Immutable.tape_record line = None.
Proof.
  intros H. unfold Immutable.tape_record.
  destruct (is_empty _); [reflexivity |].
  destruct (Immutable.remove_heading _); [reflexivity |].
  destruct (_ <? 2); [reflexivity |].
  destruct (Immutable.fields (split "  " line))
    as [| ? [| ? [| ? [| ? [| ? [| ? [| ? [| ? [| ? ?]]]]]]]]]; try reflexivity.
  now contradiction H.
Qed.

(** *** Reclaim-workflow parser *)

Lemma reset_loop_header tz now line rest i acc :
  i < 3 ->
  Reset.get_tapes_by_pool_loop tz now (line :: rest) i acc
  = Reset.get_tapes_by_pool_loop tz now rest (i + 1) acc.
Proof.
  intros Hi. cbn [Reset.get_tapes_by_pool_loop].
  destruct (Z.ltb_spec 3 (i + 1)); [lia |]. cbn [andb].
  destruct (Z.leb_spec (i + 1) 3); [reflexivity | lia].
Qed.

Lemma reset_loop_footer tz now line rest i acc :
  3 <= i ->
  1 < count_char_0_2 "-"%char (Reset.first_piece (split "  " line)) ->
  Reset.get_tapes_by_pool_loop tz now (line :: rest) i acc = (acc, None).
Proof.
  intros Hi Hh. cbn [Reset.get_tapes_by_pool_loop].
  destruct (Z.ltb_spec 3 (i + 1)); [| lia].
  destruct (Z.ltb_spec 1 (count_char_0_2 "-"%char (Reset.first_piece (split "  " line))));
    [reflexivity | lia].
Qed.

Lemma index_short {A} (l : list A) (k : nat) :
  (List.length l <= k)%nat -> index l k = Raise (IndexError "list index out of range").
Proof.
  intros H. unfold index. apply nth_error_None in H. now rewrite H.
Qed.

Lemma reset_loop_short tz now line rest i acc :
  3 <= i ->
  count_char_0_2 "-"%char (Reset.first_piece (split "  " line)) <= 1 ->
  (List.length (Reset.fields (split "  " line)) < 8)%nat ->
  Reset.get_tapes_by_pool_loop tz now (line :: rest) i acc
  = (acc, Some (IndexError "list index out of range")).
Proof.
  intros Hi Hh Hlen. cbn [Reset.get_tapes_by_pool_loop].
  destruct (Z.ltb_spec 1 (count_char_0_2 "-"%char (Reset.first_piece (split "  " line))));
    [lia |]. rewrite andb_false_r.
  destruct (Z.leb_spec (i + 1) 3); [lia |].
  rewrite (index_short (Reset.fields (split "  " line)) 7) by lia.
  repeat match goal with
         | |- context [index ?l ?k] => destruct (index l k)
         end; reflexivity.
Qed.

(** The report was retrieved: the records the loop yields are stored,
    and an exception that ended the loop is logged. *)
Lemma get_tapes_by_pool_retrieved tz now self w data :
  ssh_value (head_ssh w) = Some data -> data <> EmptyString ->
  exists w',
    Reset.get_tapes_by_pool tz now self w
    = (Ok (Reset.set_retention_locked_tape_list self
             (fst (Reset.get_tapes_by_pool_loop tz now (split newline data) 0 []))), w') /\
    stepped w w' 1 0 [EvSsh (Reset.instance self) (expiry_listing_command self)]
      (expiry_listing_intro self
       ++ match snd (Reset.get_tapes_by_pool_loop tz now (split newline data) 0 []) with
          | Some e => [LogExn e]
          | None => []
          end
       ++ expiry_listing_outro
            (fst (Reset.get_tapes_by_pool_loop tz now (split newline data) 0 [])))%list.
Proof.
  intros Hdata Hne.
  unfold Reset.get_tapes_by_pool, Reset.ssh, expiry_listing_intro, expiry_listing_outro,
    expiry_listing_command.
  pose proof (stepped_refl w) as Hst.
  tstep_log Hst. tstep_log Hst.
  pose proof (head_ssh_stepped _ _ _ _ _ Hst) as Hh.
  tstep_ssh Hst. rewrite Hh, Hdata in *.
  rewrite (ImmutableFacts.ssh_log_value _ _ _ Hdata) in Hst.
  destruct data as [| c data]; [contradiction |].
  destruct (Reset.get_tapes_by_pool_loop tz now _ 0 []) as [l [e |]]; cbn [fst snd].
  - tstep_log Hst. tstep_log Hst. tstep_log Hst. tdone Hst.
  - rewrite bind_ret. tstep_log Hst. tstep_log Hst. tdone Hst.
Qed.

(** The report was not retrieved, or is empty: the failure is logged
    and an empty list is stored. *)
Lemma get_tapes_by_pool_failed tz now self w :
  ssh_value (head_ssh w) = None \/ ssh_value (head_ssh w) = Some EmptyString ->
  exists w',
    Reset.get_tapes_by_pool tz now self w
    = (Ok (Reset.set_retention_locked_tape_list self []), w') /\
    stepped w w' 1 0 [EvSsh (Reset.instance self) (expiry_listing_command self)]
      (expiry_listing_intro self
       ++ ssh_log (expiry_listing_command self) (head_ssh w)
       ++ [retrieval_failure (Reset.pool self)])%list.
Proof.
  intros Hdata.
  unfold Reset.get_tapes_by_pool, Reset.ssh, expiry_listing_intro,
    expiry_listing_command, retrieval_failure.
  pose proof (stepped_refl w) as Hst.
  tstep_log Hst. tstep_log Hst.
  pose proof (head_ssh_stepped _ _ _ _ _ Hst) as Hh.
  tstep_ssh Hst. rewrite Hh in *.
  destruct Hdata as [-> | ->]; tstep_log Hst; tdone Hst.
Qed.

(** *** Reclaim selection *)

Lemma parse_ymd_hms_whole_second s d : parse_ymd_hms s = Some d -> microsecond d = 0.
Proof.
  unfold parse_ymd_hms. intros H.
  repeat match type of H with
         | bind_opt _ _ = Some _ =>
             apply bind_opt_some in H; destruct H as (? & _ & H)
         | (let '(_, _) := ?p in _) = Some _ => destruct p
         end.
  destruct (is_empty _); [| discriminate].
  unfold build_datetime in H. destruct (valid_datetime _); [| discriminate].
  now injection H as <-.
Qed.

(** X7. The retention check answers true exactly when a lock time is
    set, it can be read, and its instant is strictly before the reading
    of the clock. *)
Lemma check_retention_date_spec tz now t :
  Reset.check_retention_date tz now t = Ok true <->
  Reset.retention_time t <> "n/a" /\
  exists d, parse_ymd_hms (Reset.retention_time t) = Some d /\
            timestamp_us tz d < timestamp_us tz now.
Proof.
  unfold Reset.check_retention_date, strptime.
  destruct (String.eqb_spec (Reset.retention_time t) "n/a") as [E | E]; cbn [negb].
  { split; [discriminate | intros [H _]; contradiction]. }
  destruct (parse_ymd_hms (Reset.retention_time t)) as [d |] eqn:Hp.
  2:{ split; [discriminate | intros (_ & d & [=] & _)]. }
  pose proof (parse_ymd_hms_whole_second _ _ Hp) as Hus.
  assert (Hts : timestamp_us tz d = int_timestamp tz d * 1000000).
  { unfold timestamp_us, int_timestamp. lia. }
  destruct (Z.ltb_spec (int_timestamp tz d * 1000000) (timestamp_us tz now)).
  - split; [intros _ | reflexivity]. split; [exact E |]. exists d. split; [reflexivity | lia].
  - split; [discriminate |]. intros (_ & d' & [= <-] & Hlt). lia.
Qed.

(** A record that does not carry the barcode TEST01L5 is selected exactly
    when it is locked and its retention has expired. *)
Lemma reclaim_selection_other_barcodes tz now line rest i acc
      t0 t1 t2 t3 t4 t5 t6 t7 more :
  3 <= i ->
  count_char_0_2 "-"%char (Reset.first_piece (split "  " line)) <= 1 ->
  Reset.fields (split "  " line) = t0 :: t1 :: t2 :: t3 :: t4 :: t5 :: t6 :: t7 :: more ->
  t0 <> "TEST01L5" ->
  let t := Reset.mktape t0 t1 t2 t3 t4 t7 in
  Reset.get_tapes_by_pool_loop tz now (line :: rest) i acc =
    match Reset.check_retention_date tz now t with
    | Raise e => (acc, Some e)
    | Ok expired =>
        Reset.get_tapes_by_pool_loop tz now rest (i + 1)
          (if Reset.check_state t && expired then acc ++ [t] else acc)
    end.
Proof.
  intros Hi Hh Hf Hne t. cbn [Reset.get_tapes_by_pool_loop].
  destruct (Z.ltb_spec 1 (count_char_0_2 "-"%char (Reset.first_piece (split "  " line))));
    [lia |]. rewrite andb_false_r.
  destruct (Z.leb_spec (i + 1) 3); [lia |].
  rewrite Hf. cbn [index nth_error Reset.barcode].
  destruct (String.eqb_spec t0 "TEST01L5"); [contradiction |].
  fold t. destruct (Reset.check_retention_date tz now t) as [r | e]; [| reflexivity].
  destruct (Reset.check_state t && r); reflexivity.
Qed.

(** C6 (amended). The lock-workflow parser drops a blank line, a line
    one of whose two-blank-separated pieces is a token of its heading
    list, and a line that does not have 8 columns, and goes on with the
    following lines; when classifying a record raises, the loop ends,
    the message is logged after what the usage test logged, and the
    records built so far are kept.  The loop never raises: [get_tapes]
    stores what it yields and logs it between its two banners.  The
    reclaim-workflow parser skips the first three lines by position,
    stops without error at the first later line that starts with two
    hyphens, and stops with the records built so far on a later line
    with fewer than 8 columns (a blank line included) or with an
    unreadable retention time; [get_tapes_by_pool] logs the exception
    and stores the records built so far.  When the report is empty or
    cannot be retrieved, both log the failure after the error of the
    command; [get_tapes] returns an empty list and leaves the stored
    list as it was, [get_tapes_by_pool] stores an empty list. *)
Theorem parsers_keep_the_records_so_far tz now :
  (forall self line rest acc w,
      forall_chars is_space line = true \/
      (exists piece, In piece (split "  " line) /\ In piece heading) \/
      List.length (Immutable.fields (split "  " line)) <> 8%nat ->
      Immutable.get_tapes_loop tz now self (line :: rest) acc w
      = Immutable.get_tapes_loop tz now self rest acc w) /\
  (forall self line t rest acc w e,
      Immutable.tape_record line = Some t ->
      raises (Immutable.eligible tz now self t) w e ->
      Immutable.get_tapes_loop tz now self (line :: rest) acc w
      = (Ok acc, logged w (decision_logs tz self t ++ [LogMsg (str_of_exn e)])%list)) /\
  (forall self lines acc w,
      Immutable.get_tapes_loop tz now self lines acc w
      = (Ok (fst (selection tz now self lines acc)),
         logged w (snd (selection tz now self lines acc)))) /\
  (forall self w data,
      ssh_value (head_ssh w) = Some data -> data <> EmptyString ->
      exists w',
        Immutable.get_tapes tz now self w
        = (Ok (Immutable.set_tape_list self
                 (fst (selection tz now self (split newline data) [])), None), w') /\
        stepped w w' 1 0
          [EvSsh (fmt (Immutable.instance self)) (listing_command self)]
          (listing_intro self
           ++ snd (selection tz now self (split newline data) [])
           ++ listing_outro (fst (selection tz now self (split newline data) [])))%list) /\
  (forall self w,
      ssh_value (head_ssh w) = None \/ ssh_value (head_ssh w) = Some EmptyString ->
      exists w',
        Immutable.get_tapes tz now self w = (Ok (self, Some []), w') /\
        stepped w w' 1 0
          [EvSsh (fmt (Immutable.instance self)) (listing_command self)]
          (listing_intro self
           ++ ssh_log (listing_command self) (head_ssh w)
           ++ [retrieval_failure (fmt (Immutable.pool self))])%list) /\
  (forall line rest i acc,
      i < 3 ->
      Reset.get_tapes_by_pool_loop tz now (line :: rest) i acc
      = Reset.get_tapes_by_pool_loop tz now rest (i + 1) acc) /\
  (forall line rest i acc,
      3 <= i ->
      1 < count_char_0_2 "-"%char (Reset.first_piece (split "  " line)) ->
      Reset.get_tapes_by_pool_loop tz now (line :: rest) i acc = (acc, None)) /\
  (forall line rest i acc,
      3 <= i ->
      count_char_0_2 "-"%char (Reset.first_piece (split "  " line)) <= 1 ->
      (List.length (Reset.fields (split "  " line)) < 8)%nat ->
      Reset.get_tapes_by_pool_loop tz now (line :: rest) i acc
      = (acc, Some (IndexError "list index out of range"))) /\
  (forall line rest i acc t0 t1 t2 t3 t4 t5 t6 t7 more e,
      3 <= i ->
      count_char_0_2 "-"%char (Reset.first_piece (split "  " line)) <= 1 ->
      Reset.fields (split "  " line)
      = t0 :: t1 :: t2 :: t3 :: t4 :: t5 :: t6 :: t7 :: more ->
      t0 <> "TEST01L5" ->
      Reset.check_retention_date tz now (Reset.mktape t0 t1 t2 t3 t4 t7) = Raise e ->
      Reset.get_tapes_by_pool_loop tz now (line :: rest) i acc = (acc, Some e)) /\
  (forall self w data,
      ssh_value (head_ssh w) = Some data -> data <> EmptyString ->
      exists w',
        Reset.get_tapes_by_pool tz now self w
        = (Ok (Reset.set_retention_locked_tape_list self
                 (fst (Reset.get_tapes_by_pool_loop tz now (split newline data) 0 []))),
           w') /\
        stepped w w' 1 0 [EvSsh (Reset.instance self) (expiry_listing_command self)]
          (expiry_listing_intro self
           ++ match snd (Reset.get_tapes_by_pool_loop tz now (split newline data) 0 []) with
              | Some e => [LogExn e]
              | None => []
              end
           ++ expiry_listing_outro
                (fst (Reset.get_tapes_by_pool_loop tz now (split newline data) 0 [])))%list) /\
  (forall self w,
      ssh_value (head_ssh w) = None \/ ssh_value (head_ssh w) = Some EmptyString ->
      exists w',
        Reset.get_tapes_by_pool tz now self w
        = (Ok (Reset.set_retention_locked_tape_list self []), w') /\
        stepped w w' 1 0 [EvSsh (Reset.instance self) (expiry_listing_command self)]
          (expiry_listing_intro self
           ++ ssh_log (expiry_listing_command self) (head_ssh w)
           ++ [retrieval_failure (Reset.pool self)])%list).
Proof.
  repeat apply conj.
  - intros self line rest acc w H. cbn [Immutable.get_tapes_loop].
    destruct H as [H | [(piece & Hp & Hh) | H]].
    + now rewrite (tape_record_blank line H).
    + now rewrite (tape_record_heading_piece line piece Hp Hh).
    + now rewrite (tape_record_columns line H).
  - intros self line t rest acc w e Hrec Hraise. cbn [Immutable.get_tapes_loop].
    rewrite Hrec. unfold raises in Hraise.
    rewrite ImmutableFacts.eligible_eq in Hraise |- *. cbn [fst] in Hraise.
    rewrite Hraise.
    rewrite (bind_run _ _ _ _ _ (ImmutableFacts.log_message_eq _ _)). cbn [ret].
    now rewrite ImmutableFacts.logged_logged.
  - intros. apply ImmutableFacts.get_tapes_loop_eq.
  - intros. now apply ImmutableFacts.get_tapes_retrieved.
  - intros. now apply ImmutableFacts.get_tapes_failed.
  - intros. now apply reset_loop_header.
  - intros. now apply reset_loop_footer.
  - intros. now apply reset_loop_short.
  - intros line rest i acc t0 t1 t2 t3 t4 t5 t6 t7 more e Hi Hh Hf Hne He.
    rewrite (reclaim_selection_other_barcodes tz now line rest i acc
               t0 t1 t2 t3 t4 t5 t6 t7 more Hi Hh Hf Hne).
    now rewrite He.
  - intros. now apply get_tapes_by_pool_retrieved.
  - intros. now apply get_tapes_by_pool_failed.
Qed.

Lemma parsers_keep_the_records_so_far_witness :
  (forall_chars is_space "   " = true /\
   Immutable.get_tapes_loop 0 Examples.now (Examples.lock_object [])
     ["   "; Examples.written_today_line] [] Examples.quiet
   = Immutable.get_tapes_loop 0 Examples.now (Examples.lock_object [])
       [Examples.written_today_line] [] Examples.quiet) /\
  (Immutable.tape_record Examples.unknown_usage_line = Some Examples.unknown_usage /\
   exists e,
     raises (Immutable.eligible 0 Examples.now (Examples.lock_object [])
               Examples.unknown_usage) Examples.quiet e /\
     Immutable.get_tapes_loop 0 Examples.now (Examples.lock_object [])
       [Examples.unknown_usage_line; Examples.written_today_line]
       [Examples.written_yesterday] Examples.quiet
     = (Ok [Examples.written_yesterday], logged Examples.quiet [LogMsg (str_of_exn e)])) /\
  (exists w',
     Immutable.get_tapes 0 Examples.now
       (Immutable.set_tape_list (Examples.lock_object []) [Examples.written_yesterday])
       (mkworld [SshRaised "timed out"] [] [] [])
     = (Ok (Immutable.set_tape_list (Examples.lock_object []) [Examples.written_yesterday],
            Some []), w') /\
     logs w'
     = [LogMsg "Fetching Pool: FEB_3 Tape list...";
        LogMsg "[Executing Command]: vtl tape show pool FEB_3 sort-by modtime descending";
        LogMsg "SSH Connection error: timed out";
        LogMsg "Failed to retrieve Pool: FEB_3 details."]) /\
  (Reset.get_tapes_by_pool_loop 0 Examples.now [""; Examples.expired_line] 3
     [Examples.in_vault]
   = ([Examples.in_vault], Some (IndexError "list index out of range"))) /\
  (exists w',
     Reset.get_tapes_by_pool 0 Examples.now (Examples.reset_object [Examples.expired])
       (mkworld [SshRan "" ""] [] [] [])
     = (Ok (Examples.reset_object []), w') /\
     logs w'
     = [LogMsg "Fetching Pool: FEB_3 Tape list...";
        LogMsg "[Executing Command]: vtl tape show pool FEB_3 time-display retention sort-by state ascending";
        LogMsg "Failed to retrieve Pool: FEB_3 details."]).
Proof.
  destruct (parsers_keep_the_records_so_far 0 Examples.now)
    as (Hdrop & Hstop & _ & _ & Hfail & _ & _ & Hshort & _ & _ & Hfail').
  split; [| split; [| split; [| split]]].
  - split; [reflexivity |]. apply Hdrop. left. reflexivity.
  - split; [reflexivity |].
    eexists. split; [vm_compute; reflexivity |].
    refine (Hstop (Examples.lock_object []) Examples.unknown_usage_line
              Examples.unknown_usage [Examples.written_today_line]
              [Examples.written_yesterday] Examples.quiet _ eq_refl _).
    vm_compute. reflexivity.
  - destruct (Hfail (Immutable.set_tape_list (Examples.lock_object [])
                       [Examples.written_yesterday])
                (mkworld [SshRaised "timed out"] [] [] []) (or_introl eq_refl))
      as (w' & E & _ & Hlogs).
    exists w'. split; [exact E | exact Hlogs].
  - apply Hshort; [lia | vm_compute; discriminate | vm_compute; lia].
  - destruct (Hfail' (Examples.reset_object [Examples.expired])
                (mkworld [SshRan "" ""] [] [] []) (or_intror eq_refl))
      as (w' & E & _ & Hlogs).
    exists w'. split; [exact E | exact Hlogs].
Defined.

(** C6, as stated, fails for both parsers.  The reclaim parser does not
    drop a blank line between the data lines: the line ends the parse,
    and the expired tape after it is not selected; without the blank
    line it is.  The lock parser does not drop a separator row whose
    columns are two blanks apart: none of its pieces is a heading token,
    it is read as a record, its usage column is no number, and the parse
    ends before the tape written today is reached; without the row the
    tape is stored. *)
Lemma parsers_stop_at_a_line_counterexample :
  (Reset.get_tapes_by_pool_loop 0 Examples.now
     (Examples.header ++ [""; Examples.expired_line]) 0 []
   = ([], Some (IndexError "list index out of range")) /\
   Reset.get_tapes_by_pool_loop 0 Examples.now
     (Examples.header ++ [Examples.expired_line]) 0 []
   = ([Examples.expired], None)) /\
  (Immutable.remove_heading (split "  " Examples.narrow_separator) = false /\
   fst (Immutable.get_tapes 0 Examples.now (Examples.lock_object [])
          (Examples.listed_world [Examples.narrow_separator; Examples.written_today_line]))
   = Ok (Immutable.set_tape_list (Examples.lock_object []) [], None) /\
   fst (Immutable.get_tapes 0 Examples.now (Examples.lock_object [])
          (Examples.listed_world [Examples.written_today_line]))
   = Ok (Immutable.set_tape_list (Examples.lock_object []) [Examples.written_today], None)).
Proof. repeat split; vm_compute; reflexivity. Qed.

(** C1 (the code departs from the claim). A record with barcode
    TEST01L5 whose state carries no lock marker and whose retention time
    is "n/a" fails both parts of the predicate, and enters the reclaim
    tape list all the same; when it is locked and expired it enters the
    list twice. *)
Theorem test_barcode_enters_reclaim_list :
  Reset.check_state Examples.test_tape = false /\
  Reset.check_retention_date 0 Examples.now Examples.test_tape = Ok false /\
  Reset.get_tapes_by_pool_loop 0 Examples.now (split newline Examples.test_report) 0 []
  = ([Examples.test_tape], None) /\
  fst (Reset.get_tapes_by_pool 0 Examples.now (Examples.reset_object [])
         (mkworld [Examples.test_reply] [] [] []))
  = Ok (Examples.reset_object [Examples.test_tape]) /\
  List.length
    (fst (Reset.get_tapes_by_pool_loop 0 Examples.now
            (Examples.header ++ [Examples.test_line_expired]) 0 [])) = 2%nat.
Proof. repeat split; vm_compute; reflexivity. Qed.

End ParserFacts.

(** ** The two batch loops *)

Module BatchFacts.
Import Py Env Utils Spec PyFacts EnvFacts TraceFacts.

Lemma forallb_skipn {A} (f : A -> bool) n (l : list A) :
  forallb f l = true -> forallb f (skipn n l) = true.
Proof.
  revert l. induction n as [| n IH]; intros [| x l]; cbn; auto.
  intros H. apply andb_true_iff in H as [_ H]. auto.
Qed.

Lemma nsrmm_outcome_returns r : tool_returns r = true -> exists b, nsrmm_outcome r = Ok b.
Proof. destruct r as [? ? ? | ? ? ? | [] | []]; cbn; try discriminate; eauto. Qed.

Lemma nsrjb_outcome_returns r : tool_returns r = true -> exists b, nsrjb_outcome r = Ok b.
Proof. destruct r as [? ? ? | ? ? ? | [] | []]; cbn; try discriminate; eauto. Qed.

Lemma pipeline_step_returns self t sr pr j :
  Reset.jukebox_name self = Some j ->
  is_ok (capacity t) = true ->
  forallb tool_returns pr = true ->
  (2 <= List.length pr)%nat ->
  exists o n m, pipeline_step self t sr pr = (Ok o, n, m) /\ (m <= 2)%nat.
Proof.
  intros Hj Hcap Hpr Hlen.
  destruct pr as [| p1 [| p2 prest]]; cbn in Hlen; try lia.
  cbn in Hpr. apply andb_true_iff in Hpr as [H1 Hpr].
  apply andb_true_iff in Hpr as [H2 _].
  destruct (nsrmm_outcome_returns p1 H1) as (b1 & E1).
  destruct (nsrjb_outcome_returns p2 H2) as (b2 & E2).
  unfold pipeline_step. cbn [hd tl]. rewrite E1, E2, Hj.
  destruct (capacity t); [| discriminate].
  destruct b1; [| eexists _, _, _; split; [reflexivity | lia]].
  repeat match goal with
         | |- context [match ?x with _ => _ end] => destruct x
         end; eexists _, _, _; (split; [reflexivity | lia]).
Qed.

Lemma batch_outcomes_returns self j tapes :
  Reset.jukebox_name self = Some j ->
  forall sr pr,
    forallb (fun t => is_ok (capacity t)) tapes = true ->
    forallb tool_returns pr = true ->
    (2 * List.length tapes <= List.length pr)%nat ->
    exists os, batch_outcomes self tapes sr pr = Ok os /\
               List.length os = List.length tapes.
Proof.
  intros Hj. induction tapes as [| t rest IH]; intros sr pr Hcap Hpr Hlen.
  - exists []. auto.
  - cbn in Hcap. apply andb_true_iff in Hcap as [Ht Hrest]. cbn [List.length] in Hlen.
    destruct (pipeline_step_returns self t sr pr j Hj Ht Hpr ltac:(lia))
      as (o & n & m & E & Hm).
    cbn [batch_outcomes]. rewrite E.
    destruct (IH (skipn n sr) (skipn m pr) Hrest (forallb_skipn _ _ _ Hpr))
      as (os & Eos & Hos).
    { rewrite length_skipn. lia. }
    exists (o :: os). rewrite Eos. cbn. auto.
Qed.

(** No outcome of a batch is a failure of the label stage. *)
Lemma batch_outcomes_never_label self tapes :
  forall sr pr os,
    batch_outcomes self tapes sr pr = Ok os ->
    Forall (fun o => o <> FailedAt Label) os.
Proof.
  induction tapes as [| t rest IH]; intros sr pr os; cbn [batch_outcomes].
  - intros [= <-]. constructor.
  - pose proof (ResetFacts.pipeline_step_never_label self t sr pr) as Hn.
    destruct (pipeline_step self t sr pr) as [[[o | e] n] m]; [| discriminate].
    cbn [fst] in Hn.
    destruct (batch_outcomes self rest (skipn n sr) (skipn m pr)) as [os' |] eqn:E;
      [| discriminate].
    intros [= <-]. constructor; [congruence | eapply IH; eassumption].
Qed.

(** *** Every tape is filed once *)

Lemma record_outcome_filed t o b :
  o <> FailedAt Label ->
  Permutation (filed (record_outcome t o b)) (filed b ++ [Reset.barcode t]).
Proof.
  intros Ho. destruct o as [| []]; try congruence;
    unfold filed, record_outcome;
    cbn [Reset.created Reset.failed_tape_while_export Reset.failed_tape_while_remove
         Reset.failed_tape_while_create Reset.failed_tape_while_import
         Reset.failed_tape_while_delete_on_networker];
    rewrite ?map_app; cbn [map]; rewrite <- ?app_assoc;
    repeat apply Permutation_app_head;
    try reflexivity; cbn [app]; rewrite ?app_assoc; apply Permutation_cons_append.
Qed.

Lemma record_all_filed tapes :
  forall os b,
    Forall (fun o => o <> FailedAt Label) os ->
    List.length os = List.length tapes ->
    Permutation (filed (record_all tapes os b)) (filed b ++ map Reset.barcode tapes).
Proof.
  induction tapes as [| t rest IH]; intros os b Hos Hlen.
  - destruct os; cbn; now rewrite app_nil_r.
  - destruct os as [| o os]; [discriminate |]. inversion Hos as [| ? ? Ho Hrest]; subst.
    cbn [record_all map]. rewrite (IH os (record_outcome t o b) Hrest) by (cbn in Hlen; lia).
    rewrite (record_outcome_filed t o b Ho). now rewrite <- app_assoc.
Qed.

(** *** Every tape is started *)

Lemma pipeline_events_start self t sr pr :
  In (EvProc (delete_argv t)) (pipeline_events self t sr pr).
Proof.
  unfold pipeline_events. apply in_or_app. left.
  destruct (hd no_tool pr); left; reflexivity.
Qed.

Lemma batch_events_start self tapes :
  forall sr pr os t,
    batch_outcomes self tapes sr pr = Ok os -> In t tapes ->
    In (EvProc (delete_argv t)) (batch_events self tapes sr pr).
Proof.
  induction tapes as [| t0 rest IH]; intros sr pr os t Hos Hin; [contradiction |].
  cbn [batch_outcomes batch_events] in *. apply in_or_app.
  destruct Hin as [-> | Hin]; [left; apply pipeline_events_start |]. right.
  destruct (pipeline_step self t0 sr pr) as [[[o | e] n] m]; [| discriminate].
  destruct (batch_outcomes self rest (skipn n sr) (skipn m pr)) as [os' |] eqn:E;
    [| discriminate].
  eapply IH; eassumption.
Qed.

(** *** Exceptions *)

Lemma reclaim_loop_raises self t rest b w e :
  raises (Reset.reclaim_tape self t b) w e ->
  raises (Reset.reclaim_loop self (t :: rest) b) w e.
Proof.
  intros H. unfold raises in *. cbn [Reset.reclaim_loop].
  destruct (Reset.reclaim_tape self t b w) as [r w1] eqn:E. cbn [fst] in H. subst r.
  now rewrite (bind_raised _ _ _ _ _ E).
Qed.

Lemma remove_retention_locked_tapes_raises self t rest w e :
  Reset.retention_locked_tape_list self = t :: rest ->
  raises (Reset.reclaim_tape self t Reset.no_buckets) w e ->
  raises (Reset.remove_retention_locked_tapes self) w e.
Proof.
  intros Hl H. pose proof (reclaim_loop_raises self t rest _ w e H) as Hloop.
  unfold raises in *. unfold Reset.remove_retention_locked_tapes. rewrite Hl.
  cbn [List.length]. replace (0 <? Z.of_nat (S (List.length rest))) with true
    by (symmetry; apply Z.ltb_lt; lia).
  destruct (Reset.reclaim_loop self (t :: rest) Reset.no_buckets w) as [r w1] eqn:E.
  cbn [fst] in Hloop. subst r. now rewrite (bind_raised _ _ _ _ _ E).
Qed.

(** *** Missing configuration *)

Lemma reset_validate_missing self w :
  Reset.instances self = None \/ Reset.pools self = None \/ Reset.cred_file self = None ->
  exists w', Reset.validate_input_parameters self w = (Raise (SystemExit 1), w').
Proof.
  intros H. unfold Reset.validate_input_parameters.
  destruct (Reset.instances self), (Reset.pools self), (Reset.cred_file self);
    try (destruct H as [H | [H | H]]; discriminate);
    cbv [bind ret raise log_message]; eauto.
Qed.

Lemma lock_validate_missing self w :
  Immutable.instance self = None \/ Immutable.pool self = None \/
  Immutable.cred_file self = None \/ Immutable.minimum_tape_usage self = PNone \/
  Immutable.mechanism self = PNone ->
  exists w', Immutable.validate_input_parameters self w = (Raise (SystemExit 1), w').
Proof.
  intros H. unfold Immutable.validate_input_parameters.
  destruct (Immutable.instance self), (Immutable.pool self), (Immutable.cred_file self),
    (Immutable.minimum_tape_usage self), (Immutable.mechanism self);
    try (destruct H as [H | [H | [H | [H | H]]]]; discriminate);
    cbv [bind ret raise log_message is_none]; eauto.
Qed.

(** C3 (amended). In the reclaim loop, when the jukebox name is
    configured, every tape's size starts with a whole number and the two
    tools answer or raise CalledProcessError for every tape, the loop
    runs to its end whatever the remote commands answer: every tape gets
    the outcome its own replies decide, its delete command is run, and
    it is filed in exactly one of the six lists; a tape whose label tool
    fails is filed as created, and the exit status of the delete tool is
    not looked at.  In the lock loop, when a period is configured and
    every re-query yields at least one row, both commands of every tape
    are issued, in order, and the barcodes returned are those of the
    tapes whose re-query shows the state "RO/RL*"; a tape whose lock did
    not take effect is left out and the loop goes on.  Without a
    configured period no command is issued and no tape is locked.  An
    exception raised while one tape is processed is handled by neither
    loop nor by the function around it: it ends the batch.  A missing
    configuration key ends the process with status 1. *)
Theorem batch_runs_through_reported_failures :
  (forall self j tapes w,
      Reset.jukebox_name self = Some j ->
      forallb (fun t => is_ok (capacity t)) tapes = true ->
      forallb tool_returns (proc_replies w) = true ->
      (2 * List.length tapes <= List.length (proc_replies w))%nat ->
      exists os w',
        batch_outcomes self tapes (ssh_replies w) (proc_replies w) = Ok os /\
        List.length os = List.length tapes /\
        Reset.reclaim_loop self tapes Reset.no_buckets w
        = (Ok (record_all tapes os Reset.no_buckets), w') /\
        Permutation (filed (record_all tapes os Reset.no_buckets))
                    (map Reset.barcode tapes) /\
        events w'
        = (events w ++ batch_events self tapes (ssh_replies w) (proc_replies w))%list /\
        (forall t, In t tapes -> In (EvProc (delete_argv t)) (events w'))) /\
  (forall self p tapes w,
      Immutable.retention_lock_period self = Some p ->
      requeries_answered (List.length tapes) (ssh_replies w) = true ->
      exists rs w',
        List.length rs = List.length tapes /\
        (forall k, (k < List.length tapes)%nat ->
                   nth_error rs k
                   = Some (confirmed (nth (2 * k + 1) (ssh_replies w) no_reply))) /\
        Immutable.apply_loop self tapes [] w = (Ok (locked_barcodes tapes rs), w') /\
        advanced w w' (2 * List.length tapes) 0
          (map (EvSsh (fmt (Immutable.instance self))) (lock_commands tapes p))) /\
  (forall self tapes w,
      Immutable.retention_lock_period self = None ->
      exists w',
        Immutable.apply_loop self tapes [] w = (Ok [], w') /\ advanced w w' 0 0 []) /\
  (forall self t rest w e,
      Reset.retention_locked_tape_list self = t :: rest ->
      raises (Reset.reclaim_tape self t Reset.no_buckets) w e ->
      raises (Reset.reclaim_loop self (t :: rest) Reset.no_buckets) w e /\
      raises (Reset.remove_retention_locked_tapes self) w e) /\
  (forall self t rest w e,
      Immutable.tape_list self = t :: rest ->
      Immutable.pool_retention_lock_enabled self = true ->
      raises (Immutable.set_retention_lock self t) w e ->
      raises (Immutable.apply_loop self (t :: rest) []) w e /\
      raises (Immutable.apply_retention_lock_to_tapes self) w e) /\
  (forall self w,
      Reset.instances self = None \/ Reset.pools self = None \/
      Reset.cred_file self = None ->
      raises (Reset.validate_input_parameters self) w (SystemExit 1)) /\
  (forall self w,
      Immutable.instance self = None \/ Immutable.pool self = None \/
      Immutable.cred_file self = None \/ Immutable.minimum_tape_usage self = PNone \/
      Immutable.mechanism self = PNone ->
      raises (Immutable.validate_input_parameters self) w (SystemExit 1)).
Proof.
  split; [| split; [| split; [| split; [| split; [| split]]]]].
  - intros self j tapes w Hj Hcap Hpr Hlen.
    destruct (batch_outcomes_returns self j tapes Hj (ssh_replies w) (proc_replies w)
                Hcap Hpr Hlen) as (os & E & Hos).
    destruct (ResetFacts.reclaim_loop_trace self tapes Reset.no_buckets w)
      as (w' & E' & Hev).
    rewrite E in E'. exists os, w'.
    split; [exact E |]. split; [exact Hos |]. split; [exact E' |].
    split; [| split; [exact Hev |]].
    + exact (record_all_filed tapes os Reset.no_buckets
               (batch_outcomes_never_label self tapes _ _ os E) Hos).
    + intros t Ht. rewrite Hev. apply in_or_app. right.
      eapply batch_events_start; eassumption.
  - intros self p tapes w Hp H.
    destruct (ImmutableFacts.lock_outcomes_confirmed self p tapes Hp (ssh_replies w) H)
      as (rs & E & Hl & Hk).
    destruct (ImmutableFacts.apply_loop_trace self p tapes Hp [] w H)
      as (rs' & w' & E' & Eloop & Hadv).
    rewrite E in E'. injection E' as <-.
    exists rs, w'. repeat split; auto; apply Hadv.
  - intros self tapes w Hp. apply ImmutableFacts.apply_loop_no_period. exact Hp.
  - intros self t rest w e Hl H. split.
    + now apply reclaim_loop_raises.
    + eapply remove_retention_locked_tapes_raises; eassumption.
  - intros self t rest w e Hl Hen H. split.
    + now apply ImmutableFacts.apply_loop_raises.
    + eapply ImmutableFacts.apply_retention_lock_to_tapes_raises; eassumption.
  - intros self w H. destruct (reset_validate_missing self w H) as (w' & E).
    unfold raises. now rewrite E.
  - intros self w H. destruct (lock_validate_missing self w H) as (w' & E).
    unfold raises. now rewrite E.
Qed.

Lemma batch_runs_through_reported_failures_witness :
  (exists w',
     Reset.reclaim_loop (Examples.reset_object [])
       [Examples.expired; Examples.no_slot; Examples.other_expired]
       Reset.no_buckets Examples.mixed_batch
     = (Ok (Reset.mkbuckets ["A55165LA"] [Examples.no_slot] [Examples.expired] [] [] []),
        w') /\
     In (EvProc ["nsrmm"; "-d"; "A55165LA"]) (events w')) /\
  (exists w',
     Immutable.apply_loop (Examples.lock_object [])
       [Examples.written_today; Examples.second_tape] [] Examples.first_lock_refused
     = (Ok ["A55158LA"], w') /\
     events w'
     = [EvSsh "dd01" "vtl tape modify A55157LA pool FEB_3 retention-lock 2year";
        EvSsh "dd01" "vtl tape show pool FEB_3 barcode A55157LA";
        EvSsh "dd01" "vtl tape modify A55158LA pool FEB_3 retention-lock 2year";
        EvSsh "dd01" "vtl tape show pool FEB_3 barcode A55158LA"]) /\
  raises (Reset.remove_retention_locked_tapes
            (Examples.reset_object [Examples.fractional; Examples.expired]))
         Examples.all_fine
         (ValueError "invalid literal for int() with base 10: '1.5'") /\
  raises (Immutable.apply_retention_lock_to_tapes
            (Immutable.set_tape_list (Examples.lock_object [])
               [Examples.written_today; Examples.second_tape]))
         Examples.requery_fails
         (IndexError "list index out of range") /\
  raises (Reset.validate_input_parameters Examples.reset_object_without_pool)
         Examples.quiet (SystemExit 1) /\
  raises (Immutable.validate_input_parameters Examples.lock_object_without_mechanism)
         Examples.quiet (SystemExit 1).
Proof.
  destruct batch_runs_through_reported_failures
    as (Hr & Hl & _ & Hre & Hle & Hrv & Hlv).
  split; [| split; [| split; [| split; [| split]]]];
    [| | | | apply Hrv; right; left; reflexivity
         | apply Hlv; do 4 right; reflexivity].
  - destruct (Hr (Examples.reset_object []) "jukebox1"
                [Examples.expired; Examples.no_slot; Examples.other_expired]
                Examples.mixed_batch eq_refl eq_refl eq_refl ltac:(cbn; lia))
      as (os & w' & Eos & _ & Eloop & _ & _ & Hstart).
    vm_compute in Eos. injection Eos as <-.
    exists w'. split; [exact Eloop |].
    apply (Hstart Examples.other_expired). right. right. left. reflexivity.
  - destruct (Hl (Examples.lock_object [])
                "2year" [Examples.written_today; Examples.second_tape]
                Examples.first_lock_refused eq_refl eq_refl)
      as (rs & w' & Hlen & Hk & Eloop & Hadv).
    destruct rs as [| r1 [| r2 [| r3 rs]]]; try discriminate Hlen.
    pose proof (Hk 0%nat ltac:(cbn; lia)) as H0.
    pose proof (Hk 1%nat ltac:(cbn; lia)) as H1.
    vm_compute in H0, H1. injection H0 as ->. injection H1 as ->.
    exists w'. split; [exact Eloop |]. now destruct Hadv as (_ & _ & ->).
  - refine (proj2 (Hre (Examples.reset_object [Examples.fractional; Examples.expired])
                     Examples.fractional [Examples.expired] Examples.all_fine _ eq_refl _)).
    vm_compute. reflexivity.
  - refine (proj2 (Hle (Immutable.set_tape_list (Examples.lock_object [])
                          [Examples.written_today; Examples.second_tape])
                     Examples.written_today [Examples.second_tape] Examples.requery_fails _
                     eq_refl eq_refl _)).
    vm_compute. reflexivity.
Defined.

(** C3, as stated, fails in both loops: a tape whose size is "1.5 GiB"
    makes the create stage raise ValueError, which ends the reclaim loop
    before the next tape is touched; a re-query that yields no row makes
    the lock loop raise IndexError before the next tape is touched. *)
Lemma exception_ends_the_batch_counterexample :
  fst (Reset.reclaim_loop (Examples.reset_object []) [Examples.fractional; Examples.expired]
         Reset.no_buckets Examples.all_fine)
  = Raise (ValueError "invalid literal for int() with base 10: '1.5'") /\
  existsb (fun ev => match ev with
                     | EvProc cmd => mem "A55157LA" cmd
                     | EvSsh _ cmd => contains "A55157LA" cmd
                     | _ => false
                     end)
    (events (snd (Reset.reclaim_loop (Examples.reset_object [])
                    [Examples.fractional; Examples.expired]
                    Reset.no_buckets Examples.all_fine))) = false /\
  fst (Immutable.apply_loop (Examples.lock_object [])
         [Examples.written_today; Examples.second_tape] [] Examples.requery_fails)
  = Raise (IndexError "list index out of range") /\
  existsb (fun ev => match ev with
                     | EvSsh _ cmd => contains "A55158LA" cmd
                     | _ => false
                     end)
    (events (snd (Immutable.apply_loop (Examples.lock_object [])
                    [Examples.written_today; Examples.second_tape] [] Examples.requery_fails)))
  = false.
Proof. repeat split; vm_compute; reflexivity. Qed.

End BatchFacts.

(** ** Strings *)

Module StringFacts.
Import Py PyFacts.

Lemma rstrip_idempotent s : rstrip (rstrip s) = rstrip s.
Proof.
  induction s as [| c s IH]; [reflexivity |]. cbn [rstrip].
  destruct (rstrip s) as [| d r] eqn:E.
  - destruct (is_space c) eqn:Hc; [reflexivity |]. cbn. now rewrite Hc.
  - cbn [rstrip]. cbn [rstrip] in IH. now rewrite IH.
Qed.

Lemma lstrip_head s :
  lstrip s = EmptyString \/ exists c r, lstrip s = String c r /\ is_space c = false.
Proof.
  induction s as [| c s IH]; [now left |]. cbn [lstrip].
  destruct (is_space c) eqn:Hc; [exact IH |]. right. eauto.
Qed.

Lemma rstrip_head c r :
  is_space c = false -> exists r', rstrip (String c r) = String c r'.
Proof.
  intros Hc. cbn [rstrip]. destruct (rstrip r); [rewrite Hc |]; eauto.
Qed.

Lemma lstrip_ident c r : is_space c = false -> lstrip (String c r) = String c r.
Proof. intros Hc. cbn. now rewrite Hc. Qed.

(** [strip] leaves nothing to strip. *)
Lemma strip_idempotent s : strip (strip s) = strip s.
Proof.
  unfold strip. destruct (lstrip_head s) as [-> | (c & r & -> & Hc)]; [reflexivity |].
  destruct (rstrip_head c r Hc) as (r' & E).
  rewrite E, (lstrip_ident c r' Hc), <- E. apply rstrip_idempotent.
Qed.

End StringFacts.

(** ** Remote commands, the result filter and the label tool (utils.py) *)

Module SessionFacts.
Import Py Env Utils Spec PyFacts EnvFacts TraceFacts StringFacts.

(** *** Remote commands *)

(** X1. A remote command never raises: it uses up one reply, issues one
    command, and answers [False] exactly when connecting or running
    raised or the command wrote something other than white space to its
    standard error; otherwise it answers the standard output, which
    carries no white space at either end. *)
Theorem execute_ssh_command_fail_soft command instance user password w :
  exists r w',
    execute_ssh_command command instance user password w = (Ok r, w') /\
    advanced w w' 1 0 [EvSsh instance command] /\
    (r = None <->
     (exists msg, head_ssh w = SshRaised msg) \/
     (exists out err, head_ssh w = SshRan out err /\ strip err <> EmptyString)) /\
    (forall out, r = Some out ->
       strip out = out /\ exists o e, head_ssh w = SshRan o e /\ out = strip o).
Proof.
  destruct (run_ssh command instance user password w) as (w' & E & Hadv).
  exists (ssh_value (head_ssh w)), w'. split; [exact E |]. split; [exact Hadv |].
  destruct (head_ssh w) as [out err | msg]; cbn [ssh_value].
  - destruct (strip err) as [| c r] eqn:Herr; cbn [is_empty].
    + split.
      * split; [discriminate |].
        intros [(m & [=]) | (o & e & [= <- <-] & H)]. now rewrite Herr in H.
      * intros x [= <-]. split; [apply strip_idempotent | eauto].
    + split.
      * split; [| reflexivity]. intros _. right. exists out, err.
        split; [reflexivity |]. now rewrite Herr.
      * discriminate.
  - split; [split; eauto | discriminate].
Qed.

(** *** The result filter *)



(** *** The label tool *)

(** X3. The label helper answers by the tool's exit status, whenever the
    tool exits: [True] with a wait of 60 when it is 0, [False] without a
    wait otherwise; an item of the command that is not a string raises
    before the tool is started; an exception other than
    [CalledProcessError] is passed on. *)
Theorem run_nsrjb_command_by_exit_status command w :
  (forall argv out err rc,
      str_items command = Ok argv ->
      head_proc w = ProcCompleted out err rc \/ head_proc w = ProcExited out err rc ->
      exists w',
        run_nsrjb_command command w = (Ok (rc =? 0), w') /\
        advanced w w' 0 1
          (if rc =? 0 then [EvProc argv; EvSleep 60] else [EvProc argv])) /\
  (forall e,
      str_items command = Raise e ->
      run_nsrjb_command command w = (Raise e, w)) /\
  (forall argv e,
      str_items command = Ok argv ->
      head_proc w = ProcSpawnRaised e \/ head_proc w = ProcIORaised e ->
      (forall rc, e <> CalledProcessError rc) ->
      exists w',
        run_nsrjb_command command w = (Raise e, w') /\
        advanced w w' 0 1 [EvProc argv]).
Proof.
  repeat apply conj.
  - intros argv out err rc Hargv Hhead.
    destruct (run_nsrjb_command_trace command argv w Hargv) as (w' & E & Hadv).
    destruct Hhead as [Hhead | Hhead]; rewrite Hhead in E, Hadv; eauto.
  - intros e He. unfold run_nsrjb_command. now rewrite He.
  - intros argv e Hargv Hhead Hne.
    destruct (run_nsrjb_command_trace command argv w Hargv) as (w' & E & Hadv).
    exists w'.
    destruct Hhead as [Hhead | Hhead]; rewrite Hhead in E, Hadv;
      cbn [nsrjb_outcome nsrjb_events] in E, Hadv;
      (destruct e; try (split; [exact E | exact Hadv]); now destruct (Hne returncode)).
Qed.

Lemma run_nsrjb_command_by_exit_status_witness :
  (exists w',
     run_nsrjb_command [Some "nsrjb"; Some "-L"] (mkworld [] [Examples.exited 1] [] [])
     = (Ok false, w') /\
     advanced (mkworld [] [Examples.exited 1] [] []) w' 0 1 [EvProc ["nsrjb"; "-L"]]) /\
  run_nsrjb_command [Some "nsrjb"; None] Examples.quiet
  = (Raise (TypeError "sequence item 1: expected str instance, NoneType found"),
     Examples.quiet) /\
  (exists w',
     run_nsrjb_command [Some "nsrjb"] Examples.quiet
     = (Raise (OSError "no such file"), w') /\
     advanced Examples.quiet w' 0 1 [EvProc ["nsrjb"]]).
Proof.
  split; [| split].
  - destruct (run_nsrjb_command_by_exit_status [Some "nsrjb"; Some "-L"]
                (mkworld [] [Examples.exited 1] [] [])) as (H & _).
    exact (H ["nsrjb"; "-L"] EmptyString EmptyString 1 eq_refl (or_introl eq_refl)).
  - destruct (run_nsrjb_command_by_exit_status [Some "nsrjb"; None] Examples.quiet)
      as (_ & H & _).
    apply H. reflexivity.
  - destruct (run_nsrjb_command_by_exit_status [Some "nsrjb"] Examples.quiet)
      as (_ & _ & H).
    apply (H ["nsrjb"] (OSError "no such file") eq_refl).
    + left. reflexivity.
    + discriminate.
Defined.

End SessionFacts.

(** ** Configuration, state of the library, governance mode *)

Module GovernanceFacts.
Import Py Env Utils Spec PyFacts EnvFacts TraceFacts StringFacts.

(** *** Required keys *)

(** X4. Validation passes exactly when the required keys are present: five
    in the lock workflow, three in the reclaim workflow (the jukebox
    name is not one of them); it issues no command. *)
Theorem validate_input_parameters_passes_iff :
  (forall self w,
      returns (Immutable.validate_input_parameters self) w tt <->
      Immutable.instance self <> None /\ Immutable.pool self <> None /\
      Immutable.cred_file self <> None /\ Immutable.minimum_tape_usage self <> PNone /\
      Immutable.mechanism self <> PNone) /\
  (forall self w,
      returns (Reset.validate_input_parameters self) w tt <->
      Reset.instances self <> None /\ Reset.pools self <> None /\
      Reset.cred_file self <> None) /\
  (forall self w,
      advanced w (snd (Immutable.validate_input_parameters self w)) 0 0 []) /\
  (forall self w,
      advanced w (snd (Reset.validate_input_parameters self w)) 0 0 []).
Proof.
  repeat apply conj.
  - intros self w. unfold returns, Immutable.validate_input_parameters.
    destruct (Immutable.instance self), (Immutable.pool self), (Immutable.cred_file self),
      (Immutable.minimum_tape_usage self), (Immutable.mechanism self);
      cbv [bind ret raise log_message is_none fst]; split;
      try discriminate; try (intros (? & ? & ? & ? & ?); congruence);
      intros _; repeat split; discriminate.
  - intros self w. unfold returns, Reset.validate_input_parameters.
    destruct (Reset.instances self), (Reset.pools self), (Reset.cred_file self);
      cbv [bind ret raise log_message fst]; split;
      try discriminate; try (intros (? & ? & ?); congruence);
      intros _; repeat split; discriminate.
  - intros self w. unfold Immutable.validate_input_parameters, advanced.
    destruct (Immutable.instance self), (Immutable.pool self), (Immutable.cred_file self),
      (Immutable.minimum_tape_usage self), (Immutable.mechanism self);
      cbv [bind ret raise log_message is_none snd ssh_replies proc_replies events skipn];
      now rewrite app_nil_r.
  - intros self w. unfold Reset.validate_input_parameters, advanced.
    destruct (Reset.instances self), (Reset.pools self), (Reset.cred_file self);
      cbv [bind ret raise log_message snd ssh_replies proc_replies events skipn];
      now rewrite app_nil_r.
Qed.

(** *** State of the library *)

Lemma shows_up_not_empty s :
  negb (is_empty s) && contains "enabled" s && contains "running" s
  && contains "licensed" s = shows_up (Some s).
Proof. destruct s; reflexivity. Qed.

(** X5. [check_vtl_state] issues the one command [vtl status] and never
    raises; it sets the flag when the answer contains the words enabled,
    running and licensed, and otherwise leaves the flag as it was: it
    never lowers it.  Nothing else of the object changes. *)
Theorem check_vtl_state_only_raises_the_flag :
  (forall self w, exists self' w',
      Immutable.check_vtl_state self w = (Ok self', w') /\
      advanced w w' 1 0 [EvSsh (fmt (Immutable.instance self)) "vtl status"] /\
      Immutable.VTL_STATUS self'
      = Immutable.VTL_STATUS self || shows_up (ssh_value (head_ssh w)) /\
      Immutable.set_VTL_STATUS self' false = Immutable.set_VTL_STATUS self false) /\
  (forall self w, exists self' w',
      Reset.check_vtl_state self w = (Ok self', w') /\
      advanced w w' 1 0 [EvSsh (Reset.instance self) "vtl status"] /\
      Reset.VTL_STATUS self'
      = Reset.VTL_STATUS self || shows_up (ssh_value (head_ssh w)) /\
      Reset.set_VTL_STATUS self' false = Reset.set_VTL_STATUS self false).
Proof.
  split.
  - intros self w. unfold Immutable.check_vtl_state, Immutable.ssh.
    pose proof (advanced_refl w) as Hadv.
    step_log Hadv. step_log Hadv.
    pose proof (head_ssh_same _ _ _ _ Hadv) as Hh.
    step_ssh Hadv. rewrite Hh.
    destruct (ssh_value (head_ssh w)) as [s |].
    + rewrite shows_up_not_empty. destruct (shows_up (Some s)).
      * step_log Hadv. eexists _, _. split; [reflexivity |]. split; [exact Hadv |].
        split; [cbn; now rewrite orb_true_r | reflexivity].
      * eexists _, _. split; [reflexivity |]. split; [exact Hadv |].
        split; [now rewrite orb_false_r | reflexivity].
    + eexists _, _. split; [reflexivity |]. split; [exact Hadv |].
      split; [cbn; now rewrite orb_false_r | reflexivity].
  - intros self w. unfold Reset.check_vtl_state, Reset.ssh.
    pose proof (advanced_refl w) as Hadv.
    step_log Hadv.
    pose proof (head_ssh_same _ _ _ _ Hadv) as Hh.
    step_ssh Hadv. rewrite Hh.
    destruct (ssh_value (head_ssh w)) as [s |].
    + rewrite shows_up_not_empty. destruct (shows_up (Some s)).
      * step_log Hadv. eexists _, _. split; [reflexivity |]. split; [exact Hadv |].
        split; [cbn; now rewrite orb_true_r | reflexivity].
      * eexists _, _. split; [reflexivity |]. split; [exact Hadv |].
        split; [now rewrite orb_false_r | reflexivity].
    + eexists _, _. split; [reflexivity |]. split; [exact Hadv |].
      split; [cbn; now rewrite orb_false_r | reflexivity].
Qed.


(** *** Governance mode of the pool *)

Lemma governance_loop_header line rest i rl mode :
  i + 1 <= 2 ->
  Immutable.governance_loop (line :: rest) i rl mode
  = Immutable.governance_loop rest (i + 1) rl mode.
Proof.
  intros Hi. cbn [Immutable.governance_loop].
  destruct (Z.ltb_spec 2 (i + 1)); [lia |]. cbn [andb].
  destruct (Z.leb_spec (i + 1) 2); [reflexivity | lia].
Qed.

Lemma governance_loop_skips_two lines rl mode :
  Immutable.governance_loop lines 0 rl mode
  = Immutable.governance_loop (skipn 2 lines) 2 rl mode.
Proof.
  destruct lines as [| l1 [| l2 rest]]; [reflexivity | |].
  - rewrite governance_loop_header by lia. reflexivity.
  - rewrite governance_loop_header by lia.
    rewrite governance_loop_header by lia. reflexivity.
Qed.

Lemma governance_loop_sound rows :
  forall i rl mode rl' mode' e,
    2 <= i ->
    Immutable.governance_loop rows i rl mode = (rl', mode', e) ->
    (rl' = true ->
     rl = true \/
     exists l, In l (until_close rows) /\ sets "Retention-lock" "enabled" l = true) /\
    (forall m, mode' = Some m ->
     mode = Some m \/
     (m = "governance" /\
      exists l, In l (until_close rows) /\
                sets "Retention-lock mode" "governance" l = true)).
Proof.
  induction rows as [| line rest IH]; intros i rl mode rl' mode' e Hi.
  - cbn. intros [= <- <- <-]. split; [auto | intros m ->; auto].
  - cbn [Immutable.governance_loop until_close]. unfold closes, Immutable.first_piece.
    destruct (Z.ltb_spec 2 (i + 1)); [| lia]. cbn [andb].
    destruct (1 <? count_char_0_2 "-"%char (hd EmptyString (split "  " line))).
    { intros [= <- <- <-]. split; [auto | intros m ->; auto]. }
    destruct (Z.leb_spec (i + 1) 2); [lia |].
    unfold index.
    destruct (filter (fun x => negb (is_empty (strip x))) (split "  " line))
      as [| a0 [| a1 more]] eqn:Harr; cbn [nth_error].
    { intros [= <- <- <-]. split; [auto | intros m ->; auto]. }
    { intros [= <- <- <-]. split; [auto | intros m ->; auto]. }
    assert (Hset : setting line = Some (strip a0, strip a1))
      by (unfold setting; now rewrite Harr).
    destruct (String.eqb (strip a0) "Retention-lock" && String.eqb (strip a1) "enabled")
      eqn:Hen.
    { intros Hloop. apply IH in Hloop; [| lia]. destruct Hloop as (H1 & H2). split.
      - intros _. right. exists line. split; [now left |].
        unfold sets. now rewrite Hset.
      - intros m Hm. destruct (H2 m Hm) as [? | (? & l & Hl & Hs)]; [auto |].
        right. split; [assumption |]. exists l. split; [now right | assumption]. }
    destruct (String.eqb (strip a0) "Retention-lock mode"
              && String.eqb (strip a1) "governance") eqn:Hgov.
    { intros Hloop. apply IH in Hloop; [| lia]. destruct Hloop as (H1 & H2). split.
      - intros Hr. destruct (H1 Hr) as [? | (l & Hl & Hs)]; [auto |].
        right. exists l. split; [now right | assumption].
      - intros m Hm. destruct (H2 m Hm) as [[= <-] | (? & l & Hl & Hs)].
        + pose proof Hgov as Hboth.
          apply andb_true_iff in Hgov as [_ Hv]. apply String.eqb_eq in Hv.
          right. split; [assumption |]. exists line. split; [now left |].
          unfold sets. now rewrite Hset.
        + right. split; [assumption |]. exists l. split; [now right | assumption]. }
    intros Hloop. apply IH in Hloop; [| lia]. destruct Hloop as (H1 & H2). split.
    + intros Hr. destruct (H1 Hr) as [? | (l & Hl & Hs)]; [auto |].
      right. exists l. split; [now right | assumption].
    + intros m Hm. destruct (H2 m Hm) as [? | (? & l & Hl & Hs)]; [auto |].
      right. split; [assumption |]. exists l. split; [now right | assumption].
Qed.


Lemma governance_loop_complete rows :
  forall i rl mode,
    2 <= i ->
    (forall l, In l (until_close rows) -> setting l <> None) ->
    Immutable.governance_loop rows i rl mode
    = (rl || existsb (sets "Retention-lock" "enabled") (until_close rows),
       if existsb (sets "Retention-lock mode" "governance") (until_close rows)
       then Some "governance" else mode,
       None).
Proof.
  induction rows as [| line rest IH]; intros i rl mode Hi Hwf.
  - cbn. now rewrite orb_false_r.
  - cbn [Immutable.governance_loop until_close] in *.
    unfold closes, Immutable.first_piece in *.
    destruct (Z.ltb_spec 2 (i + 1)); [| lia]. cbn [andb].
    destruct (1 <? count_char_0_2 "-"%char (hd EmptyString (split "  " line))).
    { cbn. now rewrite orb_false_r. }
    destruct (Z.leb_spec (i + 1) 2); [lia |].
    pose proof (Hwf line (or_introl eq_refl)) as Hline.
    assert (Hrest : forall l, In l (until_close rest) -> setting l <> None)
      by (intros l Hl; apply Hwf; now right).
    cbn [existsb]. unfold sets at 1 3. unfold setting in Hline |- *. unfold index.
    destruct (filter (fun x => negb (is_empty (strip x))) (split "  " line))
      as [| a0 [| a1 more]]; cbn [nth_error]; try congruence.
    destruct (String.eqb_spec (strip a0) "Retention-lock") as [-> | Ho].
    + cbn [andb String.eqb Ascii.eqb Bool.eqb].
      destruct (String.eqb (strip a1) "enabled").
      * rewrite IH; [| lia | exact Hrest]. cbn [orb]. now rewrite orb_true_r.
      * rewrite IH; [| lia | exact Hrest]. reflexivity.
    + cbn [andb].
      destruct (String.eqb (strip a0) "Retention-lock mode"
                && String.eqb (strip a1) "governance") eqn:Hgov.
      * apply andb_true_iff in Hgov as [_ Hv]. apply String.eqb_eq in Hv. rewrite Hv.
        rewrite IH; [| lia | exact Hrest]. cbn [orb].
        now destruct (existsb (sets "Retention-lock mode" "governance") (until_close rest)).
      * rewrite IH; [| lia | exact Hrest]. reflexivity.
Qed.

(** X6. The governance check issues the one status command and never
    raises; the pool is taken as enabled only when, after the two header
    lines and before the closing line, the report has a line setting
    Retention-lock to enabled and a line setting Retention-lock mode to
    governance; when every line of that part has two columns, exactly
    then.  Otherwise, and when the command fails, the flag is lowered. *)
Theorem governance_check_reads_the_report self w :
  exists b w',
    Immutable.check_pool_retention_lock_governance_mode self w
    = (Ok (Immutable.set_pool_retention_lock_enabled self b,
           if b then None else Some false), w') /\
    advanced w w' 1 0
      [EvSsh (fmt (Immutable.instance self))
         ("mtree retention-lock status mtree /data/col1/" ++ fmt (Immutable.pool self))] /\
    (b = true ->
     exists data l1 l2,
       ssh_value (head_ssh w) = Some data /\
       In l1 (until_close (skipn 2 (split newline data))) /\
       In l2 (until_close (skipn 2 (split newline data))) /\
       sets "Retention-lock" "enabled" l1 = true /\
       sets "Retention-lock mode" "governance" l2 = true) /\
    (forall data,
       ssh_value (head_ssh w) = Some data ->
       (forall l, In l (until_close (skipn 2 (split newline data))) -> setting l <> None) ->
       b = existsb (sets "Retention-lock" "enabled")
             (until_close (skipn 2 (split newline data)))
           && existsb (sets "Retention-lock mode" "governance")
                (until_close (skipn 2 (split newline data)))).
Proof.
  unfold Immutable.check_pool_retention_lock_governance_mode, Immutable.ssh.
  pose proof (advanced_refl w) as Hadv.
  step_log Hadv. step_log Hadv.
  pose proof (head_ssh_same _ _ _ _ Hadv) as Hh.
  step_ssh Hadv. rewrite Hh.
  destruct (ssh_value (head_ssh w)) as [data |].
  2:{ rewrite bind_assoc. step_log Hadv. rewrite bind_ret. cbv beta iota. cbn [andb].
      step_log Hadv.
      exists false. eexists. split; [reflexivity |]. split; [exact Hadv |].
      split; [discriminate | discriminate]. }
  rewrite governance_loop_skips_two.
  destruct (Immutable.governance_loop (skipn 2 (split newline data)) 2 false None)
    as [[rl mode] e] eqn:Hloop.
  pose proof (governance_loop_sound _ 2 _ _ _ _ _ ltac:(lia) Hloop) as (Hs1 & Hs2).
  rewrite bind_assoc.
  assert (Hstep : exists w3,
             (match e with
              | Some e0 => log_message (LogExn e0)
              | None => ret tt
              end) w2 = (Ok tt, w3) /\ advanced w2 w3 0 0 []).
  { destruct e as [e0 |]; [apply run_log |].
    exists w2. split; [reflexivity | apply advanced_refl]. }
  destruct Hstep as (w3 & E3 & H3).
  rewrite (bind_run _ _ _ _ _ E3). chain Hadv H3. rewrite bind_ret. cbv beta iota.
  remember (rl && match mode with
                   | Some m => String.eqb m "governance"
                   | None => false
                   end) as b eqn:Hbdef.
  assert (Hb : b = true -> rl = true /\ mode = Some "governance").
  { subst b. destruct rl; [| discriminate]. destruct mode as [m |]; [| discriminate].
    cbn [andb]. intros Hm. apply String.eqb_eq in Hm. now subst m. }
  exists b.
  assert (Hrun : exists w',
             (if b
              then
                log_message
                  (LogMsg ("Retention-lock feature is already enabled for MTREE /data/col1/"
                           ++ fmt (Immutable.pool self))) ;;
                ret (Immutable.set_pool_retention_lock_enabled self true, None)
              else
                log_message
                  (LogMsg ("Retention-lock feature is not enabled for MTREE /data/col1/"
                           ++ fmt (Immutable.pool self))) ;;
                ret (Immutable.set_pool_retention_lock_enabled self false, Some false)) w3
             = (Ok (Immutable.set_pool_retention_lock_enabled self b,
                    if b then None else Some false), w')
             /\ advanced w3 w' 0 0 []).
  { destruct b.
    - destruct (run_log (LogMsg ("Retention-lock feature is already enabled for MTREE /data/col1/"
                                 ++ fmt (Immutable.pool self))) w3) as (w' & E & H).
      exists w'. now rewrite (bind_run _ _ _ _ _ E).
    - destruct (run_log (LogMsg ("Retention-lock feature is not enabled for MTREE /data/col1/"
                                 ++ fmt (Immutable.pool self))) w3) as (w' & E & H).
      exists w'. now rewrite (bind_run _ _ _ _ _ E). }
  destruct Hrun as (w' & E & H'). exists w'. split; [exact E |].
  chain Hadv H'. split; [exact Hadv |]. split.
  - intros Hbt. destruct (Hb Hbt) as (Hrl & Hmode).
    destruct (Hs1 Hrl) as [[=] | (l1 & Hl1 & Hen)].
    destruct (Hs2 _ Hmode) as [[=] | (_ & l2 & Hl2 & Hgov)].
    exists data, l1, l2. auto.
  - intros data0 [= <-] Hwf.
    rewrite (governance_loop_complete _ 2 false None ltac:(lia) Hwf) in Hloop.
    injection Hloop as <- <- _. subst b. cbn [orb].
    destruct (existsb (sets "Retention-lock" "enabled") _); [| reflexivity].
    destruct (existsb (sets "Retention-lock mode" "governance") _); reflexivity.
Qed.

Lemma governance_check_reads_the_report_witness :
  exists b w',
    Immutable.check_pool_retention_lock_governance_mode (Examples.lock_object [])
      (mkworld [SshRan Examples.governance_report ""] [] [] [])
    = (Ok (Immutable.set_pool_retention_lock_enabled (Examples.lock_object []) b,
           if b then None else Some false), w') /\
    b = true.
Proof.
  destruct (governance_check_reads_the_report (Examples.lock_object [])
              (mkworld [SshRan Examples.governance_report ""] [] [] []))
    as (b & w' & E & _ & _ & Hc).
  exists b, w'. split; [exact E |].
  apply (Hc Examples.governance_report); [reflexivity |].
  intros l Hl. vm_compute in Hl. destruct Hl as [<- | [<- | []]]; vm_compute; discriminate.
Defined.

End GovernanceFacts.
